(** * msprtckit: the MSP430 Real Time Clock Kit (rtckit.c / rtckit.h)

    A shallow embedding of the epoch / calendar conversion
    ([rtc_interpret], [rtc_epoch] and their helpers) and of the one-second
    tick handler ([RTC_ISR]), with the properties of the design document
    stated and settled against them.

    Integer model.  The code is written for the MSP430, whose ABI has
    16-bit [int] / [unsigned int] and 32-bit [long] / [unsigned long].
    Every C integer is a [Z]; each arithmetic result is reduced to the
    width of its C type ([u16], [u32], [s16], [s32]).  The fields of
    [struct tm] are [int]. *)

From Stdlib Require Import ZArith List Bool Lia String.
Import ListNotations.
Local Open Scope Z_scope.

(** ** Machine integers *)

Module CInt.

Definition u16 (x : Z) : Z := x mod 65536.
Definition u32 (x : Z) : Z := x mod 4294967296.
(** Conversion to a signed type keeps the low bits (two's complement). *)
Definition s16 (x : Z) : Z := (x + 32768) mod 65536 - 32768.
Definition s32 (x : Z) : Z := (x + 2147483648) mod 4294967296 - 2147483648.

Definition is_u16 (x : Z) : Prop := 0 <= x < 65536.
Definition is_u32 (x : Z) : Prop := 0 <= x < 4294967296.
Definition is_s16 (x : Z) : Prop := -32768 <= x < 32768.

End CInt.
Import CInt.

(** ** Outcomes of a C computation

    [Done] is a normal return.  [Undefined] is a read outside the bounds of
    [monthInfo] (or of an object that was never written).  [OutOfFuel] says
    that the bound given to a loop of the model was too small; the loop
    lemmas below show that the bounds used here are large enough. *)

Inductive outcome (A : Type) : Type :=
| Done (a : A)
| Undefined
| OutOfFuel.
Arguments Done {A} a.
Arguments Undefined {A}.
Arguments OutOfFuel {A}.

Definition bind {A B : Type} (m : outcome A) (k : A -> outcome B) : outcome B :=
  match m with
  | Done a => k a
  | Undefined => Undefined
  | OutOfFuel => OutOfFuel
  end.

Notation "'let*' p ':=' m 'in' k" := (bind m (fun p => k))
  (at level 61, p as pattern, m at next level, right associativity).

(** [while (cond) body], run for at most [fuel] iterations. *)
Fixpoint while_loop {St : Type} (fuel : nat) (cond : St -> bool)
    (body : St -> outcome St) (s : St) : outcome St :=
  if cond s then
    match fuel with
    | O => OutOfFuel
    | S n => let* s' := body s in while_loop n cond body s'
    end
  else Done s.

(** ** rtckit.h: constants and tables *)

Definition RTC_GENERAL_ERROR : Z := 0x8000.
Definition RTC_TICK : Z := 0x0001.
Definition RTC_TICK_DOES_WAKEUP : Z := 0x0100.
Definition RTCALARM_0_TRIGGERED : Z := 0x0002.
Definition RTCALARM_1_TRIGGERED : Z := 0x0004.

Definition TOTAL_SECONDS_PER_LEAP_CYCLE : Z := (86400 * 365) * 3 + (86400 * 366).
Definition EPOCH_AFTER_FIRST_LEAPYEAR : Z := (86400 * 365) * 2 + (86400 * 366).

Record rtcDayInfo := mkDayInfo {
  day_shortName : string;
  day_longName : string
}.

Record rtcMonthInfo := mkMonthInfo {
  days : Z;
  shortName : string;
  longName : string
}.

Definition monthInfo : list rtcMonthInfo :=
  [ mkMonthInfo 31 "Jan" "January";
    mkMonthInfo 28 "Feb" "February";
    mkMonthInfo 31 "Mar" "March";
    mkMonthInfo 30 "Apr" "April";
    mkMonthInfo 31 "May" "May";
    mkMonthInfo 30 "Jun" "June";
    mkMonthInfo 31 "Jul" "July";
    mkMonthInfo 31 "Aug" "August";
    mkMonthInfo 30 "Sep" "September";
    mkMonthInfo 31 "Oct" "October";
    mkMonthInfo 30 "Nov" "November";
    mkMonthInfo 31 "Dec" "December" ].

Definition dayInfo : list rtcDayInfo :=
  [ mkDayInfo "Sun" "Sunday";
    mkDayInfo "Mon" "Monday";
    mkDayInfo "Tue" "Tuesday";
    mkDayInfo "Wed" "Wednesday";
    mkDayInfo "Thu" "Thursday";
    mkDayInfo "Fri" "Friday";
    mkDayInfo "Sat" "Saturday" ].

(** [monthInfo[i].days]; an index outside the twelve entries is an
    out-of-bounds read. *)
Definition monthInfo_days (i : Z) : outcome Z :=
  if (0 <=? i) && (i <? Z.of_nat (List.length monthInfo)) then
    match nth_error monthInfo (Z.to_nat i) with
    | Some m => Done (days m)
    | None => Undefined
    end
  else Undefined.

(** ** <time.h>: struct tm *)

Record tm := mkTm {
  tm_sec : Z;
  tm_min : Z;
  tm_hour : Z;
  tm_mday : Z;
  tm_mon : Z;
  tm_year : Z;
  tm_wday : Z;
  tm_yday : Z;
  tm_isdst : Z
}.

Definition set_tm_yday (t : tm) (v : Z) : tm :=
  mkTm (tm_sec t) (tm_min t) (tm_hour t) (tm_mday t) (tm_mon t) (tm_year t)
       (tm_wday t) v (tm_isdst t).

(** ** rtckit.c: timestamp interpretation *)

Record tm_leapyear := mkLeap {
  startOfCycle : Z;
  remains : Z;
  years : Z
}.

(** The loop of [rtc_calculate_last_leapyear] over [epoch], [accum] and
    [years]; [epoch] shrinks by a whole cycle at each turn. *)
Definition leapyear_loop (fuel : nat) (st : Z * Z * Z) : outcome (Z * Z * Z) :=
  while_loop fuel
    (fun '(epoch, _, _) => TOTAL_SECONDS_PER_LEAP_CYCLE <=? epoch)
    (fun '(epoch, accum, years) =>
       Done (u32 (epoch - TOTAL_SECONDS_PER_LEAP_CYCLE),
             u32 (accum + TOTAL_SECONDS_PER_LEAP_CYCLE),
             u16 (years + 4)))
    st.

(** [rtc_calculate_last_leapyear(buf, epoch)].  [buf_given] tells whether
    [buf] is non-NULL; the second component of the result is what the call
    stored through [buf], if anything. *)
Definition rtc_calculate_last_leapyear (buf_given : bool) (epoch : Z)
    : outcome (Z * option tm_leapyear) :=
  let years := 0 in
  if epoch <? EPOCH_AFTER_FIRST_LEAPYEAR then Done (0, None)
  else
    let accum := 0 in
    let epoch := u32 (epoch - EPOCH_AFTER_FIRST_LEAPYEAR) in
    let accum := u32 (accum + EPOCH_AFTER_FIRST_LEAPYEAR) in
    let years := u16 (years + 3) in
    let* (epoch, accum, years) :=
      leapyear_loop (Z.to_nat (epoch / TOTAL_SECONDS_PER_LEAP_CYCLE))
        (epoch, accum, years) in
    Done (accum, if buf_given then Some (mkLeap accum epoch years) else None).

(** The month loop of [rtc_interpret]: its state is [timebuf.tm_mon], [i]
    and [j]. *)
Definition month_loop (days_february : Z) (st : Z * Z * Z) : outcome (Z * Z * Z) :=
  while_loop (S (List.length monthInfo))
    (fun '(_, i, _) => -1 <? i)
    (fun '(mon, i, j) =>
       if mon =? 1 then
         Done (s16 (mon + 1), s32 (i - days_february), s32 (j + days_february))
       else
         let* d := monthInfo_days mon in
         Done (s16 (mon + 1), s32 (i - d), s32 (j + d)))
    st.

(** What [rtc_interpret] returns: NULL or the address of the static
    [timebuf]. *)
Inductive tm_ptr := NULL | TIMEBUF.

(** [rtc_interpret(epoch)], started with the static buffer holding
    [timebuf]; the result is the returned pointer and the buffer after the
    call. *)
Definition rtc_interpret (epoch : Z) (timebuf : tm) : outcome (tm_ptr * tm) :=
  let days_this_year := 365 in
  let days_february := 28 in
  let* (ret, leaps) := rtc_calculate_last_leapyear true epoch in
  if ret =? 0 then Done (NULL, timebuf)
  else
    match leaps with
    | None => Undefined
    | Some leaps =>
      let remains_years := remains leaps / (365 * 86400) in
      let '(days_february, days_this_year) :=
        if 2 <? remains_years then (29, 366) else (days_february, days_this_year) in
      let remains_years :=
        if 3 <? remains_years then u32 (remains_years - 1) else remains_years in
      let year := s16 (u32 (u32 (years leaps + remains_years) + 1970)) in
      let remains_this_year :=
        if days_this_year =? 366 then
          u32 (remains leaps - u32 (u32 (remains_years * 86400) * 365))
        else
          u32 (u32 (remains leaps
                    - u32 (u32 (u32 (remains_years - 1) * 86400) * 365))
               - s32 (86400 * days_this_year)) in
      let yday := s16 (remains_this_year / 86400) in
      let mon := 0 in
      let i := yday in
      let j := 0 in
      let* (mon, i, j) := month_loop days_february (mon, i, j) in
      let mon := s16 (mon - 1) in
      let* j := (if mon =? 1 then Done (s32 (j - days_february))
            else let* d := monthInfo_days mon in Done (s32 (j - d))) in
      let mday := s16 (u32 (u32 (remains_this_year - s32 (j * 86400)) / 86400 + 1)) in
      let i := s32 (u32 (remains_this_year - s32 (yday * 86400))) in
      let hour := s16 (Z.quot i 3600) in
      let j := Z.rem i 3600 in
      let min := s16 (Z.quot j 60) in
      let sec := s16 (Z.rem j 60) in
      let weeks_since_epoch := epoch / (7 * 86400) in
      let wday :=
        s16 (u32 (u32 (epoch / 86400 - u32 (weeks_since_epoch * 7)) + 4) mod 7) in
      Done (TIMEBUF, mkTm sec min hour mday mon year wday yday (tm_isdst timebuf))
    end.

(** The loop of [rtc_calculate_yday] over [month] and [yday]; [month], an
    [unsigned int], is compared with [timebuf->tm_mon] converted to
    [unsigned int]. *)
Definition yday_loop (mon : Z) (is_leap : Z) (st : Z * Z) : outcome (Z * Z) :=
  while_loop (S (List.length monthInfo))
    (fun '(month, _) => month <? u16 mon)
    (fun '(month, yday) =>
       if (month =? 1) && negb (is_leap =? 0) then
         Done (u16 (month + 1), u16 (yday + 29))
       else
         let* d := monthInfo_days month in
         Done (u16 (month + 1), u16 (yday + d)))
    st.

(** [rtc_calculate_yday(timebuf, latest_epoch, is_leap)]. *)
Definition rtc_calculate_yday (timebuf : tm) (latest_epoch : Z) (is_leap : Z)
    : outcome Z :=
  let month := 0 in
  let yday := 0 in
  let* (month, yday) := yday_loop (tm_mon timebuf) is_leap (month, yday) in
  let yday :=
    if 0 <? tm_mday timebuf then u16 (yday + s16 (tm_mday timebuf - 1)) else yday in
  Done yday.

(** The two loops of [rtc_epoch] over [epoch] and [latest_year].  The
    difference [timebuf->tm_year - latest_year] is computed in
    [unsigned int]; it shrinks at each turn. *)
Definition cycle_loop (year : Z) (fuel : nat) (st : Z * Z) : outcome (Z * Z) :=
  while_loop fuel
    (fun '(_, latest_year) => 4 <=? u16 (year - latest_year))
    (fun '(epoch, latest_year) =>
       Done (u32 (epoch + TOTAL_SECONDS_PER_LEAP_CYCLE), u16 (latest_year + 4)))
    st.

Definition year_loop (year : Z) (fuel : nat) (st : Z * Z) : outcome (Z * Z) :=
  while_loop fuel
    (fun '(_, latest_year) => 0 <? u16 (year - latest_year))
    (fun '(epoch, latest_year) =>
       Done (u32 (epoch + 86400 * 365), u16 (latest_year + 1)))
    st.

(** [rtc_epoch(timebuf)]; [None] is the NULL pointer.  The result is the
    returned epoch and the pointed-to structure after the call. *)
Definition rtc_epoch (timebuf : option tm) : outcome (Z * option tm) :=
  match timebuf with
  | None => Done (0, None)
  | Some tb =>
    if tm_year tb <? 1973 then Done (0, Some tb)
    else
      let epoch := EPOCH_AFTER_FIRST_LEAPYEAR in
      let latest_year := 1973 in
      let is_leap := 0 in
      let* (epoch, latest_year) :=
        cycle_loop (tm_year tb) (Z.to_nat (u16 (tm_year tb - latest_year)))
          (epoch, latest_year) in
      let is_leap := if 2 <? u16 (tm_year tb - latest_year) then 1 else is_leap in
      let* (epoch, latest_year) :=
        year_loop (tm_year tb) (Z.to_nat (u16 (tm_year tb - latest_year)))
          (epoch, latest_year) in
      let tb := if 366 <? tm_yday tb then set_tm_yday tb 0 else tb in
      let* tb := (if (tm_yday tb =? 0) && ((0 <? tm_mday tb) || (0 <? tm_mon tb)) then
               let* y := rtc_calculate_yday tb epoch is_leap in
               Done (set_tm_yday tb (s16 y))
             else Done tb) in
      let epoch := u32 (epoch + u32 (u32 (tm_yday tb) * 86400)) in
      let epoch := u32 (epoch + u32 (u32 (tm_hour tb) * 3600)) in
      let epoch := u32 (epoch + u32 (u32 (tm_min tb) * 60)) in
      let epoch := u32 (epoch + u32 (tm_sec tb)) in
      Done (epoch, Some tb)
  end.

(** ** rtckit.c: the tick handler

    [RTCIV_RTCIF] and [LPM4_bits] come from the vendor header <msp430.h>,
    which is not part of the library: they are parameters here.  [RTCIV] is
    the value read from the interrupt vector register and [SR] the status
    register saved on interrupt entry; the handler returns the variables of
    the library and the status register restored on exit
    ([__bic_SR_register_on_exit] clears bits of it). *)

Record rtc_state := mkRtc {
  rtcepoch : Z;
  rtcalarm0 : Z;
  rtcalarm0_incr : Z;
  rtcalarm1 : Z;
  rtcalarm1_incr : Z;
  rtc_status : Z
}.

Section ISR.

Variable RTCIV_RTCIF : Z.
Variable LPM4_bits : Z.

Definition RTC_ISR (RTCIV SR : Z) (s : rtc_state) : rtc_state * Z :=
  if negb (Z.land RTCIV RTCIV_RTCIF =? 0) then
    let status := Z.lor (rtc_status s) RTC_TICK in
    let epoch := u32 (rtcepoch s + 1) in
    let '(status, alarm0) :=
      if (0 <? rtcalarm0 s) && (epoch =? rtcalarm0 s) then
        (Z.lor status RTCALARM_0_TRIGGERED,
         if 0 <? rtcalarm0_incr s then u32 (rtcalarm0 s + rtcalarm0_incr s)
         else rtcalarm0 s)
      else (status, rtcalarm0 s) in
    let '(status, alarm1) :=
      if (0 <? rtcalarm1 s) && (epoch =? rtcalarm1 s) then
        (Z.lor status RTCALARM_1_TRIGGERED,
         if 0 <? rtcalarm1_incr s then u32 (rtcalarm1 s + rtcalarm1_incr s)
         else rtcalarm1 s)
      else (status, rtcalarm1 s) in
    (mkRtc epoch alarm0 (rtcalarm0_incr s) alarm1 (rtcalarm1_incr s) status,
     Z.land SR (Z.lnot LPM4_bits))
  else (s, SR).

(** [n] successive interrupts, each reading [RTCIV] from the vector
    register; the foreground does not run in between. *)
Fixpoint ticks (RTCIV : Z) (n : nat) (s : rtc_state) : rtc_state :=
  match n with
  | O => s
  | S n => fst (RTC_ISR RTCIV 0 (ticks RTCIV n s))
  end.

End ISR.

(** The state as foreground code may leave it after writing [rtc_status]
    (clearing flags it has handled). *)
Definition with_status (s : rtc_state) (v : Z) : rtc_state :=
  mkRtc (rtcepoch s) (rtcalarm0 s) (rtcalarm0_incr s) (rtcalarm1 s)
        (rtcalarm1_incr s) v.

Definition flag_set (flag : Z) (s : rtc_state) : bool :=
  negb (Z.land (rtc_status s) flag =? 0).

(** ** rtckit.c: initialisation of the RTC peripheral

    [rtc_init] writes the peripheral registers [RTCCTL] and [RTCMOD] and
    reads the clock-system registers [CSCTL1], [CSCTL4] and [CSCTL5]; all
    of them are 16 bits wide.  The bit masks and clock selectors come from
    <msp430.h>: they are gathered in [msp430_h], with [HAS_CS] telling
    whether [__MSP430_HAS_CS__] is defined (the SMCLK case is compiled
    only then). *)

Record msp430_h := mkHeader {
  RTCIF : Z; RTCSR : Z; RTCIE : Z;
  RTCSS__XT1CLK : Z; RTCSS__VLOCLK : Z; RTCSS__SMCLK : Z;
  RTCPS__256 : Z; RTCPS__100 : Z; RTCPS__1000 : Z;
  HAS_CS : bool;
  SELMS_7 : Z; SELMS_0 : Z; DIVS_3 : Z;
  DCORSEL_0 : Z; DCORSEL_1 : Z; DCORSEL_2 : Z; DCORSEL_3 : Z;
  DCORSEL_4 : Z; DCORSEL_5 : Z; DCORSEL_6 : Z; DCORSEL_7 : Z
}.

Record rtc_regs := mkRegs { RTCCTL : Z; RTCMOD : Z }.

Record cs_regs := mkCs { CSCTL1 : Z; CSCTL4 : Z; CSCTL5 : Z }.

Definition RTC_CLOCK_XT1CLK (h : msp430_h) : Z := RTCSS__XT1CLK h.
Definition RTC_CLOCK_SMCLK (h : msp430_h) : Z := RTCSS__SMCLK h.
Definition RTC_CLOCK_VLOCLK (h : msp430_h) : Z := RTCSS__VLOCLK h.

(** The inner switch of [rtc_init] on [CSCTL1 & DCORSEL_7]; it has no
    default, so [speed] stays unset when no case matches. *)
Definition dco_speed (h : msp430_h) (sel : Z) : outcome Z :=
  if sel =? DCORSEL_0 h then Done 1000000
  else if sel =? DCORSEL_1 h then Done 2000000
  else if sel =? DCORSEL_2 h then Done 4000000
  else if sel =? DCORSEL_3 h then Done 8000000
  else if sel =? DCORSEL_4 h then Done 12000000
  else if sel =? DCORSEL_5 h then Done 16000000
  else if sel =? DCORSEL_6 h then Done 20000000
  else if sel =? DCORSEL_7 h then Done 24000000
  else Undefined.

(** The end of [rtc_init] after the switch: [RTCCTL |= RTCSR; RTCCTL |=
    RTCIE]. *)
Definition rtc_init_start (h : msp430_h) (s : rtc_state) (r : rtc_regs)
    : outcome (rtc_state * rtc_regs) :=
  let r := mkRegs (u16 (Z.lor (RTCCTL r) (RTCSR h))) (RTCMOD r) in
  let r := mkRegs (u16 (Z.lor (RTCCTL r) (RTCIE h))) (RTCMOD r) in
  Done (s, r).

(** [rtc_init(rtc_clock_source)] on the library variables [s], the RTC
    registers [r] and the clock-system registers [cs].  A division by zero
    and a read of the unset [speed] are undefined. *)
Definition rtc_init (h : msp430_h) (rtc_clock_source : Z) (cs : cs_regs)
    (s : rtc_state) (r : rtc_regs) : outcome (rtc_state * rtc_regs) :=
  let s := with_status s 0 in
  let r := mkRegs (u16 (Z.land (RTCCTL r) (Z.lnot (RTCIF h)))) (RTCMOD r) in
  if rtc_clock_source =? RTC_CLOCK_XT1CLK h then
    let r := mkRegs (u16 (Z.lor (RTCSS__XT1CLK h) (RTCPS__256 h))) (RTCMOD r) in
    let r := mkRegs (RTCCTL r) (u16 (32768 / 256)) in
    rtc_init_start h s r
  else if rtc_clock_source =? RTC_CLOCK_VLOCLK h then
    let r := mkRegs (u16 (Z.lor (RTCSS__VLOCLK h) (RTCPS__100 h))) (RTCMOD r) in
    let r := mkRegs (RTCCTL r) (u16 (10000 / 100)) in
    rtc_init_start h s r
  else if HAS_CS h && (rtc_clock_source =? RTC_CLOCK_SMCLK h) then
    if negb (Z.land (CSCTL4 cs) (SELMS_7 h) =? SELMS_0 h) then
      Done (with_status s (Z.lor (rtc_status s) RTC_GENERAL_ERROR), r)
    else
      let* speed := dco_speed h (Z.land (CSCTL1 cs) (DCORSEL_7 h)) in
      let divider := Z.shiftr (Z.land (CSCTL5 cs) (DIVS_3 h)) 4 in
      if divider =? 0 then Undefined
      else
        let speed := speed / divider in
        let speed := speed / 1000 in
        let r := mkRegs (u16 (Z.lor (RTCSS__SMCLK h) (RTCPS__1000 h))) (RTCMOD r) in
        let r := mkRegs (RTCCTL r) (u16 speed) in
        rtc_init_start h s r
  else
    Done (with_status s (Z.lor (rtc_status s) RTC_GENERAL_ERROR), r).

(** * Vocabulary of the properties *)

(** The decomposition of a supported epoch: [cycles] whole leap cycles
    after the start of 1973, and [cycle_rest] seconds into the current one. *)
Definition cycles (e : Z) : Z :=
  (e - EPOCH_AFTER_FIRST_LEAPYEAR) / TOTAL_SECONDS_PER_LEAP_CYCLE.
Definition cycle_rest (e : Z) : Z :=
  (e - EPOCH_AFTER_FIRST_LEAPYEAR) mod TOTAL_SECONDS_PER_LEAP_CYCLE.

(** Calendar month lengths and the days of the year that precede a month,
    for common and leap years. *)
Definition month_length (leap : bool) (m : Z) : Z :=
  match m with
  | 0 => 31 | 1 => if leap then 29 else 28 | 2 => 31 | 3 => 30
  | 4 => 31 | 5 => 30 | 6 => 31 | 7 => 31
  | 8 => 30 | 9 => 31 | 10 => 30 | 11 => 31
  | _ => 0
  end.

Fixpoint days_before (leap : bool) (m : nat) : Z :=
  match m with
  | O => 0
  | S k => days_before leap k + month_length leap (Z.of_nat k)
  end.

Definition days_february_of (leap : bool) : Z := if leap then 29 else 28.

(** What lines 233-251 of rtckit.c compute from [tm_yday]: the month and
    the days before it, checked against the calendar. *)
Definition month_check (leap : bool) (yday : Z) : bool :=
  match month_loop (days_february_of leap) (0, yday, 0) with
  | Done (m1, _, j1) =>
    let mon := s16 (m1 - 1) in
    match (if mon =? 1 then Done (s32 (j1 - days_february_of leap))
           else let* d := monthInfo_days mon in Done (s32 (j1 - d))) with
    | Done j =>
      (0 <=? mon) && (mon <=? 11) && (j =? days_before leap (Z.to_nat mon))
      && (j <=? yday) && (yday <? j + month_length leap mon)
    | _ => false
    end
  | _ => false
  end.

Definition days_upto (n : nat) : list Z := map Z.of_nat (seq 0 n).

(** The year of the cycle an epoch falls in (0..3, the last one being the
    leap year), and the seconds elapsed in that year. *)
Definition year_in_cycle (e : Z) : Z := Z.min 3 (cycle_rest e / 31536000).
Definition year_rest (e : Z) : Z := cycle_rest e - year_in_cycle e * 31536000.
Definition in_leap_year (e : Z) : bool := 3 <=? cycle_rest e / 31536000.

(** The calendar value that [rtc_interpret] builds for a supported epoch. *)
Record calendar_of (e : Z) (t : tm) : Prop := {
  cal_year : tm_year t = 1973 + 4 * cycles e + year_in_cycle e;
  cal_yday : tm_yday t = year_rest e / 86400;
  cal_mon : 0 <= tm_mon t <= 11;
  cal_mday :
    tm_mday t = tm_yday t - days_before (in_leap_year e) (Z.to_nat (tm_mon t)) + 1;
  cal_mday_range : 1 <= tm_mday t <= month_length (in_leap_year e) (tm_mon t);
  cal_hour : tm_hour t = (year_rest e mod 86400) / 3600;
  cal_min : tm_min t = (year_rest e mod 3600) / 60;
  cal_sec : tm_sec t = year_rest e mod 60;
  cal_wday : tm_wday t = (e / 86400 + 4) mod 7
}.

(** The epoch at which [rtc_epoch] places the start of a year, and the
    [is_leap] flag it derives for it. *)
Definition year_start (Y : Z) : Z :=
  let d := u16 (Y - 1973) in
  u32 (EPOCH_AFTER_FIRST_LEAPYEAR
       + TOTAL_SECONDS_PER_LEAP_CYCLE * (d / 4) + 31536000 * (d mod 4)).

Definition year_is_leap (Y : Z) : Z :=
  if 2 <? u16 (Y - 1973) mod 4 then 1 else 0.

(** The day of the year that [rtc_calculate_yday] derives from the month
    and the day of the month. *)
Definition yday_of_month_day (leap : bool) (mon mday : Z) : Z :=
  let yday := days_before leap (Z.to_nat mon) in
  if 0 <? mday then u16 (yday + s16 (mday - 1)) else yday.

(** What alarm slot 0 does on the tick taken from [s]. *)
Definition alarm0_due (s : rtc_state) : bool :=
  (0 <? rtcalarm0 s) && (u32 (rtcepoch s + 1) =? rtcalarm0 s).

(** The target of alarm slot 0 after [k] ticks, when it was armed with
    target [e0 + 10] and increment 5 at epoch [e0]. *)
Definition alarm0_target_after (e0 k : Z) : Z :=
  if k <? 10 then e0 + 10 else if k <? 15 then e0 + 15 else e0 + 20.

(** The leap rule of the design: one leap year in every cycle of four, the
    years divisible by 4.  It is the Gregorian rule for every year from
    1901 to 2099. *)
Definition leap_year (y : Z) : bool := y mod 4 =? 0.

Definition gregorian_leap_year (y : Z) : bool :=
  ((y mod 4 =? 0) && negb (y mod 100 =? 0)) || (y mod 400 =? 0).

(** The documented invariant of a calendar value. *)
Record tm_invariant (t : tm) : Prop := {
  inv_mon : 0 <= tm_mon t <= 11;
  inv_mday : 1 <= tm_mday t <= month_length (leap_year (tm_year t)) (tm_mon t);
  inv_mday_31 : 1 <= tm_mday t <= 31;
  inv_yday : 0 <= tm_yday t <= (if leap_year (tm_year t) then 365 else 364);
  inv_yday_month_day :
    tm_yday t
    = days_before (leap_year (tm_year t)) (Z.to_nat (tm_mon t)) + (tm_mday t - 1);
  inv_hour : 0 <= tm_hour t <= 23;
  inv_min : 0 <= tm_min t <= 59;
  inv_sec : 0 <= tm_sec t <= 59;
  inv_wday : 0 <= tm_wday t <= 6
}.

(** The same invariant with the leap status of the Gregorian calendar. *)
Record tm_gregorian_invariant (t : tm) : Prop := {
  greg_mon : 0 <= tm_mon t <= 11;
  greg_mday :
    1 <= tm_mday t <= month_length (gregorian_leap_year (tm_year t)) (tm_mon t);
  greg_yday :
    0 <= tm_yday t <= (if gregorian_leap_year (tm_year t) then 365 else 364);
  greg_yday_month_day :
    tm_yday t
    = days_before (gregorian_leap_year (tm_year t)) (Z.to_nat (tm_mon t))
      + (tm_mday t - 1);
  greg_hour : 0 <= tm_hour t <= 23;
  greg_min : 0 <= tm_min t <= 59;
  greg_sec : 0 <= tm_sec t <= 59;
  greg_wday : 0 <= tm_wday t <= 6
}.

(** The weekday expression of [rtc_interpret] (lines 260-261 of
    rtckit.c), as a function of the epoch. *)
Definition wday_expression (epoch : Z) : Z :=
  let weeks_since_epoch := epoch / (7 * 86400) in
  s16 (u32 (u32 (epoch / 86400 - u32 (weeks_since_epoch * 7)) + 4) mod 7).

(** Whether [rtc_epoch] recomputes [tm_yday] from the month and the day,
    and the [tm_yday] it leaves in the structure. *)
Definition yday_is_recomputed (tb : tm) : bool :=
  let yday := if 366 <? tm_yday tb then 0 else tm_yday tb in
  (yday =? 0) && ((0 <? tm_mday tb) || (0 <? tm_mon tb)).

Definition resolved_yday (tb : tm) : Z :=
  if yday_is_recomputed tb then
    s16 (yday_of_month_day (negb (year_is_leap (tm_year tb) =? 0))
           (tm_mon tb) (tm_mday tb))
  else if 366 <? tm_yday tb then 0 else tm_yday tb.

(** Sample inputs.  Where the handler is run on them, [RTCIV_RTCIF] is 2
    and [LPM4_bits] is 240 (0x00F0), as in the MSP430 headers; the general
    properties of the handler hold for any values. *)
Definition tm_blank : tm := mkTm 0 0 0 0 0 0 0 0 0.
Definition tm_year_1970_yday_400 : tm := mkTm 0 0 0 1 0 1970 0 400 0.
Definition tm_july_2021_yday_400 : tm := mkTm 30 15 12 4 6 2021 0 400 0.
Definition rtc_at_counter_end : rtc_state := mkRtc 4294967295 0 0 0 0 0.
Definition rtc_alarm_near_counter_end : rtc_state :=
  mkRtc 4294967281 4294967291 5 0 0 0.
Definition rtc_alarm_armed : rtc_state := mkRtc 1000 1010 5 0 0 0.
Definition rtc_no_alarm : rtc_state := mkRtc 1000 0 0 0 0 0.

(** ** Vocabulary of the further properties *)

(** Calendar order on the fields that [rtc_interpret] fills. *)
Definition tm_before (a b : tm) : Prop :=
  tm_year a < tm_year b \/
  (tm_year a = tm_year b /\
   (tm_yday a < tm_yday b \/
    (tm_yday a = tm_yday b /\
     (tm_hour a < tm_hour b \/
      (tm_hour a = tm_hour b /\
       (tm_min a < tm_min b \/
        (tm_min a = tm_min b /\ tm_sec a < tm_sec b))))))).

(** Days from 1970-01-01 to the first of January of a year from 1973 on,
    counting one leap day for every completed four years after 1972: the
    day count of the four-year rule. *)
Definition year_day_number (Y : Z) : Z :=
  1096 + 365 * (Y - 1973) + (Y - 1973) / 4.

(** The proleptic Gregorian calendar: leap days before a year, and days
    from 1970-01-01 to a date given by year, month (0..11) and day. *)
Definition leap_days_before (Y : Z) : Z :=
  (Y - 1) / 4 - (Y - 1) / 100 + (Y - 1) / 400.

Definition gregorian_day_number (Y m d : Z) : Z :=
  365 * (Y - 1970) + (leap_days_before Y - leap_days_before 1970)
  + days_before (gregorian_leap_year Y) (Z.to_nat m) + (d - 1).

Definition gregorian_date (Y m d : Z) : Prop :=
  0 <= m <= 11 /\ 1 <= d <= month_length (gregorian_leap_year Y) m.

(** The fields of two structures other than [tm_isdst]. *)
Definition same_calendar_fields (a b : tm) : Prop :=
  tm_sec a = tm_sec b /\ tm_min a = tm_min b /\ tm_hour a = tm_hour b /\
  tm_mday a = tm_mday b /\ tm_mon a = tm_mon b /\ tm_year a = tm_year b /\
  tm_wday a = tm_wday b /\ tm_yday a = tm_yday b.

(** The two alarm slots of [RTC_ISR], [false] for alarm 0 and [true] for
    alarm 1: target, increment and status flag of a slot, and whether the
    tick taken from [s] fires it (the test of lines 169 and 175). *)
Definition slot_target (slot : bool) (s : rtc_state) : Z :=
  if slot then rtcalarm1 s else rtcalarm0 s.

Definition slot_incr (slot : bool) (s : rtc_state) : Z :=
  if slot then rtcalarm1_incr s else rtcalarm0_incr s.

Definition slot_flag (slot : bool) : Z :=
  if slot then RTCALARM_1_TRIGGERED else RTCALARM_0_TRIGGERED.

Definition slot_due (slot : bool) (s : rtc_state) : bool :=
  (0 <? slot_target slot s) && (u32 (rtcepoch s + 1) =? slot_target slot s).

(** How often an alarm armed [d] ticks ahead with increment [p] has fired
    after [n] ticks. *)
Definition fired_by (d p n : Z) : Z :=
  if n <? d then 0 else (n - d) / p + 1.

(** Further sample inputs. *)
Definition tm_leap_day_2024 : tm := mkTm 30 15 12 29 1 2024 0 0 0.
Definition tm_day_60_of_2024_month_99 : tm := mkTm 0 0 0 (-7) 99 2024 0 59 0.
Definition tm_month_13 : tm := mkTm 0 0 0 1 13 2024 0 0 0.
Definition rtc_one_shot_alarm1 : rtc_state := mkRtc 1000 0 0 1003 0 0.
Definition rtc_alarm1_every_60 : rtc_state := mkRtc 1000 0 0 1030 60 0.

(** A header in the style of the FR2xx/FR4xx device headers, for sample
    runs. *)
Definition sample_h : msp430_h :=
  mkHeader 0x0001 0x0040 0x0002
           0x2000 0x3000 0x1000
           0x0600 0x0200 0x0300
           true
           0x0007 0x0000 0x0030
           0x0000 0x0002 0x0004 0x0006 0x0008 0x000A 0x000C 0x000E.

Definition sample_cs : cs_regs := mkCs 0x0006 0x0000 0x0000.

(** Evaluates the day counts of the months named in the goal. *)
Ltac eval_days_before :=
  repeat match goal with
         | |- context [days_before ?l (Z.to_nat ?m)] =>
           let v := eval vm_compute in (days_before l (Z.to_nat m)) in
           change (days_before l (Z.to_nat m)) with v
         end.

(** * Properties *)

(** ** Machine arithmetic *)

Lemma u32_small x : is_u32 x -> u32 x = x.
Proof. unfold is_u32, u32. intros H. apply Z.mod_small. lia. Qed.

Lemma u16_small x : is_u16 x -> u16 x = x.
Proof. unfold is_u16, u16. intros H. apply Z.mod_small. lia. Qed.

Lemma s16_small x : is_s16 x -> s16 x = x.
Proof. unfold is_s16, s16. intros H. rewrite Z.mod_small; lia. Qed.

Lemma s32_small x : -2147483648 <= x < 2147483648 -> s32 x = x.
Proof. unfold s32. intros H. rewrite Z.mod_small; lia. Qed.

Lemma u32_range x : is_u32 (u32 x).
Proof. unfold is_u32, u32. apply Z.mod_pos_bound. lia. Qed.

Lemma u16_range x : is_u16 (u16 x).
Proof. unfold is_u16, u16. apply Z.mod_pos_bound. lia. Qed.

Lemma u32_add_l x y : u32 (u32 x + y) = u32 (x + y).
Proof. unfold u32. apply Z.add_mod_idemp_l. lia. Qed.

Lemma u16_add_l x y : u16 (u16 x + y) = u16 (x + y).
Proof. unfold u16. apply Z.add_mod_idemp_l. lia. Qed.

Lemma u16_sub_r x y : u16 (x - u16 y) = u16 (x - y).
Proof. unfold u16. apply Zminus_mod_idemp_r. Qed.

Lemma u32_sub_l x y : u32 (u32 x - y) = u32 (x - y).
Proof. unfold u32. apply Zminus_mod_idemp_l. Qed.

Lemma u32_sub_r x y : u32 (x - u32 y) = u32 (x - y).
Proof. unfold u32. apply Zminus_mod_idemp_r. Qed.

Lemma u32_add_r x y : u32 (x + u32 y) = u32 (x + y).
Proof. unfold u32. apply Z.add_mod_idemp_r. lia. Qed.

Lemma u32_mul_l x y : u32 (u32 x * y) = u32 (x * y).
Proof. unfold u32. apply Z.mul_mod_idemp_l. lia. Qed.

Lemma TOTAL_SECONDS_PER_LEAP_CYCLE_val : TOTAL_SECONDS_PER_LEAP_CYCLE = 126230400.
Proof. reflexivity. Qed.

Lemma EPOCH_AFTER_FIRST_LEAPYEAR_val : EPOCH_AFTER_FIRST_LEAPYEAR = 94694400.
Proof. reflexivity. Qed.

(** ** Loops *)

Section WhileLoop.

Context {St : Type} (cond : St -> bool) (body : St -> outcome St).

Lemma while_loop_stop fuel s :
  cond s = false -> while_loop fuel cond body s = Done s.
Proof. intros H. destruct fuel; simpl; rewrite H; reflexivity. Qed.

Lemma while_loop_step fuel s s' :
  cond s = true -> body s = Done s' ->
  while_loop (S fuel) cond body s = while_loop fuel cond body s'.
Proof. intros Hc Hb. simpl. rewrite Hc, Hb. reflexivity. Qed.

(** A loop that returns with some fuel returns the same with more. *)
Lemma while_loop_more_fuel fuel fuel' s r :
  (fuel <= fuel')%nat ->
  while_loop fuel cond body s = Done r ->
  while_loop fuel' cond body s = Done r.
Proof.
  revert fuel' s. induction fuel as [|n IH]; intros fuel' s Hle H.
  - simpl in H. destruct (cond s) eqn:Hc; [discriminate|].
    rewrite while_loop_stop; assumption.
  - destruct fuel' as [|m]; [lia|].
    simpl in *. destruct (cond s); [|assumption].
    destruct (body s) as [s'| |]; simpl in *; try discriminate.
    apply IH; [lia|assumption].
Qed.

(** A loop whose body advances a counter and cannot go past [N] does not
    run out of fuel when given more than [N] turns. *)
Lemma while_loop_counter (m : St -> nat) (N : nat) :
  (forall s s', cond s = true -> body s = Done s' ->
                (m s < N)%nat /\ m s' = S (m s)) ->
  (forall s, body s <> OutOfFuel) ->
  forall fuel s, (1 <= fuel)%nat -> (N < fuel + m s)%nat ->
                 while_loop fuel cond body s <> OutOfFuel.
Proof.
  intros Hstep Hbody. induction fuel as [|n IH]; intros s H1 HN; [lia|].
  simpl. destruct (cond s) eqn:Hc; [|discriminate].
  destruct (body s) as [s'| |] eqn:Hb; cbn [bind].
  - destruct (Hstep s s' Hc Hb) as (Hlt & Hm). apply IH; lia.
  - discriminate.
  - exfalso. exact (Hbody s Hb).
Qed.

End WhileLoop.

Lemma monthInfo_days_Done i d :
  monthInfo_days i = Done d -> 0 <= i < 12.
Proof.
  unfold monthInfo_days.
  destruct (Z.leb_spec 0 i); destruct (Z.ltb_spec i (Z.of_nat (List.length monthInfo)));
    cbn [andb]; try discriminate.
  intros _. change (Z.of_nat (List.length monthInfo)) with 12 in *. lia.
Qed.

Lemma monthInfo_days_fuel i : monthInfo_days i <> OutOfFuel.
Proof.
  unfold monthInfo_days.
  destruct ((0 <=? i) && _); [|discriminate].
  destruct (nth_error monthInfo (Z.to_nat i)); discriminate.
Qed.

(** The month table ends the month loops before their fuel does. *)
Lemma month_loop_fuel days_february yday :
  month_loop days_february (0, yday, 0) <> OutOfFuel.
Proof.
  unfold month_loop.
  apply (while_loop_counter _ _ (fun '(mon, _, _) => Z.to_nat mon) 12%nat);
    [| | cbn; lia | cbn; lia].
  - intros [[mon i] j] [[mon' i'] j'] _.
    destruct (Z.eqb_spec mon 1) as [->|Hne].
    + intros [= <- _ _]. cbn. lia.
    + destruct (monthInfo_days mon) as [d| |] eqn:Hd; cbn [bind]; try discriminate.
      apply monthInfo_days_Done in Hd. intros [= <- _ _].
      rewrite s16_small by (unfold is_s16; lia). lia.
  - intros [[mon i] j]. destruct (mon =? 1); [discriminate|].
    pose proof (monthInfo_days_fuel mon).
    destruct (monthInfo_days mon); cbn [bind]; congruence.
Qed.

Lemma yday_loop_fuel mon is_leap : yday_loop mon is_leap (0, 0) <> OutOfFuel.
Proof.
  unfold yday_loop.
  apply (while_loop_counter _ _ (fun '(month, _) => Z.to_nat month) 12%nat);
    [| | cbn; lia | cbn; lia].
  - intros [month yday] [month' yday'] _.
    destruct ((month =? 1) && negb (is_leap =? 0)) eqn:Hc.
    + apply andb_prop in Hc. destruct Hc as [Hm _]. apply Z.eqb_eq in Hm. subst month.
      intros [= <- _]. cbn. lia.
    + destruct (monthInfo_days month) as [d| |] eqn:Hd; cbn [bind]; try discriminate.
      apply monthInfo_days_Done in Hd. intros [= <- _].
      rewrite u16_small by (unfold is_u16; lia). lia.
  - intros [month yday]. destruct ((month =? 1) && negb (is_leap =? 0)); [discriminate|].
    pose proof (monthInfo_days_fuel month).
    destruct (monthInfo_days month); cbn [bind]; congruence.
Qed.

(** ** Leap-cycle decomposition *)

Lemma leapyear_loop_spec n : forall fuel ep ac yr,
  (n <= fuel)%nat ->
  0 <= ep -> ep / TOTAL_SECONDS_PER_LEAP_CYCLE = Z.of_nat n ->
  0 <= ac -> ac + ep < 4294967296 ->
  0 <= yr -> yr + 4 * Z.of_nat n < 65536 ->
  leapyear_loop fuel (ep, ac, yr) =
  Done (ep mod TOTAL_SECONDS_PER_LEAP_CYCLE,
        ac + TOTAL_SECONDS_PER_LEAP_CYCLE * Z.of_nat n,
        yr + 4 * Z.of_nat n).
Proof.
  rewrite TOTAL_SECONDS_PER_LEAP_CYCLE_val.
  induction n as [|n IH]; intros fuel ep ac yr Hf Hep Hq Hac Hsum Hyr Hy.
  - unfold leapyear_loop. rewrite while_loop_stop.
    + f_equal. f_equal; [f_equal|]; try lia.
      symmetry. apply Z.mod_small. Z.div_mod_to_equations. lia.
    + rewrite TOTAL_SECONDS_PER_LEAP_CYCLE_val.
      apply Z.leb_gt. Z.div_mod_to_equations. lia.
  - destruct fuel as [|fuel]; [lia|].
    assert (Hge : 126230400 <= ep) by (Z.div_mod_to_equations; lia).
    unfold leapyear_loop.
    rewrite (while_loop_step _ _ fuel (ep, ac, yr)
               (ep - 126230400, ac + 126230400, yr + 4)).
    + change (leapyear_loop fuel (ep - 126230400, ac + 126230400, yr + 4) =
              Done (ep mod 126230400, ac + 126230400 * Z.of_nat (S n),
                    yr + 4 * Z.of_nat (S n))).
      rewrite IH; try lia.
      * f_equal. f_equal; [f_equal|]; try lia.
        Z.div_mod_to_equations. lia.
      * Z.div_mod_to_equations. lia.
    + apply Z.leb_le. rewrite TOTAL_SECONDS_PER_LEAP_CYCLE_val. exact Hge.
    + rewrite TOTAL_SECONDS_PER_LEAP_CYCLE_val.
      rewrite (u32_small (ep - 126230400)) by (unfold is_u32; lia).
      rewrite (u32_small (ac + 126230400)) by (unfold is_u32; lia).
      rewrite (u16_small (yr + 4)) by (unfold is_u16; lia).
      reflexivity.
Qed.

Lemma cycles_bounds e :
  EPOCH_AFTER_FIRST_LEAPYEAR <= e < 4294967296 ->
  0 <= cycles e <= 33 /\ 0 <= cycle_rest e < 126230400 /\
  e = 94694400 + 126230400 * cycles e + cycle_rest e.
Proof.
  unfold cycles, cycle_rest.
  rewrite EPOCH_AFTER_FIRST_LEAPYEAR_val, TOTAL_SECONDS_PER_LEAP_CYCLE_val.
  intros H. Z.div_mod_to_equations. lia.
Qed.

Lemma rtc_calculate_last_leapyear_supported b e :
  EPOCH_AFTER_FIRST_LEAPYEAR <= e < 4294967296 ->
  rtc_calculate_last_leapyear b e =
  Done (94694400 + 126230400 * cycles e,
        if b then Some (mkLeap (94694400 + 126230400 * cycles e)
                               (cycle_rest e) (3 + 4 * cycles e))
        else None).
Proof.
  intros H. pose proof (cycles_bounds e H) as (Hc & Hr & He).
  unfold rtc_calculate_last_leapyear.
  destruct (e <? EPOCH_AFTER_FIRST_LEAPYEAR) eqn:Hlt; [apply Z.ltb_lt in Hlt; lia|].
  rewrite EPOCH_AFTER_FIRST_LEAPYEAR_val in *.
  rewrite (u32_small (e - 94694400)) by (unfold is_u32; lia).
  change (u32 (0 + 94694400)) with 94694400.
  change (u16 (0 + 3)) with 3.
  unfold cycles, cycle_rest in *.
  rewrite EPOCH_AFTER_FIRST_LEAPYEAR_val in *.
  set (q := (e - 94694400) / TOTAL_SECONDS_PER_LEAP_CYCLE) in *.
  rewrite (leapyear_loop_spec (Z.to_nat q)); try rewrite Z2Nat.id; try lia.
  cbn [bind]. rewrite TOTAL_SECONDS_PER_LEAP_CYCLE_val. reflexivity.
Qed.

(** ** The month walk *)

Lemma month_length_bounds leap m : 0 <= month_length leap m <= 31.
Proof.
  unfold month_length.
  repeat match goal with
         | |- context [match ?x with _ => _ end] => destruct x
         end; lia.
Qed.

Lemma days_before_nonneg leap n : 0 <= days_before leap n.
Proof.
  induction n as [|n IH]; cbn [days_before]; [lia|].
  pose proof (month_length_bounds leap (Z.of_nat n)). lia.
Qed.

Lemma days_upto_In n x : 0 <= x < Z.of_nat n -> In x (days_upto n).
Proof.
  intros H. unfold days_upto. apply in_map_iff.
  exists (Z.to_nat x). split; [lia|]. apply in_seq. lia.
Qed.

Lemma month_check_common : forallb (month_check false) (days_upto 365) = true.
Proof. vm_compute. reflexivity. Qed.

Lemma month_check_leap : forallb (month_check true) (days_upto 366) = true.
Proof. vm_compute. reflexivity. Qed.

Lemma month_check_ok (leap : bool) yday :
  0 <= yday < (if leap then 366 else 365) -> month_check leap yday = true.
Proof.
  intros H. destruct leap.
  - apply (proj1 (forallb_forall _ _) month_check_leap). apply days_upto_In. lia.
  - apply (proj1 (forallb_forall _ _) month_check_common). apply days_upto_In. lia.
Qed.

Lemma month_walk (leap : bool) yday :
  0 <= yday < (if leap then 366 else 365) ->
  exists m1 i j1 j,
    month_loop (days_february_of leap) (0, yday, 0) = Done (m1, i, j1) /\
    (if s16 (m1 - 1) =? 1 then Done (s32 (j1 - days_february_of leap))
     else let* d := monthInfo_days (s16 (m1 - 1)) in Done (s32 (j1 - d))) = Done j /\
    0 <= s16 (m1 - 1) <= 11 /\
    j = days_before leap (Z.to_nat (s16 (m1 - 1))) /\
    j <= yday < j + month_length leap (s16 (m1 - 1)).
Proof.
  intros H. pose proof (month_check_ok leap yday H) as Hc.
  unfold month_check in Hc.
  destruct (month_loop (days_february_of leap) (0, yday, 0)) as [[[m1 i] j1]| |];
    try discriminate.
  cbv zeta in Hc.
  destruct (if s16 (m1 - 1) =? 1 then Done (s32 (j1 - days_february_of leap))
            else let* d := monthInfo_days (s16 (m1 - 1)) in Done (s32 (j1 - d)))
    as [j| |] eqn:Hadj; try discriminate.
  exists m1, i, j1, j.
  repeat (apply andb_prop in Hc; destruct Hc as [Hc ?]).
  split; [reflexivity|]. split; [exact Hadj|]. lia.
Qed.

(** ** Epoch to calendar *)

Lemma year_rest_bounds e :
  EPOCH_AFTER_FIRST_LEAPYEAR <= e < 4294967296 ->
  0 <= year_in_cycle e <= 3 /\
  0 <= year_rest e < (if in_leap_year e then 366 else 365) * 86400 /\
  in_leap_year e = (year_in_cycle e =? 3).
Proof.
  intros H. pose proof (cycles_bounds e H) as (_ & Hr & _).
  unfold year_rest, year_in_cycle, in_leap_year.
  destruct (3 <=? cycle_rest e / 31536000) eqn:Hq.
  - apply Z.leb_le in Hq. rewrite Z.min_l by lia.
    split; [lia|]. split; [|reflexivity]. Z.div_mod_to_equations. lia.
  - apply Z.leb_gt in Hq. rewrite Z.min_r by lia.
    assert (0 <= cycle_rest e / 31536000) by (Z.div_mod_to_equations; lia).
    split; [lia|]. split.
    + Z.div_mod_to_equations. lia.
    + symmetry. apply Z.eqb_neq. lia.
Qed.

Lemma remains_this_year_leap r y :
  0 <= y <= 3 -> y * 31536000 <= r < 4294967296 ->
  u32 (r - u32 (u32 (y * 86400) * 365)) = r - y * 31536000.
Proof.
  intros Hy Hr. rewrite u32_mul_l, u32_sub_r.
  replace (r - y * 86400 * 365) with (r - y * 31536000) by lia.
  apply u32_small. unfold is_u32. lia.
Qed.

Lemma remains_this_year_common r y :
  0 <= y <= 3 -> y * 31536000 <= r < 4294967296 ->
  u32 (u32 (r - u32 (u32 (u32 (y - 1) * 86400) * 365)) - s32 (86400 * 365))
  = r - y * 31536000.
Proof.
  intros Hy Hr. change (s32 (86400 * 365)) with 31536000.
  unfold u32. Z.div_mod_to_equations. lia.
Qed.

Lemma wday_formula e :
  0 <= e < 4294967296 ->
  s16 (u32 (u32 (e / 86400 - u32 (e / (7 * 86400) * 7)) + 4) mod 7)
  = (e / 86400 + 4) mod 7.
Proof.
  intros H. change (7 * 86400) with 604800.
  unfold s16, u32. Z.div_mod_to_equations. lia.
Qed.

Lemma time_of_day_formula rty yd :
  0 <= rty < 366 * 86400 -> yd = rty / 86400 ->
  s32 (u32 (rty - s32 (yd * 86400))) = rty mod 86400.
Proof.
  intros H ->. unfold s32, u32. Z.div_mod_to_equations. lia.
Qed.

Lemma hms_formula i :
  0 <= i < 86400 ->
  s16 (Z.quot i 3600) = i / 3600 /\
  s16 (Z.quot (Z.rem i 3600) 60) = (i mod 3600) / 60 /\
  s16 (Z.rem (Z.rem i 3600) 60) = i mod 60.
Proof.
  intros H.
  rewrite Z.rem_mod_nonneg by lia.
  assert (0 <= i mod 3600 < 3600) by (apply Z.mod_pos_bound; lia).
  rewrite !Z.quot_div_nonneg, Z.rem_mod_nonneg by lia.
  unfold s16. Z.div_mod_to_equations. lia.
Qed.

Lemma mday_formula rty yd j :
  0 <= rty < 366 * 86400 -> yd = rty / 86400 -> 0 <= j <= yd ->
  s16 (u32 (u32 (rty - s32 (j * 86400)) / 86400 + 1)) = yd - j + 1.
Proof.
  intros H -> Hj. unfold s16, s32, u32. Z.div_mod_to_equations. lia.
Qed.

Lemma tm_year_formula k y :
  0 <= k <= 33 -> 0 <= y <= 3 ->
  s16 (u32 (u32 (3 + 4 * k + y) + 1970)) = 1973 + 4 * k + y.
Proof. intros Hk Hy. unfold s16, u32. Z.div_mod_to_equations. lia. Qed.

Lemma rtc_interpret_supported e tb :
  EPOCH_AFTER_FIRST_LEAPYEAR <= e < 4294967296 ->
  exists t, rtc_interpret e tb = Done (TIMEBUF, t) /\ calendar_of e t /\
            tm_isdst t = tm_isdst tb.
Proof.
  intros H.
  pose proof (cycles_bounds e H) as (Hc & Hr & He).
  pose proof (year_rest_bounds e H) as (Hy & Hyr & Hleap).
  assert (Hq : 0 <= cycle_rest e / 31536000 <= 4)
    by (Z.div_mod_to_equations; lia).
  assert (Hyic : (if 3 <? cycle_rest e / 31536000
                  then u32 (cycle_rest e / 31536000 - 1)
                  else cycle_rest e / 31536000) = year_in_cycle e).
  { unfold year_in_cycle. destruct (3 <? _) eqn:H3.
    - apply Z.ltb_lt in H3. rewrite Z.min_l by lia.
      replace (cycle_rest e / 31536000) with 4 by lia. reflexivity.
    - apply Z.ltb_ge in H3. rewrite Z.min_r by lia. reflexivity. }
  assert (Hl : (2 <? cycle_rest e / 31536000) = in_leap_year e).
  { unfold in_leap_year. destruct (3 <=? _) eqn:H3.
    - apply Z.leb_le in H3. apply Z.ltb_lt. lia.
    - apply Z.leb_gt in H3. apply Z.ltb_ge. lia. }
  assert (Hrty : year_in_cycle e * 31536000 <= cycle_rest e < 4294967296)
    by (unfold year_rest in Hyr; lia).
  set (yd := year_rest e / 86400).
  assert (Hyd : 0 <= yd < (if in_leap_year e then 366 else 365))
    by (subst yd; destruct (in_leap_year e); Z.div_mod_to_equations; lia).
  destruct (month_walk (in_leap_year e) yd Hyd)
    as (m1 & i & j1 & j & Hloop & Hadj & Hmon & Hj & Hjr).
  unfold rtc_interpret.
  rewrite rtc_calculate_last_leapyear_supported by exact H.
  cbn [bind remains years].
  destruct (94694400 + 126230400 * cycles e =? 0) eqn:Hz;
    [apply Z.eqb_eq in Hz; lia|clear Hz].
  change (365 * 86400) with 31536000.
  cbv zeta. rewrite Hyic, Hl.
  assert (Hrest :
    (if (if in_leap_year e then 366 else 365) =? 366
     then u32 (cycle_rest e - u32 (u32 (year_in_cycle e * 86400) * 365))
     else u32 (u32 (cycle_rest e
                    - u32 (u32 (u32 (year_in_cycle e - 1) * 86400) * 365))
               - s32 (86400 * (if in_leap_year e then 366 else 365))))
    = year_rest e).
  { unfold year_rest. destruct (in_leap_year e).
    - change (366 =? 366) with true. cbv iota.
      apply remains_this_year_leap; assumption.
    - change (365 =? 366) with false. cbv iota.
      apply remains_this_year_common; assumption. }
  assert (Hyd16 : s16 yd = yd) by (apply s16_small; unfold is_s16; destruct (in_leap_year e); lia).
  assert (Hfeb : (if in_leap_year e then 29 else 28) = days_february_of (in_leap_year e))
    by reflexivity.
  assert (Hyr' : 0 <= year_rest e < 366 * 86400)
    by (destruct (in_leap_year e); lia).
  assert (Htod : 0 <= year_rest e mod 86400 < 86400)
    by (apply Z.mod_pos_bound; lia).
  destruct (hms_formula _ Htod) as (Hh & Hm & Hs).
  assert (Hmm : (year_rest e mod 86400) mod 3600 = year_rest e mod 3600)
    by (Z.div_mod_to_equations; lia).
  assert (Hss : (year_rest e mod 86400) mod 60 = year_rest e mod 60)
    by (Z.div_mod_to_equations; lia).
  assert (Hj0 : 0 <= j).
  { subst j. apply days_before_nonneg. }
  destruct (in_leap_year e) eqn:Hly; cbv iota beta in Hrest |- *;
    rewrite Hrest; fold yd; rewrite Hyd16;
    cbn [days_february_of] in Hloop, Hadj; rewrite Hloop; cbn [bind];
    rewrite Hadj; cbn [bind];
    rewrite (time_of_day_formula _ yd Hyr' eq_refl), Hh, Hm, Hs, Hmm, Hss;
    rewrite (mday_formula _ yd j Hyr' eq_refl) by lia;
    rewrite tm_year_formula by lia;
    rewrite wday_formula by lia;
    (eexists; split; [reflexivity|]; split; [|reflexivity];
     constructor; cbn [tm_sec tm_min tm_hour tm_mday tm_mon tm_year tm_wday tm_yday];
     try reflexivity; try lia; rewrite Hly; try rewrite <- Hj; lia).
Qed.

(** ** Calendar to epoch *)

Lemma cycle_loop_spec Y n : forall fuel ep ly,
  (n <= fuel)%nat -> is_u32 ep -> is_u16 ly ->
  u16 (Y - ly) / 4 = Z.of_nat n ->
  cycle_loop Y fuel (ep, ly) =
  Done (u32 (ep + TOTAL_SECONDS_PER_LEAP_CYCLE * Z.of_nat n),
        u16 (ly + 4 * Z.of_nat n)).
Proof.
  induction n as [|n IH]; intros fuel ep ly Hf Hep Hly Hd.
  - unfold cycle_loop. rewrite while_loop_stop.
    + rewrite Z.mul_0_r, !Z.add_0_r, u32_small, u16_small by assumption.
      reflexivity.
    + apply Z.leb_gt. pose proof (u16_range (Y - ly)) as Hr. unfold is_u16 in Hr.
      Z.div_mod_to_equations. lia.
  - destruct fuel as [|fuel]; [lia|].
    pose proof (u16_range (Y - ly)) as Hr. unfold is_u16 in Hr.
    assert (Hge : 4 <= u16 (Y - ly)) by (Z.div_mod_to_equations; lia).
    unfold cycle_loop.
    rewrite (while_loop_step _ _ fuel (ep, ly)
               (u32 (ep + TOTAL_SECONDS_PER_LEAP_CYCLE), u16 (ly + 4)));
      [| apply Z.leb_le; exact Hge | reflexivity].
    fold (cycle_loop Y fuel (u32 (ep + TOTAL_SECONDS_PER_LEAP_CYCLE), u16 (ly + 4))).
    rewrite IH; [| lia | apply u32_range | apply u16_range |].
    + rewrite u32_add_l, u16_add_l. f_equal. f_equal; f_equal; lia.
    + rewrite u16_sub_r. unfold u16 in *. Z.div_mod_to_equations. lia.
Qed.

Lemma year_loop_spec Y n : forall fuel ep ly,
  (n <= fuel)%nat -> is_u32 ep -> is_u16 ly ->
  u16 (Y - ly) = Z.of_nat n ->
  year_loop Y fuel (ep, ly) =
  Done (u32 (ep + 31536000 * Z.of_nat n), u16 (ly + Z.of_nat n)).
Proof.
  induction n as [|n IH]; intros fuel ep ly Hf Hep Hly Hd.
  - unfold year_loop. rewrite while_loop_stop.
    + rewrite Z.mul_0_r, !Z.add_0_r, u32_small, u16_small by assumption.
      reflexivity.
    + apply Z.ltb_ge. lia.
  - destruct fuel as [|fuel]; [lia|].
    unfold year_loop.
    rewrite (while_loop_step _ _ fuel (ep, ly)
               (u32 (ep + 86400 * 365), u16 (ly + 1)));
      [| apply Z.ltb_lt; lia | reflexivity].
    fold (year_loop Y fuel (u32 (ep + 86400 * 365), u16 (ly + 1))).
    rewrite IH; [| lia | apply u32_range | apply u16_range |].
    + rewrite u32_add_l, u16_add_l. f_equal. f_equal; f_equal; lia.
    + rewrite u16_sub_r. unfold u16 in *. Z.div_mod_to_equations. lia.
Qed.

(** [rtc_epoch] on a structure it accepts, with the two loops over the
    years replaced by their results. *)
Lemma rtc_epoch_accepted tb :
  1973 <= tm_year tb ->
  rtc_epoch (Some tb) =
  let tb1 := if 366 <? tm_yday tb then set_tm_yday tb 0 else tb in
  let* tb2 :=
    (if (tm_yday tb1 =? 0) && ((0 <? tm_mday tb1) || (0 <? tm_mon tb1)) then
       let* y := rtc_calculate_yday tb1 (year_start (tm_year tb))
                   (year_is_leap (tm_year tb)) in
       Done (set_tm_yday tb1 (s16 y))
     else Done tb1) in
  Done (u32 (u32 (u32 (u32 (year_start (tm_year tb)
                            + u32 (u32 (tm_yday tb2) * 86400))
                       + u32 (u32 (tm_hour tb2) * 3600))
                  + u32 (u32 (tm_min tb2) * 60))
             + u32 (tm_sec tb2)),
        Some tb2).
Proof.
  intros Hy. unfold rtc_epoch.
  destruct (tm_year tb <? 1973) eqn:Hlt; [apply Z.ltb_lt in Hlt; lia|clear Hlt].
  set (Y := tm_year tb) in *.
  pose proof (u16_range (Y - 1973)) as Hd. unfold is_u16 in Hd.
  set (d := u16 (Y - 1973)) in *.
  assert (Hq : 0 <= d / 4) by (Z.div_mod_to_equations; lia).
  cbv zeta.
  rewrite (cycle_loop_spec Y (Z.to_nat (d / 4)));
    [| Z.div_mod_to_equations; lia | unfold is_u32; rewrite EPOCH_AFTER_FIRST_LEAPYEAR_val; lia
     | unfold is_u16; lia | fold d; lia ].
  cbn [bind]. rewrite Z2Nat.id by lia.
  assert (Hd1 : u16 (Y - u16 (1973 + 4 * (d / 4))) = d mod 4).
  { rewrite u16_sub_r. subst d. unfold u16. Z.div_mod_to_equations. lia. }
  rewrite Hd1.
  assert (Hm : 0 <= d mod 4 < 4) by (apply Z.mod_pos_bound; lia).
  rewrite (year_loop_spec Y (Z.to_nat (d mod 4)));
    [| lia | apply u32_range | apply u16_range | rewrite Hd1; lia ].
  cbn [bind]. rewrite Z2Nat.id by lia.
  rewrite u32_add_l.
  unfold year_start, year_is_leap. fold Y. fold d. cbv zeta.
  reflexivity.
Qed.

Lemma yday_loop_spec mon is_leap :
  0 <= mon <= 12 ->
  yday_loop mon is_leap (0, 0) =
  Done (mon, days_before (negb (is_leap =? 0)) (Z.to_nat mon)).
Proof.
  intros H.
  assert (Hn : exists n, mon = Z.of_nat n /\ (n <= 12)%nat)
    by (exists (Z.to_nat mon); lia).
  destruct Hn as (n & -> & Hn). rewrite Nat2Z.id.
  unfold yday_loop.
  destruct (is_leap =? 0);
    do 13 (destruct n as [|n]; [reflexivity|]); lia.
Qed.

Lemma rtc_calculate_yday_spec tb latest_epoch is_leap :
  0 <= tm_mon tb <= 12 ->
  rtc_calculate_yday tb latest_epoch is_leap =
  Done (yday_of_month_day (negb (is_leap =? 0)) (tm_mon tb) (tm_mday tb)).
Proof.
  intros H. unfold rtc_calculate_yday. cbv zeta.
  rewrite yday_loop_spec by exact H. reflexivity.
Qed.

Lemma set_tm_yday_same t : set_tm_yday t (tm_yday t) = t.
Proof. destruct t. reflexivity. Qed.

Lemma calendar_year_distance e :
  EPOCH_AFTER_FIRST_LEAPYEAR <= e < 4294967296 ->
  u16 (1973 + 4 * cycles e + year_in_cycle e - 1973) / 4 = cycles e /\
  u16 (1973 + 4 * cycles e + year_in_cycle e - 1973) mod 4 = year_in_cycle e.
Proof.
  intros H.
  pose proof (cycles_bounds e H) as (Hc & _ & _).
  pose proof (year_rest_bounds e H) as (Hy & _ & _).
  rewrite u16_small by (unfold is_u16; lia).
  Z.div_mod_to_equations. lia.
Qed.

Lemma rtc_epoch_of_calendar e t :
  EPOCH_AFTER_FIRST_LEAPYEAR <= e < 4294967296 ->
  calendar_of e t ->
  rtc_epoch (Some t) = Done (e, Some t).
Proof.
  intros H [Hyear Hyday Hmon Hmday Hmdr Hhour Hmin Hsec _].
  pose proof (cycles_bounds e H) as (Hc & Hr & He).
  pose proof (year_rest_bounds e H) as (Hy & Hyr & Hleap).
  pose proof (calendar_year_distance e H) as (Hdq & Hdm).
  rewrite rtc_epoch_accepted by lia.
  assert (Hyd : 0 <= tm_yday t <= 365)
    by (rewrite Hyday; destruct (in_leap_year e); Z.div_mod_to_equations; lia).
  destruct (366 <? tm_yday t) eqn:Hc366; [apply Z.ltb_lt in Hc366; lia|].
  cbv zeta.
  assert (Hres :
    (if (tm_yday t =? 0) && ((0 <? tm_mday t) || (0 <? tm_mon t)) then
       let* y := rtc_calculate_yday t (year_start (tm_year t))
                   (year_is_leap (tm_year t)) in
       Done (set_tm_yday t (s16 y))
     else Done t) = Done t).
  { destruct ((tm_yday t =? 0) && _) eqn:Hun; [|reflexivity].
    rewrite rtc_calculate_yday_spec by lia. cbn [bind].
    assert (Hlf : negb (year_is_leap (tm_year t) =? 0) = in_leap_year e).
    { unfold year_is_leap. rewrite Hyear, Hdm, Hleap.
      destruct (2 <? year_in_cycle e) eqn:H2.
      - apply Z.ltb_lt in H2. replace (year_in_cycle e) with 3 by lia. reflexivity.
      - apply Z.ltb_ge in H2. symmetry. apply Z.eqb_neq. lia. }
    rewrite Hlf. unfold yday_of_month_day. cbv zeta.
    destruct (0 <? tm_mday t) eqn:Hpos; [|apply Z.ltb_ge in Hpos; lia].
    pose proof (month_length_bounds (in_leap_year e) (tm_mon t)) as Hml.
    rewrite (s16_small (tm_mday t - 1)) by (unfold is_s16; lia).
    replace (days_before (in_leap_year e) (Z.to_nat (tm_mon t)) + (tm_mday t - 1))
      with (tm_yday t) by lia.
    rewrite u16_small, s16_small by (unfold is_u16, is_s16; lia).
    rewrite set_tm_yday_same. reflexivity. }
  rewrite Hres. cbn [bind]. f_equal. f_equal.
  unfold year_start. cbv zeta. rewrite Hyear, Hdq, Hdm, Hyday, Hhour, Hmin, Hsec.
  rewrite EPOCH_AFTER_FIRST_LEAPYEAR_val, TOTAL_SECONDS_PER_LEAP_CYCLE_val.
  unfold year_rest in *.
  set (r := cycle_rest e) in *. set (y := year_in_cycle e) in *.
  set (k := cycles e) in *.
  assert (Hrange : 0 <= r - y * 31536000 < 366 * 86400)
    by (destruct (in_leap_year e); lia).
  set (rty := r - y * 31536000) in *.
  assert (Hsplit : rty = rty / 86400 * 86400 + rty mod 86400 / 3600 * 3600
                         + rty mod 3600 / 60 * 60 + rty mod 60)
    by (clear - Hrange; Z.div_mod_to_equations; lia).
  assert (Hb1 : 0 <= rty / 86400 <= 365)
    by (clear - Hrange; Z.div_mod_to_equations; lia).
  assert (Hb2 : 0 <= rty mod 86400 / 3600 <= 23)
    by (clear - Hrange; Z.div_mod_to_equations; lia).
  assert (Hb3 : 0 <= rty mod 3600 / 60 <= 59)
    by (clear - Hrange; Z.div_mod_to_equations; lia).
  assert (Hb4 : 0 <= rty mod 60 <= 59)
    by (clear - Hrange; Z.div_mod_to_equations; lia).
  revert Hsplit Hb1 Hb2 Hb3 Hb4.
  generalize (rty / 86400) (rty mod 86400 / 3600) (rty mod 3600 / 60) (rty mod 60).
  intros yd hh mm ss Hsplit Hb1 Hb2 Hb3 Hb4.
  assert (Hrty : r = y * 31536000 + rty) by (subst rty; lia).
  clearbody rty.
  clear - H He Hc Hy Hrange Hsplit Hb1 Hb2 Hb3 Hb4 Hrty.
  rewrite (u32_small yd), (u32_small hh), (u32_small mm), (u32_small ss)
    by (unfold is_u32; lia).
  rewrite (u32_small (yd * 86400)), (u32_small (hh * 3600)), (u32_small (mm * 60))
    by (unfold is_u32; lia).
  rewrite (u32_small (94694400 + 126230400 * k + 31536000 * y))
    by (unfold is_u32; lia).
  rewrite (u32_small (_ + yd * 86400)) by (unfold is_u32; lia).
  rewrite (u32_small (_ + hh * 3600)) by (unfold is_u32; lia).
  rewrite (u32_small (_ + mm * 60)) by (unfold is_u32; lia).
  rewrite u32_small by (unfold is_u32; lia).
  lia.
Qed.

(** ** The tick handler *)

Lemma land_pow2_testbit a k :
  0 <= k -> (Z.land a (2 ^ k) =? 0) = negb (Z.testbit a k).
Proof.
  intros Hk. destruct (Z.testbit a k) eqn:Hb; cbn [negb].
  - apply Z.eqb_neq. intros H0.
    assert (Ht : Z.testbit (Z.land a (2 ^ k)) k = true)
      by (rewrite Z.land_spec, Hb, Z.pow2_bits_true by exact Hk; reflexivity).
    rewrite H0, Z.bits_0 in Ht. discriminate.
  - apply Z.eqb_eq. apply Z.bits_inj'. intros n Hn.
    rewrite Z.land_spec, Z.bits_0, Z.pow2_bits_eqb by exact Hk.
    destruct (Z.eqb_spec k n) as [->|_].
    + rewrite Hb. reflexivity.
    + apply andb_false_r.
Qed.

Lemma flag_set_RTC_TICK s : flag_set RTC_TICK s = Z.testbit (rtc_status s) 0.
Proof.
  unfold flag_set. change RTC_TICK with (2 ^ 0).
  rewrite land_pow2_testbit by lia. apply negb_involutive.
Qed.

Lemma flag_set_RTCALARM_0 s :
  flag_set RTCALARM_0_TRIGGERED s = Z.testbit (rtc_status s) 1.
Proof.
  unfold flag_set. change RTCALARM_0_TRIGGERED with (2 ^ 1).
  rewrite land_pow2_testbit by lia. apply negb_involutive.
Qed.

Section Tick.

Variables RTCIV_RTCIF LPM4_bits RTCIV : Z.
Hypothesis pending : Z.land RTCIV RTCIV_RTCIF <> 0.

Lemma RTC_ISR_tick SR s :
  let s' := fst (RTC_ISR RTCIV_RTCIF LPM4_bits RTCIV SR s) in
  rtcepoch s' = u32 (rtcepoch s + 1) /\
  rtcalarm0 s' =
    (if alarm0_due s && (0 <? rtcalarm0_incr s)
     then u32 (rtcalarm0 s + rtcalarm0_incr s) else rtcalarm0 s) /\
  rtcalarm0_incr s' = rtcalarm0_incr s /\
  Z.testbit (rtc_status s') 0 = true /\
  Z.testbit (rtc_status s') 1 = Z.testbit (rtc_status s) 1 || alarm0_due s /\
  snd (RTC_ISR RTCIV_RTCIF LPM4_bits RTCIV SR s) = Z.land SR (Z.lnot LPM4_bits).
Proof.
  unfold RTC_ISR, alarm0_due.
  destruct (Z.eqb_spec (Z.land RTCIV RTCIV_RTCIF) 0) as [H0|_]; [contradiction|].
  cbn [negb].
  destruct ((0 <? rtcalarm0 s) && (u32 (rtcepoch s + 1) =? rtcalarm0 s));
    destruct ((0 <? rtcalarm1 s) && (u32 (rtcepoch s + 1) =? rtcalarm1 s));
    cbn [fst snd rtcepoch rtcalarm0 rtcalarm0_incr rtc_status andb];
    unfold RTC_TICK, RTCALARM_0_TRIGGERED, RTCALARM_1_TRIGGERED;
    rewrite ?Z.lor_spec;
    change (Z.testbit 1 0) with true; change (Z.testbit 1 1) with false;
    change (Z.testbit 2 0) with false; change (Z.testbit 2 1) with true;
    change (Z.testbit 4 0) with false; change (Z.testbit 4 1) with false;
    rewrite ?orb_true_r, ?orb_false_r;
    repeat split; reflexivity.
Qed.

Lemma ticks_epoch n s :
  is_u32 (rtcepoch s) ->
  rtcepoch (ticks RTCIV_RTCIF LPM4_bits RTCIV n s) = u32 (rtcepoch s + Z.of_nat n).
Proof.
  intros Hs. induction n as [|n IH].
  - cbn [ticks]. rewrite Z.add_0_r, u32_small by exact Hs. reflexivity.
  - cbn [ticks].
    pose proof (RTC_ISR_tick 0 (ticks RTCIV_RTCIF LPM4_bits RTCIV n s)) as (He & _).
    rewrite He, IH, u32_add_l. f_equal. lia.
Qed.

End Tick.

Lemma RTC_ISR_clears_low_power RTCIV_RTCIF LPM4_bits RTCIV SR s :
  Z.land RTCIV RTCIV_RTCIF <> 0 ->
  Z.land (snd (RTC_ISR RTCIV_RTCIF LPM4_bits RTCIV SR s)) LPM4_bits = 0.
Proof.
  intros Hp.
  destruct (RTC_ISR_tick RTCIV_RTCIF LPM4_bits RTCIV Hp SR s)
    as (_ & _ & _ & _ & _ & ->).
  rewrite <- Z.land_assoc, (Z.land_comm (Z.lnot LPM4_bits)), Z.land_lnot_diag.
  apply Z.land_0_r.
Qed.

Section Alarm0.

Variables RTCIV_RTCIF LPM4_bits RTCIV : Z.
Hypothesis pending : Z.land RTCIV RTCIV_RTCIF <> 0.
Variables (s0 : rtc_state) (e0 : Z).
Hypothesis epoch0 : rtcepoch s0 = e0.
Hypothesis epoch0_nonneg : 0 <= e0.
Hypothesis epoch0_room : e0 + 20 < 4294967296.
Hypothesis target0 : rtcalarm0 s0 = e0 + 10.
Hypothesis incr0 : rtcalarm0_incr s0 = 5.

Lemma alarm0_run k :
  (k <= 19)%nat ->
  rtcepoch (ticks RTCIV_RTCIF LPM4_bits RTCIV k s0) = e0 + Z.of_nat k /\
  rtcalarm0 (ticks RTCIV_RTCIF LPM4_bits RTCIV k s0) = alarm0_target_after e0 (Z.of_nat k) /\
  rtcalarm0_incr (ticks RTCIV_RTCIF LPM4_bits RTCIV k s0) = 5 /\
  Z.testbit (rtc_status (ticks RTCIV_RTCIF LPM4_bits RTCIV k s0)) 1
  = Z.testbit (rtc_status s0) 1 || (10 <=? Z.of_nat k).
Proof.
  induction k as [|k IH]; intros Hk.
  - cbn [ticks]. rewrite epoch0, target0, incr0.
    change (10 <=? Z.of_nat 0) with false. rewrite orb_false_r.
    repeat split; try reflexivity; lia.
  - destruct IH as (He & Ha & Hi & Hb); [lia|].
    cbn [ticks] in *.
    set (s := ticks RTCIV_RTCIF LPM4_bits RTCIV k s0) in *.
    destruct (RTC_ISR_tick RTCIV_RTCIF LPM4_bits RTCIV pending 0 s)
      as (He' & Ha' & Hi' & _ & Hb' & _).
    cbv zeta in *. rewrite He', Ha', Hi', Hb', Hb.
    unfold alarm0_due. rewrite He, Ha, Hi.
    rewrite (u32_small (e0 + Z.of_nat k + 1)) by (unfold is_u32; lia).
    unfold alarm0_target_after.
    change (0 <? 5) with true. rewrite andb_true_r.
    repeat match goal with
           | |- context [?a <? ?b] => destruct (Z.ltb_spec a b)
           | |- context [?a =? ?b] => destruct (Z.eqb_spec a b)
           | |- context [?a <=? ?b] => destruct (Z.leb_spec a b)
           end; cbn [andb orb]; rewrite ?orb_true_r, ?orb_false_r;
      try rewrite u32_small by (unfold is_u32; lia);
      repeat split; try reflexivity; lia.
Qed.

Lemma alarm0_due_run k :
  (k <= 18)%nat ->
  alarm0_due (ticks RTCIV_RTCIF LPM4_bits RTCIV k s0) = (Z.of_nat k + 1 =? 10) || (Z.of_nat k + 1 =? 15).
Proof.
  intros Hk. destruct (alarm0_run k) as (He & Ha & _); [lia|].
  unfold alarm0_due. rewrite He, Ha.
  rewrite u32_small by (unfold is_u32; lia).
  unfold alarm0_target_after.
  repeat match goal with
         | |- context [?a <? ?b] => destruct (Z.ltb_spec a b)
         | |- context [?a =? ?b] => destruct (Z.eqb_spec a b)
         end; cbn [andb orb]; try reflexivity; lia.
Qed.

End Alarm0.

Lemma rtc_interpret_null e tb :
  e < EPOCH_AFTER_FIRST_LEAPYEAR -> rtc_interpret e tb = Done (NULL, tb).
Proof.
  intros H. apply Z.ltb_lt in H.
  unfold rtc_interpret, rtc_calculate_last_leapyear. rewrite H. reflexivity.
Qed.

(** ** Calendar values and their invariant *)

Lemma rtc_interpret_returns e tb p t :
  is_u32 e -> rtc_interpret e tb = Done (p, t) -> p = TIMEBUF ->
  EPOCH_AFTER_FIRST_LEAPYEAR <= e < 4294967296 /\ calendar_of e t.
Proof.
  unfold is_u32. intros He Hr ->.
  destruct (Z.lt_ge_cases e EPOCH_AFTER_FIRST_LEAPYEAR) as [Hlt|Hge].
  - rewrite rtc_interpret_null in Hr by exact Hlt. discriminate.
  - assert (H : EPOCH_AFTER_FIRST_LEAPYEAR <= e < 4294967296) by lia.
    split; [exact H|].
    destruct (rtc_interpret_supported e tb H) as (t' & Ht' & Hcal & _).
    rewrite Ht' in Hr. injection Hr as <-. exact Hcal.
Qed.

Lemma leap_year_gregorian y :
  1900 < y < 2100 -> leap_year y = gregorian_leap_year y.
Proof.
  intros H. unfold leap_year, gregorian_leap_year.
  destruct (Z.eqb_spec (y mod 4) 0) as [H4|H4];
    destruct (Z.eqb_spec (y mod 100) 0) as [H100|H100];
    destruct (Z.eqb_spec (y mod 400) 0) as [H400|H400];
    cbn [andb orb negb]; try reflexivity;
    exfalso; Z.div_mod_to_equations; lia.
Qed.

Lemma calendar_leap_year e t :
  EPOCH_AFTER_FIRST_LEAPYEAR <= e < 4294967296 ->
  calendar_of e t ->
  in_leap_year e = leap_year (tm_year t) /\ 1973 <= tm_year t <= 2108.
Proof.
  intros H Hcal.
  pose proof (cycles_bounds e H) as (Hc & _ & _).
  pose proof (year_rest_bounds e H) as (Hy & _ & Hleap).
  rewrite (cal_year _ _ Hcal), Hleap. unfold leap_year. split; [|lia].
  destruct (Z.eqb_spec (year_in_cycle e) 3) as [H3|H3]; symmetry.
  - apply Z.eqb_eq. Z.div_mod_to_equations. lia.
  - apply Z.eqb_neq. Z.div_mod_to_equations. lia.
Qed.

Lemma calendar_invariant e t :
  EPOCH_AFTER_FIRST_LEAPYEAR <= e < 4294967296 ->
  calendar_of e t -> tm_invariant t.
Proof.
  intros H Hcal.
  destruct (calendar_leap_year e t H Hcal) as (Hl & _).
  pose proof (year_rest_bounds e H) as (_ & Hyr & _).
  destruct Hcal as [Hyear Hyday Hmon Hmday Hmdr Hhour Hmin Hsec Hwday].
  rewrite Hl in *.
  pose proof (month_length_bounds (leap_year (tm_year t)) (tm_mon t)) as Hml.
  constructor; try assumption; try lia.
  - rewrite Hyday. destruct (leap_year (tm_year t)); Z.div_mod_to_equations; lia.
  - rewrite Hhour. Z.div_mod_to_equations. lia.
  - rewrite Hmin. Z.div_mod_to_equations. lia.
  - rewrite Hsec. Z.div_mod_to_equations. lia.
  - rewrite Hwday. Z.div_mod_to_equations. lia.
Qed.

Lemma month_index_cases m :
  0 <= m <= 11 ->
  m = 0 \/ m = 1 \/ m = 2 \/ m = 3 \/ m = 4 \/ m = 5 \/
  m = 6 \/ m = 7 \/ m = 8 \/ m = 9 \/ m = 10 \/ m = 11.
Proof. lia. Qed.

(** * The properties of the design document *)

(** C1: round trip.  For every epoch [e] from the start of 1973 on that
    fits the 32-bit counter, [rtc_interpret] returns the static buffer
    filled with a calendar value, and [rtc_epoch] applied to that buffer
    returns exactly [e] (and leaves the buffer as it was).  No intermediate
    sum of [rtc_epoch] exceeds [e], so the whole 32-bit range is covered. *)
Theorem rtc_epoch_rtc_interpret e tb :
  EPOCH_AFTER_FIRST_LEAPYEAR <= e < 4294967296 ->
  exists t, rtc_interpret e tb = Done (TIMEBUF, t) /\
            rtc_epoch (Some t) = Done (e, Some t).
Proof.
  intros H. destruct (rtc_interpret_supported e tb H) as (t & Ht & Hcal & _).
  exists t. split; [exact Ht|]. apply rtc_epoch_of_calendar; assumption.
Qed.

Lemma rtc_epoch_rtc_interpret_witness :
  EPOCH_AFTER_FIRST_LEAPYEAR <= 1000000000 < 4294967296 /\
  exists t, rtc_interpret 1000000000 tm_blank = Done (TIMEBUF, t) /\
            rtc_epoch (Some t) = Done (1000000000, Some t).
Proof.
  assert (H : EPOCH_AFTER_FIRST_LEAPYEAR <= 1000000000 < 4294967296)
    by (unfold EPOCH_AFTER_FIRST_LEAPYEAR; lia).
  split; [exact H|].
  exact (rtc_epoch_rtc_interpret 1000000000 tm_blank H).
Defined.

(** C2: unsupported range.  For every epoch before
    [EPOCH_AFTER_FIRST_LEAPYEAR] (an instant of 1970, 1971 or 1972)
    [rtc_calculate_last_leapyear] returns 0 without storing anything, and
    [rtc_interpret] returns NULL and leaves the static buffer untouched: no
    calendar field is produced. *)
Theorem rtc_interpret_before_1973 e tb :
  e < EPOCH_AFTER_FIRST_LEAPYEAR ->
  rtc_calculate_last_leapyear true e = Done (0, None) /\
  rtc_interpret e tb = Done (NULL, tb).
Proof.
  intros H. apply Z.ltb_lt in H.
  unfold rtc_interpret, rtc_calculate_last_leapyear. rewrite H.
  split; reflexivity.
Qed.

Lemma rtc_interpret_before_1973_witness :
  94694399 < EPOCH_AFTER_FIRST_LEAPYEAR /\
  rtc_interpret 94694399 (mkTm 1 2 3 4 5 6 0 7 0)
  = Done (NULL, mkTm 1 2 3 4 5 6 0 7 0).
Proof.
  assert (H : 94694399 < EPOCH_AFTER_FIRST_LEAPYEAR)
    by (unfold EPOCH_AFTER_FIRST_LEAPYEAR; lia).
  split; [exact H|].
  exact (proj2 (rtc_interpret_before_1973 94694399 (mkTm 1 2 3 4 5 6 0 7 0) H)).
Defined.

(** C3, as stated, fails where the counter wraps: from the epoch
    4294967295 one tick leaves the 32-bit counter at 0, not at
    4294967296. *)
Lemma ticks_epoch_wraps :
  rtcepoch (ticks 2 240 2 1 rtc_at_counter_end) = 0 /\
  rtcepoch (ticks 2 240 2 1 rtc_at_counter_end)
  <> rtcepoch rtc_at_counter_end + 1.
Proof. vm_compute. split; [reflexivity|discriminate]. Qed.

(** C3 (amended): a tick, that is a run of [RTC_ISR] with the RTC interrupt
    flag pending, adds 1 to [rtcepoch] in 32-bit arithmetic and sets
    [RTC_TICK]; after [n] ticks from an epoch [e0] the counter holds
    [(e0 + n) mod 2^32], which is [e0 + n] as long as that fits 32 bits. *)
Theorem ticks_increment_epoch RTCIV_RTCIF LPM4_bits RTCIV SR s n :
  Z.land RTCIV RTCIV_RTCIF <> 0 ->
  is_u32 (rtcepoch s) ->
  (let s' := fst (RTC_ISR RTCIV_RTCIF LPM4_bits RTCIV SR s) in
   rtcepoch s' = u32 (rtcepoch s + 1) /\
   (rtcepoch s + 1 < 4294967296 -> rtcepoch s' = rtcepoch s + 1) /\
   flag_set RTC_TICK s' = true) /\
  rtcepoch (ticks RTCIV_RTCIF LPM4_bits RTCIV n s) = u32 (rtcepoch s + Z.of_nat n) /\
  (rtcepoch s + Z.of_nat n < 4294967296 ->
   rtcepoch (ticks RTCIV_RTCIF LPM4_bits RTCIV n s) = rtcepoch s + Z.of_nat n).
Proof.
  intros Hp Hs. unfold is_u32 in Hs.
  destruct (RTC_ISR_tick RTCIV_RTCIF LPM4_bits RTCIV Hp SR s)
    as (He & _ & _ & Hb & _).
  cbv zeta in *. repeat split.
  - exact He.
  - intros Hlt. rewrite He. apply u32_small. unfold is_u32. lia.
  - rewrite flag_set_RTC_TICK. exact Hb.
  - apply ticks_epoch; assumption.
  - intros Hlt. rewrite ticks_epoch by assumption.
    apply u32_small. unfold is_u32. lia.
Qed.

Lemma ticks_increment_epoch_witness :
  Z.land 2 2 <> 0 /\ is_u32 (rtcepoch rtc_no_alarm) /\
  rtcepoch (ticks 2 240 2 3 rtc_no_alarm) = 1003.
Proof.
  assert (Hp : Z.land 2 2 <> 0) by (cbn; lia).
  assert (Hs : is_u32 (rtcepoch rtc_no_alarm))
    by (unfold is_u32; cbn; lia).
  split; [exact Hp|]. split; [exact Hs|].
  refine (proj2 (proj2 (ticks_increment_epoch 2 240 2 240
                          rtc_no_alarm 3 Hp Hs)) _).
  cbn. lia.
Defined.

(** C4, as stated, fails where the re-armed target wraps: armed at the
    epoch 4294967281 with target 4294967291 and increment 5, the alarm
    fires on the 10th tick, but its target becomes 0 (alarm disabled)
    instead of 4294967296, and it does not fire on the 5th tick after
    that, even with the flag cleared in between. *)
Lemma alarm0_rearm_wraps :
  rtcalarm0 rtc_alarm_near_counter_end = rtcepoch rtc_alarm_near_counter_end + 10 /\
  rtcalarm0_incr rtc_alarm_near_counter_end = 5 /\
  flag_set RTCALARM_0_TRIGGERED (ticks 2 240 2 10 rtc_alarm_near_counter_end) = true /\
  rtcalarm0 (ticks 2 240 2 10 rtc_alarm_near_counter_end) = 0 /\
  rtcalarm0 (ticks 2 240 2 10 rtc_alarm_near_counter_end)
  <> rtcepoch rtc_alarm_near_counter_end + 15 /\
  flag_set RTCALARM_0_TRIGGERED
    (ticks 2 240 2 5 (with_status (ticks 2 240 2 10 rtc_alarm_near_counter_end) 0))
  = false.
Proof. vm_compute. repeat split; discriminate. Qed.

(** C4 (amended): let alarm slot 0 be armed with target [e0 + 10] and
    increment 5 while the epoch is [e0], with [e0 + 20] below 2^32.  For
    every [k] from 1 to 15, the [k]-th tick raises [RTCALARM_0_TRIGGERED]
    (from any status word in which foreground code had it cleared) exactly
    when [k] is 10 or 15, and after [k] ticks the target is [e0 + 10] for
    [k < 10], [e0 + 15] for [10 <= k < 15] and [e0 + 20] for [k = 15].
    Left alone, the sticky flag reads set from the 10th tick on. *)
Theorem alarm0_fires_on_schedule RTCIV_RTCIF LPM4_bits RTCIV s0 e0 (k : nat) :
  Z.land RTCIV RTCIV_RTCIF <> 0 ->
  rtcepoch s0 = e0 -> 0 <= e0 -> e0 + 20 < 4294967296 ->
  rtcalarm0 s0 = e0 + 10 -> rtcalarm0_incr s0 = 5 ->
  (1 <= k <= 15)%nat ->
  let before := ticks RTCIV_RTCIF LPM4_bits RTCIV (k - 1) s0 in
  let after := ticks RTCIV_RTCIF LPM4_bits RTCIV k s0 in
  rtcalarm0 after = alarm0_target_after e0 (Z.of_nat k) /\
  (forall v SR, Z.testbit v 1 = false ->
     flag_set RTCALARM_0_TRIGGERED
       (fst (RTC_ISR RTCIV_RTCIF LPM4_bits RTCIV SR (with_status before v)))
     = (Z.of_nat k =? 10) || (Z.of_nat k =? 15)) /\
  (flag_set RTCALARM_0_TRIGGERED s0 = false ->
   flag_set RTCALARM_0_TRIGGERED after = (10 <=? Z.of_nat k)).
Proof.
  intros Hp He H0 Hroom Ha Hi Hk. cbv zeta.
  destruct (alarm0_run RTCIV_RTCIF LPM4_bits RTCIV Hp s0 e0 He H0 Hroom Ha Hi k)
    as (_ & Hak & _ & Hbk); [lia|].
  split; [exact Hak|]. split.
  - intros v SR Hv.
    rewrite flag_set_RTCALARM_0.
    destruct (RTC_ISR_tick RTCIV_RTCIF LPM4_bits RTCIV Hp SR
                (with_status (ticks RTCIV_RTCIF LPM4_bits RTCIV (k - 1) s0) v))
      as (_ & _ & _ & _ & Hb & _).
    cbv zeta in Hb. rewrite Hb. cbn [with_status rtc_status]. rewrite Hv.
    cbn [orb].
    change (alarm0_due (with_status (ticks RTCIV_RTCIF LPM4_bits RTCIV (k - 1) s0) v))
      with (alarm0_due (ticks RTCIV_RTCIF LPM4_bits RTCIV (k - 1) s0)).
    rewrite (alarm0_due_run RTCIV_RTCIF LPM4_bits RTCIV Hp s0 e0 He H0 Hroom Ha Hi)
      by lia.
    replace (Z.of_nat (k - 1) + 1) with (Z.of_nat k) by lia. reflexivity.
  - rewrite !flag_set_RTCALARM_0. intros Hclear. rewrite Hbk, Hclear. reflexivity.
Qed.

Lemma alarm0_fires_on_schedule_witness :
  Z.land 2 2 <> 0 /\ rtcepoch rtc_alarm_armed = 1000 /\ 0 <= 1000 /\
  1000 + 20 < 4294967296 /\
  rtcalarm0 rtc_alarm_armed = 1000 + 10 /\ rtcalarm0_incr rtc_alarm_armed = 5 /\
  (1 <= 10 <= 15)%nat /\
  rtcalarm0 (ticks 2 240 2 10 rtc_alarm_armed) = alarm0_target_after 1000 10.
Proof.
  assert (Hp : Z.land 2 2 <> 0) by (cbn; lia).
  assert (Hroom : 1000 + 20 < 4294967296) by lia.
  assert (H0 : 0 <= 1000) by lia.
  assert (Hk : (1 <= 10 <= 15)%nat) by lia.
  repeat (split; [first [exact Hp | exact H0 | exact Hroom | exact Hk | reflexivity]|]).
  exact (proj1 (alarm0_fires_on_schedule 2 240 2 rtc_alarm_armed 1000 10
                  Hp eq_refl H0 Hroom eq_refl eq_refl Hk)).
Defined.

(** C5: leap-year correctness.  1976-02-29T00:00:00Z is 2250 days after
    the epoch (six years, one of them leap, then January and 28 days) and
    [rtc_interpret] gives it month 1 and day 29; 1977-03-01T00:00:00Z is
    2616 days after the epoch and gets month 2 and day 1.  No epoch is
    given the 29th of February of 1977. *)
Theorem rtc_interpret_leap_day tb :
  (exists t, rtc_interpret (86400 * (6 * 365 + 1 + 31 + 28)) tb = Done (TIMEBUF, t) /\
             tm_year t = 1976 /\ tm_mon t = 1 /\ tm_mday t = 29) /\
  (exists t, rtc_interpret (86400 * (7 * 365 + 2 + 31 + 28)) tb = Done (TIMEBUF, t) /\
             tm_year t = 1977 /\ tm_mon t = 2 /\ tm_mday t = 1) /\
  (forall e tb' t, is_u32 e -> rtc_interpret e tb' = Done (TIMEBUF, t) ->
                   tm_year t = 1977 -> ~ (tm_mon t = 1 /\ tm_mday t = 29)).
Proof.
  split; [|split].
  - eexists. split; [vm_compute; reflexivity|]. repeat split.
  - eexists. split; [vm_compute; reflexivity|]. repeat split.
  - intros e tb' t He Hr Hyear [Hmon Hday].
    destruct (rtc_interpret_returns e tb' TIMEBUF t He Hr eq_refl) as (H & Hcal).
    pose proof (inv_mday t (calendar_invariant e t H Hcal)) as Hm.
    rewrite Hyear, Hmon, Hday in Hm. vm_compute in Hm.
    destruct Hm as [_ Hm]. apply Hm. reflexivity.
Qed.

Lemma rtc_interpret_leap_day_witness :
  is_u32 225936000 /\
  (exists t, rtc_interpret 225936000 tm_blank = Done (TIMEBUF, t) /\
             tm_year t = 1977 /\ ~ (tm_mon t = 1 /\ tm_mday t = 29)).
Proof.
  assert (He : is_u32 225936000) by (unfold is_u32; lia).
  split; [exact He|].
  eexists. split; [vm_compute; reflexivity|]. split; [reflexivity|].
  exact (proj2 (proj2 (rtc_interpret_leap_day tm_blank))
           225936000 tm_blank _ He eq_refl eq_refl).
Defined.

(** C6, as stated, fails: the epochs 0 and 86400 lie before 1973, so
    [rtc_interpret] returns NULL for them and no weekday at all. *)
Lemma rtc_interpret_epoch_0_null :
  ~ (exists t, rtc_interpret 0 tm_blank = Done (TIMEBUF, t) /\
               tm_wday t = 4).
Proof. intros (t & Ht & _). vm_compute in Ht. discriminate. Qed.

(** C6 (amended): the weekday expression of [rtc_interpret] depends on the
    epoch alone; it gives 4 (Thursday) for the epoch 0 and 5 (Friday) for
    86400.  [rtc_interpret] itself returns NULL for these two epochs; for
    every supported epoch the [tm_wday] it returns is the value of that
    expression, which is [(epoch / 86400 + 4) mod 7]. *)
Theorem wday_anchor :
  wday_expression 0 = 4 /\ wday_expression 86400 = 5 /\
  option_map day_longName (nth_error dayInfo 4) = Some "Thursday"%string /\
  option_map day_longName (nth_error dayInfo 5) = Some "Friday"%string /\
  (forall tb, rtc_interpret 0 tb = Done (NULL, tb) /\
              rtc_interpret 86400 tb = Done (NULL, tb)) /\
  (forall e tb, EPOCH_AFTER_FIRST_LEAPYEAR <= e < 4294967296 ->
     exists t, rtc_interpret e tb = Done (TIMEBUF, t) /\
               tm_wday t = wday_expression e /\
               wday_expression e = (e / 86400 + 4) mod 7).
Proof.
  repeat split; try reflexivity.
  intros e tb H.
  destruct (rtc_interpret_supported e tb H) as (t & Ht & Hcal & _).
  exists t. split; [exact Ht|].
  unfold wday_expression. cbv zeta.
  rewrite wday_formula by (unfold EPOCH_AFTER_FIRST_LEAPYEAR in H; lia).
  split; [apply (cal_wday _ _ Hcal)|reflexivity].
Qed.

Lemma wday_anchor_witness :
  EPOCH_AFTER_FIRST_LEAPYEAR <= 94694400 < 4294967296 /\
  exists t, rtc_interpret 94694400 tm_blank = Done (TIMEBUF, t) /\
            tm_wday t = wday_expression 94694400 /\
            wday_expression 94694400 = (94694400 / 86400 + 4) mod 7.
Proof.
  assert (H : EPOCH_AFTER_FIRST_LEAPYEAR <= 94694400 < 4294967296)
    by (unfold EPOCH_AFTER_FIRST_LEAPYEAR; lia).
  split; [exact H|].
  exact (proj2 (proj2 (proj2 (proj2 (proj2 wday_anchor))))
           94694400 tm_blank H).
Defined.

(** C7: invalid input.  [rtc_epoch] returns 0 for the NULL pointer and for
    every structure whose [tm_year] is below 1973, and leaves the
    structure as it was. *)
Theorem rtc_epoch_invalid :
  rtc_epoch None = Done (0, None) /\
  forall tb, tm_year tb < 1973 -> rtc_epoch (Some tb) = Done (0, Some tb).
Proof.
  split; [reflexivity|].
  intros tb H. apply Z.ltb_lt in H. unfold rtc_epoch. rewrite H. reflexivity.
Qed.

Lemma rtc_epoch_invalid_witness :
  tm_year (mkTm 30 15 12 4 6 1972 2 185 0) < 1973 /\
  rtc_epoch (Some (mkTm 30 15 12 4 6 1972 2 185 0))
  = Done (0, Some (mkTm 30 15 12 4 6 1972 2 185 0)).
Proof.
  assert (H : tm_year (mkTm 30 15 12 4 6 1972 2 185 0) < 1973) by (cbn; lia).
  split; [exact H|].
  exact (proj2 rtc_epoch_invalid (mkTm 30 15 12 4 6 1972 2 185 0) H).
Defined.


(** Before 2100-03-01 the year is at most 2100, and in 2100 only January
    and February up to the 28th are reached. *)
Lemma calendar_before_march_2100 e t :
  EPOCH_AFTER_FIRST_LEAPYEAR <= e < 4107542400 ->
  calendar_of e t ->
  1973 <= tm_year t <= 2100 /\ (tm_year t = 2100 -> tm_yday t <= 58).
Proof.
  intros H Hcal.
  assert (H' : EPOCH_AFTER_FIRST_LEAPYEAR <= e < 4294967296) by lia.
  pose proof (cycles_bounds e H') as (Hc & Hr & He).
  pose proof (year_rest_bounds e H') as (Hy & Hyr & _).
  destruct Hcal as [Hyear Hyday _ _ _ _ _ _ _].
  assert (Hyr0 : 0 <= year_rest e) by lia.
  unfold year_rest in *.
  assert (Hlin : 126230400 * cycles e + 31536000 * year_in_cycle e
                 + (cycle_rest e - year_in_cycle e * 31536000) < 4012848000) by lia.
  split; [lia|].
  intros E. rewrite Hyday.
  assert (cycles e = 31 /\ year_in_cycle e = 3) as (Ec & Ei) by lia.
  rewrite Ec, Ei in *. Z.div_mod_to_equations. lia.
Qed.

Lemma calendar_gregorian_invariant e t :
  EPOCH_AFTER_FIRST_LEAPYEAR <= e < 4107542400 ->
  calendar_of e t -> tm_gregorian_invariant t.
Proof.
  intros H Hcal.
  assert (H' : EPOCH_AFTER_FIRST_LEAPYEAR <= e < 4294967296) by lia.
  destruct (calendar_before_march_2100 e t H Hcal) as (Hy & H58).
  pose proof (calendar_invariant e t H' Hcal)
    as [Hmon Hmd _ Hyd Hymd Hh Hm Hs Hw].
  destruct (Z.eq_dec (tm_year t) 2100) as [E|NE].
  - specialize (H58 E).
    constructor; try assumption; rewrite E in *;
      change (leap_year 2100) with true in *;
      change (gregorian_leap_year 2100) with false;
      destruct (month_index_cases _ Hmon) as [M|[M|[M|[M|[M|[M|[M|[M|[M|[M|[M|M]]]]]]]]]]];
      rewrite M in *; cbn in Hmd; revert Hymd; eval_days_before; intros Hymd;
      cbn [month_length]; lia.
  - assert (Hl : leap_year (tm_year t) = gregorian_leap_year (tm_year t))
      by (apply leap_year_gregorian; lia).
    rewrite Hl in *. constructor; assumption.
Qed.



(** C9: the header documents that with [RTC_TICK_DOES_WAKEUP] clear only
    an alarm wakes the chip, but [RTC_ISR] never reads that bit.  Here the
    bit is clear and both alarms are disabled; the tick sets [RTC_TICK]
    alone and still clears every low-power bit of the saved status
    register, so the chip wakes up. *)
Theorem RTC_ISR_bare_tick_wakes :
  Z.land (rtc_status rtc_no_alarm) RTC_TICK_DOES_WAKEUP = 0 /\
  rtc_status (fst (RTC_ISR 2 240 2 240 rtc_no_alarm)) = RTC_TICK /\
  snd (RTC_ISR 2 240 2 240 rtc_no_alarm) = 0.
Proof. vm_compute. repeat split. Qed.

(** C10, as stated, fails: a structure with [tm_year] below 1973 is
    rejected before anything is written, so its [tm_yday] of 400 is not
    overwritten. *)
Lemma rtc_epoch_rejected_keeps_yday :
  (366 <? tm_yday tm_year_1970_yday_400) = true /\
  rtc_epoch (Some tm_year_1970_yday_400) = Done (0, Some tm_year_1970_yday_400) /\
  ~ (exists e tb', rtc_epoch (Some tm_year_1970_yday_400) = Done (e, Some tb') /\
                   tm_yday tb' <> tm_yday tm_year_1970_yday_400).
Proof.
  split; [reflexivity|]. split; [reflexivity|].
  intros (e & tb' & H & Hne). vm_compute in H. injection H as _ <-.
  apply Hne. reflexivity.
Qed.

(** C10 (amended): for a structure that [rtc_epoch] accepts ([tm_year] at
    least 1973), a [tm_yday] above 366 is replaced by 0, and a [tm_yday]
    that is then 0 while [tm_mday] or [tm_mon] is positive is overwritten
    with the value recomputed from the month and the day (the month table
    reaches months 0..12); otherwise [tm_yday] is kept.  Every other field
    of the structure is left unchanged. *)
Theorem rtc_epoch_frame tb :
  1973 <= tm_year tb ->
  (yday_is_recomputed tb = true -> 0 <= tm_mon tb <= 12) ->
  exists e tb',
    rtc_epoch (Some tb) = Done (e, Some tb') /\
    tm_yday tb' = resolved_yday tb /\
    tm_sec tb' = tm_sec tb /\ tm_min tb' = tm_min tb /\
    tm_hour tb' = tm_hour tb /\ tm_mday tb' = tm_mday tb /\
    tm_mon tb' = tm_mon tb /\ tm_year tb' = tm_year tb /\
    tm_wday tb' = tm_wday tb /\ tm_isdst tb' = tm_isdst tb.
Proof.
  intros Hy Hmon. rewrite rtc_epoch_accepted by exact Hy.
  unfold resolved_yday, yday_is_recomputed in *. cbv zeta in *.
  destruct (366 <? tm_yday tb);
    cbn [set_tm_yday tm_yday tm_mday tm_mon] in *;
    match goal with
    | |- context [if ?c then bind _ _ else _] => destruct c eqn:Hc
    end;
    try (rewrite rtc_calculate_yday_spec
           by (cbn [set_tm_yday tm_mon]; apply Hmon; reflexivity));
    cbn [bind set_tm_yday tm_mon tm_mday];
    do 2 eexists; (split; [reflexivity|]);
    cbn [set_tm_yday tm_sec tm_min tm_hour tm_mday tm_mon tm_year tm_wday
         tm_yday tm_isdst];
    repeat split; reflexivity.
Qed.

Lemma rtc_epoch_frame_witness :
  1973 <= tm_year tm_july_2021_yday_400 /\
  (yday_is_recomputed tm_july_2021_yday_400 = true ->
   0 <= tm_mon tm_july_2021_yday_400 <= 12) /\
  exists e tb', rtc_epoch (Some tm_july_2021_yday_400) = Done (e, Some tb') /\
                tm_yday tb' = 184 /\ tm_mday tb' = tm_mday tm_july_2021_yday_400.
Proof.
  assert (Hy : 1973 <= tm_year tm_july_2021_yday_400) by (cbn; lia).
  assert (Hm : yday_is_recomputed tm_july_2021_yday_400 = true ->
               0 <= tm_mon tm_july_2021_yday_400 <= 12)
    by (intros _; cbn; lia).
  split; [exact Hy|]. split; [exact Hm|].
  destruct (rtc_epoch_frame tm_july_2021_yday_400 Hy Hm)
    as (e & tb' & He & Hyd & _ & _ & _ & Hmd & _).
  exists e, tb'. split; [exact He|]. split; [|exact Hmd].
  rewrite Hyd. reflexivity.
Defined.

(** * Further properties of the conversions *)

Lemma seconds_split rty :
  0 <= rty < 366 * 86400 ->
  rty = 86400 * (rty / 86400)
        + (3600 * (rty mod 86400 / 3600) + 60 * (rty mod 3600 / 60) + rty mod 60) /\
  0 <= 3600 * (rty mod 86400 / 3600) + 60 * (rty mod 3600 / 60) + rty mod 60 < 86400.
Proof. intros H. Z.div_mod_to_equations. lia. Qed.

(** The epoch of a calendar value, from its year, day of the year and time
    of the day. *)
Lemma calendar_epoch e t :
  EPOCH_AFTER_FIRST_LEAPYEAR <= e < 4294967296 ->
  calendar_of e t ->
  e = 86400 * (year_day_number (tm_year t) + tm_yday t)
      + (3600 * tm_hour t + 60 * tm_min t + tm_sec t) /\
  0 <= 3600 * tm_hour t + 60 * tm_min t + tm_sec t < 86400 /\
  0 <= tm_yday t <= (if leap_year (tm_year t) then 365 else 364) /\
  1973 <= tm_year t.
Proof.
  intros H Hcal.
  pose proof (cycles_bounds e H) as (Hc & Hr & He).
  pose proof (year_rest_bounds e H) as (Hy & Hyr & Hleap).
  destruct (calendar_leap_year e t H Hcal) as (Hl & Hyear & _).
  destruct Hcal as [Hy' Hyday _ _ _ Hhour Hmin Hsec _].
  assert (Hyr' : 0 <= year_rest e < 366 * 86400)
    by (destruct (in_leap_year e); lia).
  destruct (seconds_split _ Hyr') as (Hsplit & Htod).
  rewrite Hyday, Hhour, Hmin, Hsec.
  assert (Hdn : year_day_number (tm_year t) = 1096 + 1461 * cycles e + 365 * year_in_cycle e).
  { unfold year_day_number. rewrite Hy'.
    replace (1973 + 4 * cycles e + year_in_cycle e - 1973)
      with (year_in_cycle e + cycles e * 4) by lia.
    rewrite Z.div_add by lia. rewrite Z.div_small by lia. lia. }
  rewrite Hdn. unfold year_rest in *.
  split; [lia|]. split; [exact Htod|]. split; [|exact Hyear].
  rewrite <- Hl. destruct (in_leap_year e); Z.div_mod_to_equations; lia.
Qed.

(** A day of the year belongs to one month only. *)
Lemma month_day_unique leap m1 d1 m2 d2 :
  0 <= m1 <= 11 -> 1 <= d1 <= month_length leap m1 ->
  0 <= m2 <= 11 -> 1 <= d2 <= month_length leap m2 ->
  days_before leap (Z.to_nat m1) + d1 = days_before leap (Z.to_nat m2) + d2 ->
  m1 = m2 /\ d1 = d2.
Proof.
  intros H1 Hd1 H2 Hd2.
  destruct (month_index_cases m1 H1) as [->|[->|[->|[->|[->|[->|[->|[->|[->|[->|[->| ->]]]]]]]]]]];
    destruct (month_index_cases m2 H2) as [->|[->|[->|[->|[->|[->|[->|[->|[->|[->|[->| ->]]]]]]]]]]];
    destruct leap; cbn in Hd1, Hd2; eval_days_before; lia.
Qed.

Lemma days_before_year_end leap m d :
  0 <= m <= 11 -> 1 <= d <= month_length leap m ->
  0 <= days_before leap (Z.to_nat m) + (d - 1) < (if leap then 366 else 365).
Proof.
  intros H Hd.
  destruct (month_index_cases m H) as [->|[->|[->|[->|[->|[->|[->|[->|[->|[->|[->| ->]]]]]]]]]]];
    destruct leap; cbn in Hd; eval_days_before; lia.
Qed.

(** A supported epoch has one calendar value. *)
Lemma calendar_of_unique e t1 t2 :
  EPOCH_AFTER_FIRST_LEAPYEAR <= e < 4294967296 ->
  calendar_of e t1 -> calendar_of e t2 -> same_calendar_fields t1 t2.
Proof.
  intros H [Y1 D1 M1 MD1 R1 Hh1 Hm1 Hs1 W1] [Y2 D2 M2 MD2 R2 Hh2 Hm2 Hs2 W2].
  destruct (month_day_unique (in_leap_year e) (tm_mon t1) (tm_mday t1)
              (tm_mon t2) (tm_mday t2) M1 R1 M2 R2) as (Hmon & Hday); [lia|].
  unfold same_calendar_fields.
  repeat split; congruence.
Qed.

(** X1.  [rtc_calculate_last_leapyear] splits a supported epoch into the
    start of its leap cycle and the seconds into that cycle: the returned
    value is never 0, it is [EPOCH_AFTER_FIRST_LEAPYEAR] plus a whole
    number [n] of cycles, the remainder is shorter than a cycle, the two
    add up to the epoch, and the year count is [3 + 4 * n].  With a NULL
    buffer the same value is returned and nothing is stored. *)
Theorem rtc_calculate_last_leapyear_decomposition e :
  EPOCH_AFTER_FIRST_LEAPYEAR <= e < 4294967296 ->
  exists accum leaps n,
    rtc_calculate_last_leapyear true e = Done (accum, Some leaps) /\
    rtc_calculate_last_leapyear false e = Done (accum, None) /\
    accum <> 0 /\ 0 <= n /\
    accum = EPOCH_AFTER_FIRST_LEAPYEAR + n * TOTAL_SECONDS_PER_LEAP_CYCLE /\
    startOfCycle leaps = accum /\
    accum + remains leaps = e /\
    0 <= remains leaps < TOTAL_SECONDS_PER_LEAP_CYCLE /\
    years leaps = 3 + 4 * n.
Proof.
  intros H. pose proof (cycles_bounds e H) as (Hc & Hr & He).
  rewrite !rtc_calculate_last_leapyear_supported by exact H.
  do 3 eexists. split; [reflexivity|]. split; [reflexivity|].
  cbn [startOfCycle remains years].
  rewrite EPOCH_AFTER_FIRST_LEAPYEAR_val, TOTAL_SECONDS_PER_LEAP_CYCLE_val.
  instantiate (1 := cycles e). repeat split; lia.
Qed.

Lemma rtc_calculate_last_leapyear_decomposition_witness :
  EPOCH_AFTER_FIRST_LEAPYEAR <= 1000000000 < 4294967296 /\
  exists accum leaps,
    rtc_calculate_last_leapyear true 1000000000 = Done (accum, Some leaps) /\
    accum + remains leaps = 1000000000.
Proof.
  assert (H : EPOCH_AFTER_FIRST_LEAPYEAR <= 1000000000 < 4294967296)
    by (unfold EPOCH_AFTER_FIRST_LEAPYEAR; lia).
  split; [exact H|].
  destruct (rtc_calculate_last_leapyear_decomposition 1000000000 H)
    as (accum & leaps & n & H1 & _ & _ & _ & _ & _ & H2 & _).
  exists accum, leaps. split; assumption.
Defined.

(** X2.  For every 32-bit epoch [rtc_interpret] returns: it reads no
    table entry out of bounds and its loops end.  It returns NULL exactly
    for the epochs before [EPOCH_AFTER_FIRST_LEAPYEAR]. *)
Theorem rtc_interpret_null_iff e tb :
  is_u32 e ->
  exists p t, rtc_interpret e tb = Done (p, t) /\
              (p = NULL <-> e < EPOCH_AFTER_FIRST_LEAPYEAR).
Proof.
  unfold is_u32. intros He.
  destruct (Z.lt_ge_cases e EPOCH_AFTER_FIRST_LEAPYEAR) as [Hlt|Hge].
  - exists NULL, tb. split; [apply rtc_interpret_null; exact Hlt|]. tauto.
  - destruct (rtc_interpret_supported e tb) as (t & Ht & _); [lia|].
    exists TIMEBUF, t. split; [exact Ht|]. split; [discriminate|lia].
Qed.

Lemma rtc_interpret_null_iff_witness :
  is_u32 94694400 /\
  exists p t, rtc_interpret 94694400 tm_blank = Done (p, t) /\
              (p = NULL <-> 94694400 < EPOCH_AFTER_FIRST_LEAPYEAR).
Proof.
  assert (H : is_u32 94694400) by (unfold is_u32; lia).
  split; [exact H|]. exact (rtc_interpret_null_iff 94694400 tm_blank H).
Defined.

(** X3.  The calendar fields that [rtc_interpret] returns for a supported
    epoch do not depend on what the static buffer held before, and
    [tm_isdst] is the one field the function never writes. *)
Theorem rtc_interpret_buffer e tb1 tb2 :
  EPOCH_AFTER_FIRST_LEAPYEAR <= e < 4294967296 ->
  exists t1 t2,
    rtc_interpret e tb1 = Done (TIMEBUF, t1) /\
    rtc_interpret e tb2 = Done (TIMEBUF, t2) /\
    same_calendar_fields t1 t2 /\
    tm_isdst t1 = tm_isdst tb1 /\ tm_isdst t2 = tm_isdst tb2.
Proof.
  intros H.
  destruct (rtc_interpret_supported e tb1 H) as (t1 & Ht1 & Hc1 & Hi1).
  destruct (rtc_interpret_supported e tb2 H) as (t2 & Ht2 & Hc2 & Hi2).
  exists t1, t2. split; [exact Ht1|]. split; [exact Ht2|].
  split; [exact (calendar_of_unique e t1 t2 H Hc1 Hc2)|].
  split; assumption.
Qed.

Lemma rtc_interpret_buffer_witness :
  EPOCH_AFTER_FIRST_LEAPYEAR <= 1000000000 < 4294967296 /\
  exists t1 t2,
    rtc_interpret 1000000000 tm_blank = Done (TIMEBUF, t1) /\
    rtc_interpret 1000000000 tm_july_2021_yday_400 = Done (TIMEBUF, t2) /\
    same_calendar_fields t1 t2.
Proof.
  assert (H : EPOCH_AFTER_FIRST_LEAPYEAR <= 1000000000 < 4294967296)
    by (unfold EPOCH_AFTER_FIRST_LEAPYEAR; lia).
  split; [exact H|].
  destruct (rtc_interpret_buffer 1000000000 tm_blank tm_july_2021_yday_400 H)
    as (t1 & t2 & H1 & H2 & H3 & _).
  exists t1, t2. split; [exact H1|]. split; [exact H2|exact H3].
Defined.

(** X4.  The time of the day that [rtc_interpret] returns is the epoch
    modulo one day, split into hours, minutes and seconds: leap cycles and
    years are whole numbers of days. *)
Theorem rtc_interpret_time_of_day e tb :
  EPOCH_AFTER_FIRST_LEAPYEAR <= e < 4294967296 ->
  exists t, rtc_interpret e tb = Done (TIMEBUF, t) /\
            tm_hour t = e mod 86400 / 3600 /\
            tm_min t = e mod 3600 / 60 /\
            tm_sec t = e mod 60.
Proof.
  intros H. destruct (rtc_interpret_supported e tb H) as (t & Ht & Hcal & _).
  exists t. split; [exact Ht|].
  destruct (calendar_epoch e t H Hcal) as (He & Htod & _).
  pose proof (calendar_invariant e t H Hcal) as [_ _ _ _ _ Hh Hm Hs _].
  set (D := year_day_number (tm_year t) + tm_yday t) in *.
  clearbody D. clear - He Hh Hm Hs.
  Z.div_mod_to_equations. lia.
Qed.

Lemma rtc_interpret_time_of_day_witness :
  EPOCH_AFTER_FIRST_LEAPYEAR <= 1000000000 < 4294967296 /\
  exists t, rtc_interpret 1000000000 tm_blank = Done (TIMEBUF, t) /\
            tm_hour t = 1 /\ tm_min t = 46 /\ tm_sec t = 40.
Proof.
  assert (H : EPOCH_AFTER_FIRST_LEAPYEAR <= 1000000000 < 4294967296)
    by (unfold EPOCH_AFTER_FIRST_LEAPYEAR; lia).
  split; [exact H|].
  destruct (rtc_interpret_time_of_day 1000000000 tm_blank H)
    as (t & Ht & Hh & Hm & Hs).
  exists t. split; [exact Ht|]. split; [exact Hh|]. split; [exact Hm|exact Hs].
Defined.

(** X5.  The date that [rtc_interpret] returns is the day [epoch / 86400]
    counted by the four-year rule: the days to the first of January of
    the year, plus the days of the months before, plus the day of the
    month minus one. *)
Theorem rtc_interpret_day_number e tb :
  EPOCH_AFTER_FIRST_LEAPYEAR <= e < 4294967296 ->
  exists t, rtc_interpret e tb = Done (TIMEBUF, t) /\
            e / 86400 = year_day_number (tm_year t) + tm_yday t /\
            e / 86400 = year_day_number (tm_year t)
                        + days_before (leap_year (tm_year t)) (Z.to_nat (tm_mon t))
                        + (tm_mday t - 1).
Proof.
  intros H. destruct (rtc_interpret_supported e tb H) as (t & Ht & Hcal & _).
  exists t. split; [exact Ht|].
  destruct (calendar_epoch e t H Hcal) as (He & Htod & _).
  pose proof (inv_yday_month_day t (calendar_invariant e t H Hcal)) as Hyd.
  assert (Hd : e / 86400 = year_day_number (tm_year t) + tm_yday t).
  { set (D := year_day_number (tm_year t) + tm_yday t) in *.
    set (T := 3600 * tm_hour t + 60 * tm_min t + tm_sec t) in *.
    clearbody D T. clear - He Htod. Z.div_mod_to_equations. lia. }
  split; [exact Hd|]. rewrite Hd. lia.
Qed.

Lemma rtc_interpret_day_number_witness :
  EPOCH_AFTER_FIRST_LEAPYEAR <= 1000000000 < 4294967296 /\
  exists t, rtc_interpret 1000000000 tm_blank = Done (TIMEBUF, t) /\
            1000000000 / 86400 = year_day_number (tm_year t) + tm_yday t.
Proof.
  assert (H : EPOCH_AFTER_FIRST_LEAPYEAR <= 1000000000 < 4294967296)
    by (unfold EPOCH_AFTER_FIRST_LEAPYEAR; lia).
  split; [exact H|].
  destruct (rtc_interpret_day_number 1000000000 tm_blank H) as (t & Ht & Hd & _).
  exists t. split; [exact Ht|exact Hd].
Defined.

(** X6.  [rtc_interpret] keeps the order of time: a later supported epoch
    gets a later calendar value, compared by year, day of the year, hour,
    minute and second.  So two different epochs never get the same
    calendar value. *)
Theorem rtc_interpret_monotone e1 e2 tb1 tb2 :
  EPOCH_AFTER_FIRST_LEAPYEAR <= e1 -> e1 < e2 -> e2 < 4294967296 ->
  exists t1 t2, rtc_interpret e1 tb1 = Done (TIMEBUF, t1) /\
                rtc_interpret e2 tb2 = Done (TIMEBUF, t2) /\
                tm_before t1 t2.
Proof.
  intros Hlo Hlt Hhi.
  assert (H1 : EPOCH_AFTER_FIRST_LEAPYEAR <= e1 < 4294967296) by lia.
  assert (H2 : EPOCH_AFTER_FIRST_LEAPYEAR <= e2 < 4294967296) by lia.
  destruct (rtc_interpret_supported e1 tb1 H1) as (t1 & Ht1 & Hc1 & _).
  destruct (rtc_interpret_supported e2 tb2 H2) as (t2 & Ht2 & Hc2 & _).
  exists t1, t2. split; [exact Ht1|]. split; [exact Ht2|].
  destruct (calendar_epoch e1 t1 H1 Hc1) as (He1 & Htod1 & Hyd1 & Hy1).
  destruct (calendar_epoch e2 t2 H2 Hc2) as (He2 & Htod2 & Hyd2 & Hy2).
  pose proof (calendar_invariant e1 t1 H1 Hc1) as [_ _ _ _ _ Hh1 Hm1 Hs1 _].
  pose proof (calendar_invariant e2 t2 H2 Hc2) as [_ _ _ _ _ Hh2 Hm2 Hs2 _].
  unfold tm_before, year_day_number, leap_year in *.
  assert (Hyd2' : 0 <= tm_yday t2 <= 364 \/
                  (tm_yday t2 = 365 /\ (tm_year t2 - 1973) mod 4 = 3)).
  { destruct (Z.eqb_spec (tm_year t2 mod 4) 0); [|lia].
    destruct (Z.eq_dec (tm_yday t2) 365); [|lia].
    right. split; [assumption|]. Z.div_mod_to_equations. lia. }
  assert (Hyd1' : 0 <= tm_yday t1) by lia.
  clear Hyd1 Hyd2 Hc1 Hc2 Ht1 Ht2.
  destruct (Z.lt_trichotomy (tm_year t1) (tm_year t2)) as [Hy|[Hy|Hy]];
    [left; exact Hy | right; split; [exact Hy|] | exfalso].
  - rewrite Hy in *.
    destruct (Z.lt_trichotomy (tm_yday t1) (tm_yday t2)) as [Hd|[Hd|Hd]];
      [left; exact Hd | right; split; [exact Hd|] | exfalso; lia].
    rewrite Hd in *. lia.
  - Z.div_mod_to_equations. lia.
Qed.

Lemma rtc_interpret_monotone_witness :
  EPOCH_AFTER_FIRST_LEAPYEAR <= 126230399 /\ 126230399 < 126230400 /\
  126230400 < 4294967296 /\
  exists t1 t2, rtc_interpret 126230399 tm_blank = Done (TIMEBUF, t1) /\
                rtc_interpret 126230400 tm_blank = Done (TIMEBUF, t2) /\
                tm_before t1 t2.
Proof.
  assert (H1 : EPOCH_AFTER_FIRST_LEAPYEAR <= 126230399)
    by (unfold EPOCH_AFTER_FIRST_LEAPYEAR; lia).
  assert (H2 : 126230399 < 126230400) by lia.
  assert (H3 : 126230400 < 4294967296) by lia.
  split; [exact H1|]. split; [exact H2|]. split; [exact H3|].
  exact (rtc_interpret_monotone 126230399 126230400 tm_blank tm_blank H1 H2 H3).
Defined.

(** The four-year rule and the Gregorian calendar count the same days to
    the first of January of every year from 1973 to 2100, and one day
    apart from 2101 on. *)
Lemma year_day_number_gregorian Y :
  1973 <= Y <= 2100 ->
  year_day_number Y = 365 * (Y - 1970) + (leap_days_before Y - leap_days_before 1970).
Proof.
  intros H. unfold year_day_number, leap_days_before.
  change ((1970 - 1) / 4 - (1970 - 1) / 100 + (1970 - 1) / 400) with 477.
  Z.div_mod_to_equations. lia.
Qed.

Lemma year_day_number_after_2100 Y :
  2101 <= Y <= 2107 ->
  year_day_number Y
  = 365 * (Y - 1970) + (leap_days_before Y - leap_days_before 1970) + 1 /\
  leap_year Y = gregorian_leap_year Y.
Proof.
  intros H.
  assert (HY : Y = 2101 \/ Y = 2102 \/ Y = 2103 \/ Y = 2104 \/ Y = 2105 \/
               Y = 2106 \/ Y = 2107) by lia.
  destruct HY as [->|[->|[->|[->|[->|[->| ->]]]]]]; split; reflexivity.
Qed.

(** X7.  Up to 2100-02-28 the date that [rtc_interpret] returns is the
    date of the Gregorian calendar: for every epoch from the start of 1973
    to 4107542399, year, month and day form a Gregorian date, and its
    Gregorian day number (days since 1970-01-01) is [epoch / 86400]. *)
Theorem rtc_interpret_gregorian e tb :
  EPOCH_AFTER_FIRST_LEAPYEAR <= e < 4107542400 ->
  exists t, rtc_interpret e tb = Done (TIMEBUF, t) /\
            gregorian_date (tm_year t) (tm_mon t) (tm_mday t) /\
            gregorian_day_number (tm_year t) (tm_mon t) (tm_mday t) = e / 86400.
Proof.
  intros H.
  assert (H' : EPOCH_AFTER_FIRST_LEAPYEAR <= e < 4294967296) by lia.
  destruct (rtc_interpret_supported e tb H') as (t & Ht & Hcal & _).
  exists t. split; [exact Ht|].
  destruct (calendar_epoch e t H' Hcal) as (He & Htod & Hyd & Hy).
  pose proof (calendar_invariant e t H' Hcal) as [Hmon Hmd _ _ Hymd _ _ _ _].
  assert (Hd : e / 86400 = year_day_number (tm_year t) + tm_yday t).
  { set (D := year_day_number (tm_year t) + tm_yday t) in *.
    set (T := 3600 * tm_hour t + 60 * tm_min t + tm_sec t) in *.
    clearbody D T. clear - He Htod. Z.div_mod_to_equations. lia. }
  assert (Hlt : year_day_number (tm_year t) + tm_yday t < 47541)
    by (rewrite <- Hd; Z.div_mod_to_equations; lia).
  assert (Hy100 : tm_year t <= 2100)
    by (unfold year_day_number in Hlt; Z.div_mod_to_equations; lia).
  unfold gregorian_date, gregorian_day_number.
  rewrite Hd, year_day_number_gregorian by lia.
  destruct (Z.eq_dec (tm_year t) 2100) as [E|NE].
  - rewrite E in *. change (leap_year 2100) with true in *.
    change (gregorian_leap_year 2100) with false.
    change (year_day_number 2100) with 47482 in Hlt.
    assert (Hyd58 : tm_yday t <= 58) by lia.
    destruct (month_index_cases _ Hmon) as [M|[M|[M|[M|[M|[M|[M|[M|[M|[M|[M|M]]]]]]]]]]];
      rewrite M in *; cbn in Hmd; revert Hymd; eval_days_before; intros Hymd;
      cbn [month_length]; lia.
  - rewrite <- leap_year_gregorian by lia. lia.
Qed.

Lemma rtc_interpret_gregorian_witness :
  EPOCH_AFTER_FIRST_LEAPYEAR <= 1000000000 < 4107542400 /\
  exists t, rtc_interpret 1000000000 tm_blank = Done (TIMEBUF, t) /\
            gregorian_day_number (tm_year t) (tm_mon t) (tm_mday t)
            = 1000000000 / 86400.
Proof.
  assert (H : EPOCH_AFTER_FIRST_LEAPYEAR <= 1000000000 < 4107542400)
    by (unfold EPOCH_AFTER_FIRST_LEAPYEAR; lia).
  split; [exact H|].
  destruct (rtc_interpret_gregorian 1000000000 tm_blank H) as (t & Ht & _ & Hd).
  exists t. split; [exact Ht|exact Hd].
Defined.

(** X8.  From 2100-03-01 on the four-year rule is one day late: for the
    epochs of that day [rtc_interpret] returns the 29th of February of
    2100, which the Gregorian calendar does not have, and for every later
    32-bit epoch it returns the Gregorian date of the day before. *)
Theorem rtc_interpret_after_february_2100 e tb :
  4107542400 <= e < 4294967296 ->
  exists t, rtc_interpret e tb = Done (TIMEBUF, t) /\
    (e < 4107628800 ->
     tm_year t = 2100 /\ tm_mon t = 1 /\ tm_mday t = 29 /\
     ~ gregorian_date 2100 1 29) /\
    (4107628800 <= e ->
     gregorian_date (tm_year t) (tm_mon t) (tm_mday t) /\
     gregorian_day_number (tm_year t) (tm_mon t) (tm_mday t) = e / 86400 - 1).
Proof.
  intros H.
  assert (H' : EPOCH_AFTER_FIRST_LEAPYEAR <= e < 4294967296)
    by (rewrite EPOCH_AFTER_FIRST_LEAPYEAR_val; lia).
  destruct (rtc_interpret_supported e tb H') as (t & Ht & Hcal & _).
  exists t. split; [exact Ht|].
  destruct (calendar_epoch e t H' Hcal) as (He & Htod & Hyd & Hy).
  pose proof (calendar_invariant e t H' Hcal) as [Hmon Hmd _ _ Hymd _ _ _ _].
  assert (Hd : e / 86400 = year_day_number (tm_year t) + tm_yday t).
  { set (D := year_day_number (tm_year t) + tm_yday t) in *.
    set (T := 3600 * tm_hour t + 60 * tm_min t + tm_sec t) in *.
    clearbody D T. clear - He Htod. Z.div_mod_to_equations. lia. }
  assert (Hge : 47541 <= year_day_number (tm_year t) + tm_yday t < 49711)
    by (rewrite <- Hd; Z.div_mod_to_equations; lia).
  assert (Hyr : 2100 <= tm_year t <= 2106).
  { unfold year_day_number, leap_year in *.
    destruct (tm_year t mod 4 =? 0); Z.div_mod_to_equations; lia. }
  destruct (Z.eq_dec (tm_year t) 2100) as [E|NE].
  - rewrite E in *. change (leap_year 2100) with true in *.
    change (year_day_number 2100) with 47482 in *.
    split.
    + intros Hlt.
      assert (Hyd59 : tm_yday t = 59) by (Z.div_mod_to_equations; lia).
      split; [reflexivity|].
      destruct (month_index_cases _ Hmon) as [M|[M|[M|[M|[M|[M|[M|[M|[M|[M|[M|M]]]]]]]]]]];
        rewrite M in *; cbn in Hmd; revert Hymd; eval_days_before; intros Hymd;
        try lia.
      split; [reflexivity|]. split; [lia|].
      unfold gregorian_date. cbn. lia.
    + intros Hlo.
      assert (Hyd60 : 60 <= tm_yday t) by (Z.div_mod_to_equations; lia).
      unfold gregorian_date, gregorian_day_number.
      rewrite Hd.
      change (gregorian_leap_year 2100) with false.
      change (leap_days_before 2100 - leap_days_before 1970) with 32.
      destruct (month_index_cases _ Hmon) as [M|[M|[M|[M|[M|[M|[M|[M|[M|[M|[M|M]]]]]]]]]]];
        rewrite M in *; cbn in Hmd; revert Hymd; eval_days_before; intros Hymd;
        cbn [month_length]; lia.
  - destruct (year_day_number_after_2100 (tm_year t)) as (Hdn & Hleap); [lia|].
    split.
    + intros Hlt. exfalso. rewrite Hdn in Hge.
      assert (47541 = e / 86400) by (Z.div_mod_to_equations; lia).
      unfold year_day_number in Hd. Z.div_mod_to_equations. lia.
    + intros _. unfold gregorian_date, gregorian_day_number.
      rewrite <- Hleap, Hd, Hdn. lia.
Qed.

Lemma rtc_interpret_after_february_2100_witness :
  4107542400 <= 4107628800 < 4294967296 /\
  exists t, rtc_interpret 4107628800 tm_blank = Done (TIMEBUF, t) /\
            gregorian_day_number (tm_year t) (tm_mon t) (tm_mday t)
            = 4107628800 / 86400 - 1.
Proof.
  assert (H : 4107542400 <= 4107628800 < 4294967296) by lia.
  split; [exact H|].
  destruct (rtc_interpret_after_february_2100 4107628800 tm_blank H)
    as (t & Ht & _ & Hd).
  exists t. split; [exact Ht|]. apply Hd. lia.
Defined.

(** ** Calendar to epoch, in closed form *)

Lemma u32_add_mul x y c : u32 (x + u32 (u32 y * c)) = u32 (x + y * c).
Proof. rewrite u32_mul_l, u32_add_r. reflexivity. Qed.

Lemma year_start_day_number Y :
  1973 <= Y <= 32767 -> year_start Y = u32 (86400 * year_day_number Y).
Proof.
  intros H. unfold year_start, year_day_number. cbv zeta.
  rewrite u16_small by (unfold is_u16; lia).
  rewrite EPOCH_AFTER_FIRST_LEAPYEAR_val, TOTAL_SECONDS_PER_LEAP_CYCLE_val.
  f_equal. Z.div_mod_to_equations. lia.
Qed.

Lemma year_is_leap_leap_year Y :
  1973 <= Y <= 32767 -> negb (year_is_leap Y =? 0) = leap_year Y.
Proof.
  intros H. unfold year_is_leap, leap_year.
  rewrite u16_small by (unfold is_u16; lia).
  destruct (Z.ltb_spec 2 ((Y - 1973) mod 4)); cbn [Z.eqb negb]; symmetry.
  - apply Z.eqb_eq. Z.div_mod_to_equations. lia.
  - apply Z.eqb_neq. Z.div_mod_to_equations. lia.
Qed.

(** The value and the effect of [rtc_epoch] on a structure it accepts. *)
Lemma rtc_epoch_value tb :
  1973 <= tm_year tb <= 32767 ->
  (yday_is_recomputed tb = true -> 0 <= tm_mon tb <= 12) ->
  rtc_epoch (Some tb) =
  Done (u32 (86400 * (year_day_number (tm_year tb) + resolved_yday tb)
             + 3600 * tm_hour tb + 60 * tm_min tb + tm_sec tb),
        Some (set_tm_yday tb (resolved_yday tb))).
Proof.
  intros Hy Hmon. rewrite rtc_epoch_accepted by lia.
  rewrite year_start_day_number by exact Hy.
  unfold resolved_yday, yday_is_recomputed in *. cbv zeta in *.
  destruct (366 <? tm_yday tb);
    cbn [set_tm_yday tm_yday tm_mday tm_mon] in *;
    match goal with
    | |- context [if ?c then bind _ _ else _] => destruct c eqn:Hc
    end;
    try (rewrite rtc_calculate_yday_spec
           by (cbn [set_tm_yday tm_mon]; apply Hmon; reflexivity));
    cbn [bind set_tm_yday tm_mon tm_mday tm_hour tm_min tm_sec tm_yday];
    rewrite !u32_add_mul, u32_add_r;
    repeat (rewrite <- ?Z.add_assoc; rewrite u32_add_l);
    try rewrite set_tm_yday_same;
    f_equal; f_equal; f_equal; lia.
Qed.

(** X9.  [rtc_epoch] in closed form.  For a structure it accepts, the
    epoch is 86400 times the day number (the days to the first of January
    by the four-year rule plus the day of the year it settles on, see
    [resolved_yday]) plus the hours, minutes and seconds, in 32-bit
    arithmetic; no field is checked against its calendar range, so values
    out of range carry over.  The structure comes back with [tm_yday] set
    to that day of the year. *)
Theorem rtc_epoch_closed_form tb :
  1973 <= tm_year tb <= 32767 ->
  (yday_is_recomputed tb = true -> 0 <= tm_mon tb <= 12) ->
  rtc_epoch (Some tb) =
  Done (u32 (86400 * (year_day_number (tm_year tb) + resolved_yday tb)
             + 3600 * tm_hour tb + 60 * tm_min tb + tm_sec tb),
        Some (set_tm_yday tb (resolved_yday tb))).
Proof. apply rtc_epoch_value. Qed.

Lemma rtc_epoch_closed_form_witness :
  1973 <= tm_year tm_july_2021_yday_400 <= 32767 /\
  (yday_is_recomputed tm_july_2021_yday_400 = true ->
   0 <= tm_mon tm_july_2021_yday_400 <= 12) /\
  rtc_epoch (Some tm_july_2021_yday_400) =
  Done (1625400930, Some (set_tm_yday tm_july_2021_yday_400 184)).
Proof.
  assert (Hy : 1973 <= tm_year tm_july_2021_yday_400 <= 32767) by (cbn; lia).
  assert (Hm : yday_is_recomputed tm_july_2021_yday_400 = true ->
               0 <= tm_mon tm_july_2021_yday_400 <= 12)
    by (intros _; cbn; lia).
  split; [exact Hy|]. split; [exact Hm|].
  rewrite (rtc_epoch_closed_form tm_july_2021_yday_400 Hy Hm). reflexivity.
Defined.

Lemma resolved_yday_month_day tb :
  1973 <= tm_year tb <= 32767 ->
  0 <= tm_mon tb <= 11 ->
  1 <= tm_mday tb <= month_length (leap_year (tm_year tb)) (tm_mon tb) ->
  tm_yday tb = 0 \/
  tm_yday tb = days_before (leap_year (tm_year tb)) (Z.to_nat (tm_mon tb))
               + (tm_mday tb - 1) ->
  resolved_yday tb
  = days_before (leap_year (tm_year tb)) (Z.to_nat (tm_mon tb)) + (tm_mday tb - 1).
Proof.
  intros Hy Hmon Hmd Hyd.
  pose proof (days_before_year_end _ _ _ Hmon Hmd) as Hend.
  pose proof (month_length_bounds (leap_year (tm_year tb)) (tm_mon tb)) as Hml.
  set (yd := days_before (leap_year (tm_year tb)) (Z.to_nat (tm_mon tb))
             + (tm_mday tb - 1)) in *.
  assert (Hyd366 : (366 <? tm_yday tb) = false)
    by (apply Z.ltb_ge; destruct (leap_year (tm_year tb)); lia).
  assert (Hpos : (0 <? tm_mday tb) = true) by (apply Z.ltb_lt; lia).
  unfold resolved_yday, yday_is_recomputed. cbv zeta.
  rewrite Hyd366, Hpos, year_is_leap_leap_year by exact Hy. cbn [orb].
  rewrite andb_true_r.
  destruct (Z.eqb_spec (tm_yday tb) 0) as [E|NE]; [|lia].
  unfold yday_of_month_day. cbv zeta. rewrite Hpos.
  rewrite (s16_small (tm_mday tb - 1)) by (unfold is_s16; lia).
  fold yd.
  rewrite u16_small, s16_small
    by (unfold is_u16, is_s16; destruct (leap_year (tm_year tb)); lia).
  reflexivity.
Qed.

(** X10.  Calendar to epoch and back.  Take a date of the years 1973 to
    2105 that is valid by the four-year rule, with a time of the day in
    range and [tm_yday] left at 0 (or already holding the day of the
    year).  [rtc_epoch] returns a supported epoch for it, and
    [rtc_interpret] of that epoch returns the same year, month, day, hour,
    minute and second, with the day of the year that [rtc_epoch] stored. *)
Theorem rtc_interpret_rtc_epoch tb buf :
  1973 <= tm_year tb <= 2105 ->
  0 <= tm_mon tb <= 11 ->
  1 <= tm_mday tb <= month_length (leap_year (tm_year tb)) (tm_mon tb) ->
  tm_yday tb = 0 \/
  tm_yday tb = days_before (leap_year (tm_year tb)) (Z.to_nat (tm_mon tb))
               + (tm_mday tb - 1) ->
  0 <= tm_hour tb <= 23 -> 0 <= tm_min tb <= 59 -> 0 <= tm_sec tb <= 59 ->
  exists e tb' t,
    rtc_epoch (Some tb) = Done (e, Some tb') /\
    EPOCH_AFTER_FIRST_LEAPYEAR <= e < 4294967296 /\
    rtc_interpret e buf = Done (TIMEBUF, t) /\
    tm_year t = tm_year tb /\ tm_mon t = tm_mon tb /\ tm_mday t = tm_mday tb /\
    tm_hour t = tm_hour tb /\ tm_min t = tm_min tb /\ tm_sec t = tm_sec tb /\
    tm_yday t = tm_yday tb'.
Proof.
  intros Hy Hmon Hmd Hyd Hh Hm Hs.
  assert (Hy' : 1973 <= tm_year tb <= 32767) by lia.
  pose proof (resolved_yday_month_day tb Hy' Hmon Hmd Hyd) as Hres.
  pose proof (days_before_year_end _ _ _ Hmon Hmd) as Hend.
  rewrite rtc_epoch_value by (try exact Hy'; intros _; lia).
  rewrite Hres.
  set (yd := days_before (leap_year (tm_year tb)) (Z.to_nat (tm_mon tb))
             + (tm_mday tb - 1)) in *.
  set (e := 86400 * (year_day_number (tm_year tb) + yd)
            + 3600 * tm_hour tb + 60 * tm_min tb + tm_sec tb).
  assert (He : EPOCH_AFTER_FIRST_LEAPYEAR <= e < 4294967296).
  { rewrite EPOCH_AFTER_FIRST_LEAPYEAR_val. subst e. unfold year_day_number.
    assert (yd <= 365) by (destruct (leap_year (tm_year tb)); lia).
    Z.div_mod_to_equations. lia. }
  rewrite (u32_small e)
    by (unfold is_u32; rewrite EPOCH_AFTER_FIRST_LEAPYEAR_val in He; lia).
  destruct (rtc_interpret_supported e buf He) as (t & Ht & Hcal & _).
  exists e, (set_tm_yday tb yd), t.
  split; [reflexivity|]. split; [exact He|]. split; [exact Ht|].
  destruct (calendar_epoch e t He Hcal) as (Het & Htod & Hydt & Hyt).
  pose proof (calendar_invariant e t He Hcal)
    as [Hmont Hmdt _ _ Hymdt Hht Hmt Hst _].
  (* the same day number, so the same year and day of the year *)
  assert (Hsame : tm_year t = tm_year tb /\ tm_yday t = yd).
  { assert (Hydb : yd <= (if leap_year (tm_year tb) then 365 else 364))
      by (destruct (leap_year (tm_year tb)); lia).
    assert (Hday : year_day_number (tm_year t) + tm_yday t
                   = year_day_number (tm_year tb) + yd) by (subst e; lia).
    clear - Hday Hydt Hydb Hend Hyt Hy.
    unfold year_day_number, leap_year in *.
    destruct (Z.lt_trichotomy (tm_year t) (tm_year tb)) as [L|[E|G]].
    - exfalso. destruct (Z.eqb_spec (tm_year t mod 4) 0);
        Z.div_mod_to_equations; lia.
    - rewrite E in *. lia.
    - exfalso. destruct (Z.eqb_spec (tm_year tb mod 4) 0);
        Z.div_mod_to_equations; lia. }
  destruct Hsame as (Hyeq & Hydeq).
  rewrite Hyeq in *.
  destruct (month_day_unique (leap_year (tm_year tb)) (tm_mon t) (tm_mday t)
              (tm_mon tb) (tm_mday tb) Hmont Hmdt Hmon Hmd) as (Hmo & Hda);
    [subst yd; lia|].
  cbn [set_tm_yday tm_yday].
  repeat split; try assumption; try reflexivity; subst e; lia.
Qed.

Lemma rtc_interpret_rtc_epoch_witness :
  1973 <= tm_year tm_leap_day_2024 <= 2105 /\
  0 <= tm_mon tm_leap_day_2024 <= 11 /\
  1 <= tm_mday tm_leap_day_2024
    <= month_length (leap_year (tm_year tm_leap_day_2024)) (tm_mon tm_leap_day_2024) /\
  tm_yday tm_leap_day_2024 = 0 /\
  0 <= tm_hour tm_leap_day_2024 <= 23 /\ 0 <= tm_min tm_leap_day_2024 <= 59 /\
  0 <= tm_sec tm_leap_day_2024 <= 59 /\
  exists e tb' t,
    rtc_epoch (Some tm_leap_day_2024) = Done (e, Some tb') /\
    rtc_interpret e tm_blank = Done (TIMEBUF, t) /\
    tm_year t = 2024 /\ tm_mon t = 1 /\ tm_mday t = 29.
Proof.
  assert (Hy : 1973 <= tm_year tm_leap_day_2024 <= 2105) by (cbn; lia).
  assert (Hmon : 0 <= tm_mon tm_leap_day_2024 <= 11) by (cbn; lia).
  assert (Hmd : 1 <= tm_mday tm_leap_day_2024
                <= month_length (leap_year (tm_year tm_leap_day_2024))
                                (tm_mon tm_leap_day_2024)) by (cbn; lia).
  assert (Hyd : tm_yday tm_leap_day_2024 = 0) by reflexivity.
  assert (Hh : 0 <= tm_hour tm_leap_day_2024 <= 23) by (cbn; lia).
  assert (Hm : 0 <= tm_min tm_leap_day_2024 <= 59) by (cbn; lia).
  assert (Hs : 0 <= tm_sec tm_leap_day_2024 <= 59) by (cbn; lia).
  split; [exact Hy|]. split; [exact Hmon|]. split; [exact Hmd|].
  split; [exact Hyd|]. split; [exact Hh|]. split; [exact Hm|]. split; [exact Hs|].
  destruct (rtc_interpret_rtc_epoch tm_leap_day_2024 tm_blank Hy Hmon Hmd
              (or_introl Hyd) Hh Hm Hs)
    as (e & tb' & t & He & _ & Ht & H1 & H2 & H3 & _).
  exists e, tb', t.
  split; [exact He|]. split; [exact Ht|].
  split; [exact H1|]. split; [exact H2|exact H3].
Defined.

(** X11.  A day of the year that is supplied wins over the month and the
    day.  When [tm_yday] is not 0 and not above 366 (a negative value is
    taken as it is), [rtc_epoch] never looks at [tm_mon] and [tm_mday],
    whatever they hold: the epoch is the one of that day of the year, the
    month table is not read and the structure is not modified. *)
Theorem rtc_epoch_yday_supplied tb :
  1973 <= tm_year tb <= 32767 ->
  tm_yday tb <> 0 -> tm_yday tb <= 366 ->
  rtc_epoch (Some tb) =
  Done (u32 (86400 * (year_day_number (tm_year tb) + tm_yday tb)
             + 3600 * tm_hour tb + 60 * tm_min tb + tm_sec tb),
        Some tb).
Proof.
  intros Hy Hne Hle.
  assert (H366 : (366 <? tm_yday tb) = false) by (apply Z.ltb_ge; lia).
  assert (H0 : (tm_yday tb =? 0) = false) by (apply Z.eqb_neq; exact Hne).
  assert (Hrec : yday_is_recomputed tb = false).
  { unfold yday_is_recomputed. cbv zeta. rewrite H366, H0. reflexivity. }
  assert (Hres : resolved_yday tb = tm_yday tb).
  { unfold resolved_yday. rewrite Hrec, H366. reflexivity. }
  rewrite rtc_epoch_value by (try exact Hy; rewrite Hrec; discriminate).
  rewrite Hres, set_tm_yday_same. reflexivity.
Qed.

Lemma rtc_epoch_yday_supplied_witness :
  1973 <= tm_year tm_day_60_of_2024_month_99 <= 32767 /\
  tm_yday tm_day_60_of_2024_month_99 <> 0 /\
  tm_yday tm_day_60_of_2024_month_99 <= 366 /\
  rtc_epoch (Some tm_day_60_of_2024_month_99)
  = Done (1709164800, Some tm_day_60_of_2024_month_99).
Proof.
  assert (Hy : 1973 <= tm_year tm_day_60_of_2024_month_99 <= 32767) by (cbn; lia).
  assert (Hne : tm_yday tm_day_60_of_2024_month_99 <> 0) by (cbn; lia).
  assert (Hle : tm_yday tm_day_60_of_2024_month_99 <= 366) by (cbn; lia).
  split; [exact Hy|]. split; [exact Hne|]. split; [exact Hle|].
  rewrite (rtc_epoch_yday_supplied tm_day_60_of_2024_month_99 Hy Hne Hle).
  reflexivity.
Defined.

(** When [timebuf->tm_mon], read as [unsigned int], is above 12 the loop
    of [rtc_calculate_yday] runs into [monthInfo[12]]. *)
Lemma yday_loop_never_done mon is_leap fuel : forall month yday r,
  12 < u16 mon -> 0 <= month <= 12 ->
  while_loop fuel
    (fun '(month, _) => month <? u16 mon)
    (fun '(month, yday) =>
       if (month =? 1) && negb (is_leap =? 0) then
         Done (u16 (month + 1), u16 (yday + 29))
       else
         let* d := monthInfo_days month in
         Done (u16 (month + 1), u16 (yday + d)))
    (month, yday) <> Done r.
Proof.
  induction fuel as [|n IH]; intros month yday r Hm Hk.
  - simpl. destruct (Z.ltb_spec month (u16 mon)); [discriminate|lia].
  - simpl. destruct (Z.ltb_spec month (u16 mon)); [|lia].
    destruct ((month =? 1) && negb (is_leap =? 0)) eqn:Hc.
    + apply andb_prop in Hc. destruct Hc as [H1 _]. apply Z.eqb_eq in H1. subst month.
      cbn [bind]. apply IH; [exact Hm|]. rewrite u16_small; unfold is_u16; lia.
    + destruct (monthInfo_days month) as [d| |] eqn:Hd; cbn [bind]; try discriminate.
      apply monthInfo_days_Done in Hd.
      apply IH; [exact Hm|]. rewrite u16_small; unfold is_u16; lia.
Qed.

Lemma rtc_calculate_yday_out_of_bounds tb latest_epoch is_leap :
  12 < u16 (tm_mon tb) ->
  rtc_calculate_yday tb latest_epoch is_leap = Undefined.
Proof.
  intros Hm. unfold rtc_calculate_yday. cbv zeta.
  pose proof (yday_loop_fuel (tm_mon tb) is_leap) as Hfuel.
  pose proof (fun r => yday_loop_never_done (tm_mon tb) is_leap
                         (S (List.length monthInfo)) 0 0 r Hm) as Hdone.
  unfold yday_loop in *.
  destruct (while_loop _ _ _ (0, 0)) as [r| |]; cbn [bind].
  - exfalso. apply (Hdone r); [lia|reflexivity].
  - reflexivity.
  - contradiction.
Qed.

(** X12.  The month is not checked against the table.  When [rtc_epoch]
    has to compute the day of the year ([tm_yday] 0 or above 366, and
    [tm_mday] or [tm_mon] positive) and [tm_mon] is above 12 or negative,
    [rtc_calculate_yday] reads [monthInfo] past its twelve entries:
    the behaviour is undefined.  (The month 12 itself is taken as the
    whole year.) *)
Theorem rtc_epoch_month_out_of_bounds tb :
  1973 <= tm_year tb ->
  is_s16 (tm_mon tb) ->
  tm_mon tb < 0 \/ 12 < tm_mon tb ->
  yday_is_recomputed tb = true ->
  rtc_epoch (Some tb) = Undefined.
Proof.
  intros Hy Hs Hmon Hrec. rewrite rtc_epoch_accepted by exact Hy.
  assert (Hu : 12 < u16 (tm_mon tb))
    by (unfold is_s16 in Hs; unfold u16; Z.div_mod_to_equations; lia).
  unfold yday_is_recomputed in Hrec. cbv zeta in *.
  destruct (366 <? tm_yday tb);
    cbn [set_tm_yday tm_yday tm_mday tm_mon] in *;
    rewrite Hrec;
    rewrite rtc_calculate_yday_out_of_bounds by exact Hu; reflexivity.
Qed.

Lemma rtc_epoch_month_out_of_bounds_witness :
  1973 <= tm_year tm_month_13 /\ is_s16 (tm_mon tm_month_13) /\
  (tm_mon tm_month_13 < 0 \/ 12 < tm_mon tm_month_13) /\
  yday_is_recomputed tm_month_13 = true /\
  rtc_epoch (Some tm_month_13) = Undefined.
Proof.
  assert (Hy : 1973 <= tm_year tm_month_13) by (cbn; lia).
  assert (Hs : is_s16 (tm_mon tm_month_13)) by (unfold is_s16; cbn; lia).
  assert (Hm : tm_mon tm_month_13 < 0 \/ 12 < tm_mon tm_month_13)
    by (right; cbn; lia).
  assert (Hr : yday_is_recomputed tm_month_13 = true) by reflexivity.
  split; [exact Hy|]. split; [exact Hs|]. split; [exact Hm|]. split; [exact Hr|].
  exact (rtc_epoch_month_out_of_bounds tm_month_13 Hy Hs Hm Hr).
Defined.

(** * Further properties of the tick handler *)

Lemma flag_set_slot_flag slot s :
  flag_set (slot_flag slot) s = Z.testbit (rtc_status s) (if slot then 2 else 1).
Proof.
  unfold flag_set, slot_flag. destruct slot.
  - change RTCALARM_1_TRIGGERED with (2 ^ 2).
    rewrite land_pow2_testbit by lia. apply negb_involutive.
  - change RTCALARM_0_TRIGGERED with (2 ^ 1).
    rewrite land_pow2_testbit by lia. apply negb_involutive.
Qed.

Section Slots.

Variables RTCIV_RTCIF LPM4_bits RTCIV : Z.
Hypothesis pending : Z.land RTCIV RTCIV_RTCIF <> 0.

(** One tick, seen from a slot and from the status word. *)
Lemma RTC_ISR_slot slot SR s :
  let s' := fst (RTC_ISR RTCIV_RTCIF LPM4_bits RTCIV SR s) in
  rtcepoch s' = u32 (rtcepoch s + 1) /\
  slot_target slot s' =
    (if slot_due slot s && (0 <? slot_incr slot s)
     then u32 (slot_target slot s + slot_incr slot s) else slot_target slot s) /\
  slot_incr slot s' = slot_incr slot s /\
  flag_set (slot_flag slot) s' = flag_set (slot_flag slot) s || slot_due slot s.
Proof.
  cbv zeta. rewrite !flag_set_slot_flag.
  unfold RTC_ISR, slot_due, slot_target, slot_incr.
  destruct (Z.eqb_spec (Z.land RTCIV RTCIV_RTCIF) 0) as [H0|_]; [contradiction|].
  cbn [negb].
  destruct slot;
    destruct ((0 <? rtcalarm0 s) && (u32 (rtcepoch s + 1) =? rtcalarm0 s));
    destruct ((0 <? rtcalarm1 s) && (u32 (rtcepoch s + 1) =? rtcalarm1 s));
    cbn [fst snd rtcepoch rtcalarm0 rtcalarm0_incr rtcalarm1 rtcalarm1_incr
         rtc_status andb];
    unfold RTC_TICK, RTCALARM_0_TRIGGERED, RTCALARM_1_TRIGGERED;
    rewrite ?Z.lor_spec;
    change (Z.testbit 1 1) with false; change (Z.testbit 1 2) with false;
    change (Z.testbit 2 1) with true; change (Z.testbit 2 2) with false;
    change (Z.testbit 4 1) with false; change (Z.testbit 4 2) with true;
    rewrite ?orb_true_r, ?orb_false_r;
    repeat split; reflexivity.
Qed.

Lemma RTC_ISR_status_bits SR s i :
  Z.testbit (rtc_status (fst (RTC_ISR RTCIV_RTCIF LPM4_bits RTCIV SR s))) i
  = Z.testbit (rtc_status s) i
    || (i =? 0) || (slot_due false s && (i =? 1)) || (slot_due true s && (i =? 2)).
Proof.
  unfold RTC_ISR, slot_due, slot_target.
  destruct (Z.eqb_spec (Z.land RTCIV RTCIV_RTCIF) 0) as [H0|_]; [contradiction|].
  cbn [negb].
  assert (B1 : Z.testbit RTC_TICK i = (i =? 0))
    by (change RTC_TICK with (2 ^ 0); rewrite Z.pow2_bits_eqb by lia; apply Z.eqb_sym).
  assert (B2 : Z.testbit RTCALARM_0_TRIGGERED i = (i =? 1))
    by (change RTCALARM_0_TRIGGERED with (2 ^ 1);
        rewrite Z.pow2_bits_eqb by lia; apply Z.eqb_sym).
  assert (B4 : Z.testbit RTCALARM_1_TRIGGERED i = (i =? 2))
    by (change RTCALARM_1_TRIGGERED with (2 ^ 2);
        rewrite Z.pow2_bits_eqb by lia; apply Z.eqb_sym).
  destruct ((0 <? rtcalarm0 s) && (u32 (rtcepoch s + 1) =? rtcalarm0 s));
    destruct ((0 <? rtcalarm1 s) && (u32 (rtcepoch s + 1) =? rtcalarm1 s));
    cbn [fst rtc_status andb]; rewrite ?Z.lor_spec, ?B1, ?B2, ?B4;
    rewrite ?orb_false_r; reflexivity.
Qed.

Lemma RTC_ISR_incr SR s :
  rtcalarm0_incr (fst (RTC_ISR RTCIV_RTCIF LPM4_bits RTCIV SR s)) = rtcalarm0_incr s /\
  rtcalarm1_incr (fst (RTC_ISR RTCIV_RTCIF LPM4_bits RTCIV SR s)) = rtcalarm1_incr s.
Proof.
  destruct (RTC_ISR_slot false SR s) as (_ & _ & H0 & _).
  destruct (RTC_ISR_slot true SR s) as (_ & _ & H1 & _).
  split; assumption.
Qed.

End Slots.

Lemma ticks_not_pending RTCIV_RTCIF LPM4_bits RTCIV n s :
  Z.land RTCIV RTCIV_RTCIF = 0 ->
  ticks RTCIV_RTCIF LPM4_bits RTCIV n s = s.
Proof.
  intros H0. induction n as [|n IH]; cbn [ticks]; [reflexivity|].
  rewrite IH. unfold RTC_ISR. rewrite H0. reflexivity.
Qed.

(** X13.  The handler only ever sets status flags and never touches the
    re-arm increments: after any number of interrupts every status bit
    that was set is still set, every bit other than [RTC_TICK] and the two
    alarm flags is as it was (so [RTC_TICK_DOES_WAKEUP] and
    [RTC_GENERAL_ERROR] keep their values), and [rtcalarm0_incr] and
    [rtcalarm1_incr] are unchanged. *)
Theorem ticks_status_sticky RTCIV_RTCIF LPM4_bits RTCIV n s :
  (forall i, Z.testbit (rtc_status s) i = true ->
             Z.testbit (rtc_status (ticks RTCIV_RTCIF LPM4_bits RTCIV n s)) i = true) /\
  (forall i, 2 < i ->
             Z.testbit (rtc_status (ticks RTCIV_RTCIF LPM4_bits RTCIV n s)) i
             = Z.testbit (rtc_status s) i) /\
  flag_set RTC_TICK_DOES_WAKEUP (ticks RTCIV_RTCIF LPM4_bits RTCIV n s)
  = flag_set RTC_TICK_DOES_WAKEUP s /\
  flag_set RTC_GENERAL_ERROR (ticks RTCIV_RTCIF LPM4_bits RTCIV n s)
  = flag_set RTC_GENERAL_ERROR s /\
  rtcalarm0_incr (ticks RTCIV_RTCIF LPM4_bits RTCIV n s) = rtcalarm0_incr s /\
  rtcalarm1_incr (ticks RTCIV_RTCIF LPM4_bits RTCIV n s) = rtcalarm1_incr s.
Proof.
  destruct (Z.eq_dec (Z.land RTCIV RTCIV_RTCIF) 0) as [H0|Hp].
  { rewrite ticks_not_pending by exact H0. repeat split; auto. }
  assert (Hhigh : forall i, 2 < i ->
            Z.testbit (rtc_status (ticks RTCIV_RTCIF LPM4_bits RTCIV n s)) i
            = Z.testbit (rtc_status s) i).
  { intros i Hi. clear - Hp Hi. induction n as [|n IH]; cbn [ticks]; [reflexivity|].
    rewrite (RTC_ISR_status_bits _ _ _ Hp), IH.
    destruct (Z.eqb_spec i 0); [lia|]. destruct (Z.eqb_spec i 1); [lia|].
    destruct (Z.eqb_spec i 2); [lia|].
    rewrite !andb_false_r, !orb_false_r. reflexivity. }
  split; [|split; [exact Hhigh|split; [|split; [|split]]]].
  - intros i Hi. clear Hhigh. induction n as [|n IH]; cbn [ticks]; [exact Hi|].
    rewrite (RTC_ISR_status_bits _ _ _ Hp), IH. reflexivity.
  - unfold flag_set. change RTC_TICK_DOES_WAKEUP with (2 ^ 8).
    rewrite !land_pow2_testbit, Hhigh by lia. reflexivity.
  - unfold flag_set. change RTC_GENERAL_ERROR with (2 ^ 15).
    rewrite !land_pow2_testbit, Hhigh by lia. reflexivity.
  - clear Hhigh. induction n as [|n IH]; cbn [ticks]; [reflexivity|].
    rewrite (proj1 (RTC_ISR_incr _ _ _ Hp _ _)). exact IH.
  - clear Hhigh. induction n as [|n IH]; cbn [ticks]; [reflexivity|].
    rewrite (proj2 (RTC_ISR_incr _ _ _ Hp _ _)). exact IH.
Qed.

Lemma ticks_status_sticky_witness :
  Z.testbit (rtc_status (mkRtc 1000 1010 5 1003 7 256)) 8 = true /\
  Z.testbit (rtc_status (ticks 2 240 2 12 (mkRtc 1000 1010 5 1003 7 256))) 8 = true /\
  rtcalarm1_incr (ticks 2 240 2 12 (mkRtc 1000 1010 5 1003 7 256)) = 7.
Proof.
  assert (H : Z.testbit (rtc_status (mkRtc 1000 1010 5 1003 7 256)) 8 = true)
    by reflexivity.
  split; [exact H|].
  destruct (ticks_status_sticky 2 240 2 12 (mkRtc 1000 1010 5 1003 7 256))
    as (Hset & _ & _ & _ & _ & Hincr).
  split; [exact (Hset 8 H)|exact Hincr].
Defined.

(** X14.  An alarm whose target is 0 is disabled for good: whatever the
    epoch and the increment, and even when the epoch counter wraps to 0,
    no number of ticks changes the target or raises the flag of the slot. *)
Theorem alarm_disabled_never_fires RTCIV_RTCIF LPM4_bits RTCIV slot n s :
  slot_target slot s = 0 ->
  slot_target slot (ticks RTCIV_RTCIF LPM4_bits RTCIV n s) = 0 /\
  flag_set (slot_flag slot) (ticks RTCIV_RTCIF LPM4_bits RTCIV n s)
  = flag_set (slot_flag slot) s.
Proof.
  intros Hz.
  destruct (Z.eq_dec (Z.land RTCIV RTCIV_RTCIF) 0) as [H0|Hp].
  { rewrite ticks_not_pending by exact H0. split; [exact Hz|reflexivity]. }
  induction n as [|n [IHt IHf]]; cbn [ticks]; [split; [exact Hz|reflexivity]|].
  destruct (RTC_ISR_slot RTCIV_RTCIF LPM4_bits RTCIV Hp slot 0
              (ticks RTCIV_RTCIF LPM4_bits RTCIV n s)) as (_ & Ht & _ & Hf).
  cbv zeta in *. rewrite Ht, Hf, IHf.
  unfold slot_due. rewrite IHt. change (0 <? 0) with false. cbn [andb].
  rewrite orb_false_r. split; reflexivity.
Qed.

Lemma alarm_disabled_never_fires_witness :
  slot_target true rtc_at_counter_end = 0 /\
  slot_target true (ticks 2 240 2 3 rtc_at_counter_end) = 0 /\
  flag_set (slot_flag true) (ticks 2 240 2 3 rtc_at_counter_end)
  = flag_set (slot_flag true) rtc_at_counter_end.
Proof.
  assert (H : slot_target true rtc_at_counter_end = 0) by reflexivity.
  split; [exact H|].
  exact (alarm_disabled_never_fires 2 240 2 true 3 rtc_at_counter_end H).
Defined.

Section SlotRuns.

Variables RTCIV_RTCIF LPM4_bits RTCIV : Z.
Hypothesis pending : Z.land RTCIV RTCIV_RTCIF <> 0.
Variable slot : bool.

(** [n] ticks with an alarm that is not re-armed. *)
Lemma one_shot_run s n :
  slot_incr slot s = 0 -> 0 <= rtcepoch s ->
  rtcepoch s + Z.of_nat n < 4294967296 ->
  rtcepoch (ticks RTCIV_RTCIF LPM4_bits RTCIV n s) = rtcepoch s + Z.of_nat n /\
  slot_incr slot (ticks RTCIV_RTCIF LPM4_bits RTCIV n s) = 0 /\
  slot_target slot (ticks RTCIV_RTCIF LPM4_bits RTCIV n s) = slot_target slot s /\
  flag_set (slot_flag slot) (ticks RTCIV_RTCIF LPM4_bits RTCIV n s)
  = flag_set (slot_flag slot) s
    || ((rtcepoch s <? slot_target slot s)
        && (slot_target slot s <=? rtcepoch s + Z.of_nat n)).
Proof.
  intros Hi He. induction n as [|n IH]; intros Hn.
  - cbn [ticks]. rewrite Z.add_0_r.
    repeat split; try assumption.
    destruct (Z.ltb_spec (rtcepoch s) (slot_target slot s));
      destruct (Z.leb_spec (slot_target slot s) (rtcepoch s));
      cbn [andb]; rewrite ?orb_false_r; try reflexivity; lia.
  - destruct IH as (IHe & IHi & IHt & IHf); [lia|].
    cbn [ticks].
    destruct (RTC_ISR_slot RTCIV_RTCIF LPM4_bits RTCIV pending slot 0
                (ticks RTCIV_RTCIF LPM4_bits RTCIV n s)) as (Ee & Et & Ei & Ef).
    cbv zeta in *. rewrite Ee, Et, Ei, Ef, IHf, IHi.
    unfold slot_due. rewrite IHe, IHt.
    change (0 <? 0) with false. rewrite andb_false_r.
    rewrite u32_small by (unfold is_u32; lia).
    repeat split; try reflexivity; try lia.
    destruct (flag_set (slot_flag slot) s); cbn [orb]; [reflexivity|].
    repeat match goal with
           | |- context [?a <? ?b] => destruct (Z.ltb_spec a b)
           | |- context [?a =? ?b] => destruct (Z.eqb_spec a b)
           | |- context [?a <=? ?b] => destruct (Z.leb_spec a b)
           end; cbn [andb orb]; try reflexivity; lia.
Qed.

End SlotRuns.

(** X15.  A one-shot alarm (increment 0) keeps its target and fires when
    the epoch reaches it: as long as the counter does not wrap, after [n]
    ticks the flag of the slot is set exactly if it was set before or the
    target lies after the starting epoch and at most [n] ticks ahead.  A
    target at or before the current epoch does not fire. *)
Theorem one_shot_alarm RTCIV_RTCIF LPM4_bits RTCIV slot s n :
  Z.land RTCIV RTCIV_RTCIF <> 0 ->
  slot_incr slot s = 0 -> 0 <= rtcepoch s ->
  rtcepoch s + Z.of_nat n < 4294967296 ->
  slot_target slot (ticks RTCIV_RTCIF LPM4_bits RTCIV n s) = slot_target slot s /\
  flag_set (slot_flag slot) (ticks RTCIV_RTCIF LPM4_bits RTCIV n s)
  = flag_set (slot_flag slot) s
    || ((rtcepoch s <? slot_target slot s)
        && (slot_target slot s <=? rtcepoch s + Z.of_nat n)).
Proof.
  intros Hp Hi He Hn.
  destruct (one_shot_run RTCIV_RTCIF LPM4_bits RTCIV Hp slot s n Hi He Hn)
    as (_ & _ & Ht & Hf).
  split; assumption.
Qed.

Lemma one_shot_alarm_witness :
  Z.land 2 2 <> 0 /\ slot_incr true rtc_one_shot_alarm1 = 0 /\
  0 <= rtcepoch rtc_one_shot_alarm1 /\
  rtcepoch rtc_one_shot_alarm1 + Z.of_nat 5 < 4294967296 /\
  slot_target true (ticks 2 240 2 5 rtc_one_shot_alarm1) = 1003 /\
  flag_set (slot_flag true) (ticks 2 240 2 5 rtc_one_shot_alarm1) = true.
Proof.
  assert (Hp : Z.land 2 2 <> 0) by (cbn; lia).
  assert (Hi : slot_incr true rtc_one_shot_alarm1 = 0) by reflexivity.
  assert (He : 0 <= rtcepoch rtc_one_shot_alarm1) by (cbn; lia).
  assert (Hn : rtcepoch rtc_one_shot_alarm1 + Z.of_nat 5 < 4294967296) by (cbn; lia).
  split; [exact Hp|]. split; [exact Hi|]. split; [exact He|]. split; [exact Hn|].
  destruct (one_shot_alarm 2 240 2 true rtc_one_shot_alarm1 5 Hp Hi He Hn)
    as (Ht & Hf).
  split; [exact Ht|]. rewrite Hf. reflexivity.
Defined.

Lemma fired_by_step d p n :
  1 <= d -> 1 <= p -> 0 <= n ->
  (n + 1 - d =? p * fired_by d p n)
  = (d <=? n + 1) && ((n + 1 - d) mod p =? 0) /\
  fired_by d p (n + 1)
  = fired_by d p n
    + (if (d <=? n + 1) && ((n + 1 - d) mod p =? 0) then 1 else 0) /\
  0 <= fired_by d p n /\
  (d <= n -> p * fired_by d p n <= n - d + p).
Proof.
  intros Hd Hp Hn. unfold fired_by.
  destruct (Z.ltb_spec n d) as [Hlt|Hge].
  - (* not reached yet *)
    destruct (Z.ltb_spec (n + 1) d) as [Hlt'|Hge'].
    + destruct (Z.leb_spec d (n + 1)); [lia|]. cbn [andb].
      split; [apply Z.eqb_neq; lia|]. split; [lia|]. split; lia.
    + assert (E : n + 1 - d = 0) by lia. rewrite E.
      rewrite Z.mod_0_l, Z.div_0_l by lia.
      destruct (Z.leb_spec d (n + 1)); [|lia].
      change (0 =? 0) with true. cbn [andb].
      split; [apply Z.eqb_eq; lia|]. split; [lia|]. split; lia.
  - destruct (Z.ltb_spec (n + 1) d) as [Hlt'|_]; [lia|].
    destruct (Z.leb_spec d (n + 1)); [|lia]. cbn [andb].
    pose proof (Z.div_mod (n - d) p ltac:(lia)) as Hdm.
    pose proof (Z.mod_pos_bound (n - d) p ltac:(lia)) as Hr.
    set (q := (n - d) / p) in *. set (r := (n - d) mod p) in *.
    assert (Hq : 0 <= q) by (subst q; apply Z.div_pos; lia).
    destruct (Z.eq_dec (r + 1) p) as [E|NE].
    + assert (Hm : (n + 1 - d) mod p = 0)
        by (symmetry; apply (Z.mod_unique _ _ (q + 1)); [lia|nia]).
      assert (Hq' : (n + 1 - d) / p = q + 1)
        by (symmetry; apply (Z.div_unique _ _ _ 0); [lia|nia]).
      rewrite Hm, Hq'. change (0 =? 0) with true.
      split; [apply Z.eqb_eq; nia|]. split; [lia|]. split; [lia|]. nia.
    + assert (Hm : (n + 1 - d) mod p = r + 1)
        by (symmetry; apply (Z.mod_unique _ _ q); [lia|nia]).
      assert (Hq' : (n + 1 - d) / p = q)
        by (symmetry; apply (Z.div_unique _ _ _ (r + 1)); [lia|nia]).
      rewrite Hm, Hq'.
      destruct (Z.eqb_spec (r + 1) 0); [lia|].
      split; [apply Z.eqb_neq; nia|]. split; [lia|]. split; [lia|]. nia.
Qed.

Section PeriodicRuns.

Variables RTCIV_RTCIF LPM4_bits RTCIV : Z.
Hypothesis pending : Z.land RTCIV RTCIV_RTCIF <> 0.
Variables (slot : bool) (s : rtc_state) (d p : Z) (horizon : nat).
Hypothesis epoch_nonneg : 0 <= rtcepoch s.
Hypothesis ahead : 1 <= d.
Hypothesis period : 1 <= p.
Hypothesis armed : slot_target slot s = rtcepoch s + d.
Hypothesis rearmed : slot_incr slot s = p.
Hypothesis target_fits : rtcepoch s + d < 4294967296.
Hypothesis room : rtcepoch s + Z.of_nat horizon + p < 4294967296.

Lemma periodic_run n :
  (n <= horizon)%nat ->
  rtcepoch (ticks RTCIV_RTCIF LPM4_bits RTCIV n s) = rtcepoch s + Z.of_nat n /\
  slot_incr slot (ticks RTCIV_RTCIF LPM4_bits RTCIV n s) = p /\
  slot_target slot (ticks RTCIV_RTCIF LPM4_bits RTCIV n s)
  = rtcepoch s + d + p * fired_by d p (Z.of_nat n) /\
  flag_set (slot_flag slot) (ticks RTCIV_RTCIF LPM4_bits RTCIV n s)
  = flag_set (slot_flag slot) s || (d <=? Z.of_nat n).
Proof.
  induction n as [|n IH]; intros Hn.
  - cbn [ticks]. rewrite Z.add_0_r.
    assert (F0 : fired_by d p (Z.of_nat 0) = 0)
      by (unfold fired_by; destruct (Z.ltb_spec (Z.of_nat 0) d); [reflexivity|lia]).
    rewrite F0. destruct (Z.leb_spec d (Z.of_nat 0)); [lia|].
    rewrite orb_false_r. repeat split; try assumption; lia.
  - destruct IH as (IHe & IHi & IHt & IHf); [lia|].
    cbn [ticks].
    destruct (RTC_ISR_slot RTCIV_RTCIF LPM4_bits RTCIV pending slot 0
                (ticks RTCIV_RTCIF LPM4_bits RTCIV n s)) as (Ee & Et & Ei & Ef).
    cbv zeta in *. rewrite Ee, Et, Ei, Ef, IHf, IHi.
    unfold slot_due. rewrite IHe, IHt.
    destruct (fired_by_step d p (Z.of_nat n) ahead period ltac:(lia))
      as (Hfire & Hstep & Hfb0 & Hfb).
    replace (Z.of_nat (S n)) with (Z.of_nat n + 1) by lia.
    rewrite Hstep.
    rewrite (u32_small (rtcepoch s + Z.of_nat n + 1)) by (unfold is_u32; lia).
    assert (Hpos : (0 <? rtcepoch s + d + p * fired_by d p (Z.of_nat n)) = true)
      by (apply Z.ltb_lt; nia).
    assert (Hp0 : (0 <? p) = true) by (apply Z.ltb_lt; lia).
    assert (Heq : (rtcepoch s + Z.of_nat n + 1
                   =? rtcepoch s + d + p * fired_by d p (Z.of_nat n))
                  = (Z.of_nat n + 1 - d =? p * fired_by d p (Z.of_nat n))).
    { destruct (Z.eqb_spec (rtcepoch s + Z.of_nat n + 1)
                  (rtcepoch s + d + p * fired_by d p (Z.of_nat n)));
        destruct (Z.eqb_spec (Z.of_nat n + 1 - d) (p * fired_by d p (Z.of_nat n)));
        try reflexivity; lia. }
    rewrite Hpos, Hp0, Heq, Hfire. cbn [andb]. rewrite andb_true_r.
    split; [lia|]. split; [reflexivity|]. split.
    + destruct ((d <=? Z.of_nat n + 1) && ((Z.of_nat n + 1 - d) mod p =? 0))
        eqn:Hc.
      * apply Z.eqb_eq in Hfire.
        rewrite u32_small by (unfold is_u32; nia). nia.
      * nia.
    + destruct (flag_set (slot_flag slot) s); cbn [orb]; [reflexivity|].
      destruct (Z.leb_spec d (Z.of_nat n)) as [L|L];
        destruct (Z.leb_spec d (Z.of_nat n + 1)) as [L'|L'];
        cbn [orb andb]; try reflexivity; try lia.
      assert (E : Z.of_nat n + 1 - d = 0) by lia.
      rewrite E, Z.mod_0_l by lia. reflexivity.
Qed.

Lemma periodic_due k :
  (1 <= k <= horizon)%nat ->
  slot_due slot (ticks RTCIV_RTCIF LPM4_bits RTCIV (k - 1) s)
  = (d <=? Z.of_nat k) && ((Z.of_nat k - d) mod p =? 0).
Proof.
  intros Hk. destruct (periodic_run (k - 1)) as (He & _ & Ht & _); [lia|].
  unfold slot_due. rewrite He, Ht.
  destruct (fired_by_step d p (Z.of_nat (k - 1)) ahead period ltac:(lia))
    as (Hfire & _ & Hfb0 & _).
  replace (Z.of_nat (k - 1) + 1) with (Z.of_nat k) in * by lia.
  replace (rtcepoch s + Z.of_nat (k - 1) + 1) with (rtcepoch s + Z.of_nat k) by lia.
  rewrite u32_small by (unfold is_u32; lia).
  rewrite <- Hfire.
  assert (Hpos : (0 <? rtcepoch s + d + p * fired_by d p (Z.of_nat (k - 1))) = true)
    by (apply Z.ltb_lt; nia).
  rewrite Hpos. cbn [andb].
  destruct (Z.eqb_spec (rtcepoch s + Z.of_nat k)
              (rtcepoch s + d + p * fired_by d p (Z.of_nat (k - 1))));
    destruct (Z.eqb_spec (Z.of_nat k - d) (p * fired_by d p (Z.of_nat (k - 1))));
    try reflexivity; lia.
Qed.

End PeriodicRuns.

(** X16.  A periodic alarm.  Let a slot be armed [d >= 1] ticks ahead
    with increment [p >= 1], and let the counter not wrap within [n]
    ticks (nor the re-armed target).  Then tick number [k] fires the
    alarm exactly when [k >= d] and [p] divides [k - d]; after [n] ticks
    the target has moved by [p] once for every firing; and the sticky
    flag reads set from tick [d] on. *)
Theorem periodic_alarm RTCIV_RTCIF LPM4_bits RTCIV slot s d p (n : nat) :
  Z.land RTCIV RTCIV_RTCIF <> 0 ->
  0 <= rtcepoch s -> 1 <= d -> 1 <= p ->
  slot_target slot s = rtcepoch s + d ->
  slot_incr slot s = p ->
  rtcepoch s + d < 4294967296 ->
  rtcepoch s + Z.of_nat n + p < 4294967296 ->
  (forall k, (1 <= k <= n)%nat ->
     slot_due slot (ticks RTCIV_RTCIF LPM4_bits RTCIV (k - 1) s)
     = (d <=? Z.of_nat k) && ((Z.of_nat k - d) mod p =? 0)) /\
  slot_target slot (ticks RTCIV_RTCIF LPM4_bits RTCIV n s)
  = rtcepoch s + d + p * fired_by d p (Z.of_nat n) /\
  flag_set (slot_flag slot) (ticks RTCIV_RTCIF LPM4_bits RTCIV n s)
  = flag_set (slot_flag slot) s || (d <=? Z.of_nat n).
Proof.
  intros Hp He Hd Hper Ha Hi Hfit Hroom.
  split.
  - intros k Hk.
    exact (periodic_due RTCIV_RTCIF LPM4_bits RTCIV Hp slot s d p n
             He Hd Hper Ha Hi Hfit Hroom k Hk).
  - destruct (periodic_run RTCIV_RTCIF LPM4_bits RTCIV Hp slot s d p n
                He Hd Hper Ha Hi Hfit Hroom n (le_n n)) as (_ & _ & Ht & Hf).
    split; assumption.
Qed.

Lemma periodic_alarm_witness :
  Z.land 2 2 <> 0 /\ 0 <= rtcepoch rtc_alarm1_every_60 /\ 1 <= 30 /\ 1 <= 60 /\
  slot_target true rtc_alarm1_every_60 = rtcepoch rtc_alarm1_every_60 + 30 /\
  slot_incr true rtc_alarm1_every_60 = 60 /\
  rtcepoch rtc_alarm1_every_60 + 30 < 4294967296 /\
  rtcepoch rtc_alarm1_every_60 + Z.of_nat 100 + 60 < 4294967296 /\
  slot_target true (ticks 2 240 2 100 rtc_alarm1_every_60) = 1150.
Proof.
  assert (Hp : Z.land 2 2 <> 0) by (cbn; lia).
  assert (He : 0 <= rtcepoch rtc_alarm1_every_60) by (cbn; lia).
  assert (Hd : 1 <= 30) by lia.
  assert (Hper : 1 <= 60) by lia.
  assert (Ha : slot_target true rtc_alarm1_every_60
               = rtcepoch rtc_alarm1_every_60 + 30) by reflexivity.
  assert (Hi : slot_incr true rtc_alarm1_every_60 = 60) by reflexivity.
  assert (Hfit : rtcepoch rtc_alarm1_every_60 + 30 < 4294967296) by (cbn; lia).
  assert (Hroom : rtcepoch rtc_alarm1_every_60 + Z.of_nat 100 + 60 < 4294967296)
    by (cbn; lia).
  split; [exact Hp|]. split; [exact He|]. split; [exact Hd|]. split; [exact Hper|].
  split; [exact Ha|]. split; [exact Hi|]. split; [exact Hfit|]. split; [exact Hroom|].
  rewrite (proj1 (proj2 (periodic_alarm 2 240 2 true rtc_alarm1_every_60 30 60 100
                           Hp He Hd Hper Ha Hi Hfit Hroom))).
  reflexivity.
Defined.

(** X17.  The two alarm slots do not interfere.  What a slot does depends
    on the epoch and on its own target and increment only: two states
    that agree on these agree, after any number of ticks, on the epoch, on
    the target of the slot and on whether the next tick fires it, whatever
    the other slot and the status word hold. *)
Theorem alarm_slots_independent RTCIV_RTCIF LPM4_bits RTCIV slot s1 s2 n :
  rtcepoch s1 = rtcepoch s2 ->
  slot_target slot s1 = slot_target slot s2 ->
  slot_incr slot s1 = slot_incr slot s2 ->
  rtcepoch (ticks RTCIV_RTCIF LPM4_bits RTCIV n s1)
  = rtcepoch (ticks RTCIV_RTCIF LPM4_bits RTCIV n s2) /\
  slot_target slot (ticks RTCIV_RTCIF LPM4_bits RTCIV n s1)
  = slot_target slot (ticks RTCIV_RTCIF LPM4_bits RTCIV n s2) /\
  slot_due slot (ticks RTCIV_RTCIF LPM4_bits RTCIV n s1)
  = slot_due slot (ticks RTCIV_RTCIF LPM4_bits RTCIV n s2) /\
  (flag_set (slot_flag slot) s1 = flag_set (slot_flag slot) s2 ->
   flag_set (slot_flag slot) (ticks RTCIV_RTCIF LPM4_bits RTCIV n s1)
   = flag_set (slot_flag slot) (ticks RTCIV_RTCIF LPM4_bits RTCIV n s2)).
Proof.
  intros He Ht Hi.
  destruct (Z.eq_dec (Z.land RTCIV RTCIV_RTCIF) 0) as [H0|Hp].
  { rewrite !ticks_not_pending by exact H0.
    unfold slot_due. rewrite He, Ht. repeat split; auto. }
  assert (Hrun :
    rtcepoch (ticks RTCIV_RTCIF LPM4_bits RTCIV n s1)
    = rtcepoch (ticks RTCIV_RTCIF LPM4_bits RTCIV n s2) /\
    slot_target slot (ticks RTCIV_RTCIF LPM4_bits RTCIV n s1)
    = slot_target slot (ticks RTCIV_RTCIF LPM4_bits RTCIV n s2) /\
    slot_incr slot (ticks RTCIV_RTCIF LPM4_bits RTCIV n s1)
    = slot_incr slot (ticks RTCIV_RTCIF LPM4_bits RTCIV n s2) /\
    (flag_set (slot_flag slot) s1 = flag_set (slot_flag slot) s2 ->
     flag_set (slot_flag slot) (ticks RTCIV_RTCIF LPM4_bits RTCIV n s1)
     = flag_set (slot_flag slot) (ticks RTCIV_RTCIF LPM4_bits RTCIV n s2))).
  { induction n as [|n (IHe & IHt & IHi & IHf)]; cbn [ticks].
    - repeat split; auto.
    - destruct (RTC_ISR_slot RTCIV_RTCIF LPM4_bits RTCIV Hp slot 0
                  (ticks RTCIV_RTCIF LPM4_bits RTCIV n s1)) as (E1 & T1 & I1 & F1).
      destruct (RTC_ISR_slot RTCIV_RTCIF LPM4_bits RTCIV Hp slot 0
                  (ticks RTCIV_RTCIF LPM4_bits RTCIV n s2)) as (E2 & T2 & I2 & F2).
      cbv zeta in *. rewrite E1, E2, T1, T2, I1, I2, F1, F2.
      unfold slot_due. rewrite IHe, IHt, IHi.
      repeat split; try reflexivity.
      intros Hf. rewrite (IHf Hf). reflexivity. }
  destruct Hrun as (Re & Rt & _ & Rf).
  unfold slot_due. rewrite Re, Rt. repeat split; auto.
Qed.

Lemma alarm_slots_independent_witness :
  rtcepoch rtc_alarm_armed = rtcepoch (mkRtc 1000 1010 5 1003 7 256) /\
  slot_target false rtc_alarm_armed
  = slot_target false (mkRtc 1000 1010 5 1003 7 256) /\
  slot_incr false rtc_alarm_armed = slot_incr false (mkRtc 1000 1010 5 1003 7 256) /\
  slot_target false (ticks 2 240 2 12 rtc_alarm_armed)
  = slot_target false (ticks 2 240 2 12 (mkRtc 1000 1010 5 1003 7 256)).
Proof.
  split; [reflexivity|]. split; [reflexivity|]. split; [reflexivity|].
  exact (proj1 (proj2 (alarm_slots_independent 2 240 2 false rtc_alarm_armed
                         (mkRtc 1000 1010 5 1003 7 256) 12
                         eq_refl eq_refl eq_refl))).
Defined.

(** * Properties of the initialisation *)

Lemma u16_testbit x i : 0 <= i < 16 -> Z.testbit (u16 x) i = Z.testbit x i.
Proof.
  intros H. unfold u16. change 65536 with (2 ^ 16).
  apply Z.mod_pow2_bits_low. lia.
Qed.

Lemma rtc_init_start_spec h s r s' r' :
  rtc_init_start h s r = Done (s', r') ->
  s' = s /\ RTCMOD r' = RTCMOD r /\
  forall i, 0 <= i < 16 ->
    Z.testbit (RTCIE h) i || Z.testbit (RTCSR h) i = true ->
    Z.testbit (RTCCTL r') i = true.
Proof.
  unfold rtc_init_start. cbv zeta. cbn [RTCCTL RTCMOD].
  intros [= <- <-]. cbn [RTCCTL RTCMOD]. repeat split.
  intros i Hi Hb.
  rewrite u16_testbit, Z.lor_spec, u16_testbit, Z.lor_spec by exact Hi.
  destruct (Z.testbit (RTCIE h) i); destruct (Z.testbit (RTCSR h) i);
    try discriminate; rewrite ?orb_true_r; reflexivity.
Qed.

(** X18.  The contract of [rtc_init].  Whenever it returns, the epoch and
    both alarm slots are as before and every earlier status flag is gone
    ([RTC_TICK_DOES_WAKEUP] included): the status word is either 0 or
    [RTC_GENERAL_ERROR].  In the error case the only register write was
    the clearing of [RTCIF] in [RTCCTL], so the call has not started the
    counter nor enabled its interrupt; in the other case [RTCCTL] has the
    bits of [RTCSR] and [RTCIE] set. *)
Theorem rtc_init_contract h rtc_clock_source cs s r s' r' :
  rtc_init h rtc_clock_source cs s r = Done (s', r') ->
  rtcepoch s' = rtcepoch s /\
  rtcalarm0 s' = rtcalarm0 s /\ rtcalarm0_incr s' = rtcalarm0_incr s /\
  rtcalarm1 s' = rtcalarm1 s /\ rtcalarm1_incr s' = rtcalarm1_incr s /\
  ((rtc_status s' = RTC_GENERAL_ERROR /\
    RTCCTL r' = u16 (Z.land (RTCCTL r) (Z.lnot (RTCIF h))) /\
    RTCMOD r' = RTCMOD r)
   \/
   (rtc_status s' = 0 /\
    forall i, 0 <= i < 16 ->
      Z.testbit (RTCIE h) i || Z.testbit (RTCSR h) i = true ->
      Z.testbit (RTCCTL r') i = true)).
Proof.
  unfold rtc_init. cbv zeta.
  assert (Herr : forall rr,
            Done (with_status (with_status s 0)
                    (Z.lor (rtc_status (with_status s 0)) RTC_GENERAL_ERROR), rr)
            = Done (s', r') ->
            rtcepoch s' = rtcepoch s /\
            rtcalarm0 s' = rtcalarm0 s /\ rtcalarm0_incr s' = rtcalarm0_incr s /\
            rtcalarm1 s' = rtcalarm1 s /\ rtcalarm1_incr s' = rtcalarm1_incr s /\
            rtc_status s' = RTC_GENERAL_ERROR /\ r' = rr).
  { intros rr [= <- <-]. repeat split. }
  assert (Hok : forall rr,
            rtc_init_start h (with_status s 0) rr = Done (s', r') ->
            rtcepoch s' = rtcepoch s /\
            rtcalarm0 s' = rtcalarm0 s /\ rtcalarm0_incr s' = rtcalarm0_incr s /\
            rtcalarm1 s' = rtcalarm1 s /\ rtcalarm1_incr s' = rtcalarm1_incr s /\
            rtc_status s' = 0 /\
            forall i, 0 <= i < 16 ->
              Z.testbit (RTCIE h) i || Z.testbit (RTCSR h) i = true ->
              Z.testbit (RTCCTL r') i = true).
  { intros rr Hs. apply rtc_init_start_spec in Hs. destruct Hs as (-> & _ & Hb).
    repeat split. exact Hb. }
  destruct (rtc_clock_source =? RTC_CLOCK_XT1CLK h).
  { intros Hs. apply Hok in Hs. intuition. }
  destruct (rtc_clock_source =? RTC_CLOCK_VLOCLK h).
  { intros Hs. apply Hok in Hs. intuition. }
  destruct (HAS_CS h && (rtc_clock_source =? RTC_CLOCK_SMCLK h)).
  - destruct (negb (Z.land (CSCTL4 cs) (SELMS_7 h) =? SELMS_0 h)).
    + intros Hs. apply Herr in Hs.
      destruct Hs as (? & ? & ? & ? & ? & ? & ->). cbn [RTCCTL RTCMOD]. intuition.
    + destruct (dco_speed h (Z.land (CSCTL1 cs) (DCORSEL_7 h))) as [speed| |];
        cbn [bind]; try discriminate.
      destruct (Z.shiftr (Z.land (CSCTL5 cs) (DIVS_3 h)) 4 =? 0); [discriminate|].
      intros Hs. apply Hok in Hs. intuition.
  - intros Hs. apply Herr in Hs.
    destruct Hs as (? & ? & ? & ? & ? & ? & ->). cbn [RTCCTL RTCMOD]. intuition.
Qed.

Lemma rtc_init_contract_witness :
  rtc_init sample_h 7 sample_cs (mkRtc 1000 1010 5 0 0 0x0103) (mkRegs 0x0003 0)
  = Done (mkRtc 1000 1010 5 0 0 0x8000, mkRegs 0x0002 0) /\
  rtc_status (mkRtc 1000 1010 5 0 0 0x8000) = RTC_GENERAL_ERROR /\
  RTCMOD (mkRegs 0x0002 0) = RTCMOD (mkRegs 0x0003 0).
Proof.
  assert (H : rtc_init sample_h 7 sample_cs (mkRtc 1000 1010 5 0 0 0x0103)
                (mkRegs 0x0003 0)
              = Done (mkRtc 1000 1010 5 0 0 0x8000, mkRegs 0x0002 0))
    by reflexivity.
  split; [exact H|].
  destruct (rtc_init_contract _ _ _ _ _ _ _ H) as (_ & _ & _ & _ & _ & [E|E]).
  - destruct E as (Hs & _ & Hm). split; [exact Hs|exact Hm].
  - destruct E as (Hs & _). discriminate Hs.
Defined.

(** X19.  With SMCLK as the clock source, [rtc_init] divides the clock
    speed by the raw divider field [(CSCTL5 & DIVS_3) >> 4].  When SMCLK
    is derived from the DCO and that field is 0, the division is by zero:
    the behaviour is undefined. *)
Theorem rtc_init_smclk_divider_zero h cs s r :
  HAS_CS h = true ->
  RTC_CLOCK_SMCLK h <> RTC_CLOCK_XT1CLK h ->
  RTC_CLOCK_SMCLK h <> RTC_CLOCK_VLOCLK h ->
  Z.land (CSCTL4 cs) (SELMS_7 h) = SELMS_0 h ->
  Z.shiftr (Z.land (CSCTL5 cs) (DIVS_3 h)) 4 = 0 ->
  rtc_init h (RTC_CLOCK_SMCLK h) cs s r = Undefined.
Proof.
  intros Hcs Hx Hv Hsel Hdiv. unfold rtc_init. cbv zeta.
  destruct (Z.eqb_spec (RTC_CLOCK_SMCLK h) (RTC_CLOCK_XT1CLK h)); [contradiction|].
  destruct (Z.eqb_spec (RTC_CLOCK_SMCLK h) (RTC_CLOCK_VLOCLK h)); [contradiction|].
  rewrite Hcs, Z.eqb_refl, Hsel, Z.eqb_refl, Hdiv. cbn [andb negb].
  change (0 =? 0) with true. cbv iota.
  unfold dco_speed.
  repeat match goal with
         | |- context [if ?c then Done _ else _] => destruct c
         end; reflexivity.
Qed.

Lemma rtc_init_smclk_divider_zero_witness :
  HAS_CS sample_h = true /\
  RTC_CLOCK_SMCLK sample_h <> RTC_CLOCK_XT1CLK sample_h /\
  RTC_CLOCK_SMCLK sample_h <> RTC_CLOCK_VLOCLK sample_h /\
  Z.land (CSCTL4 sample_cs) (SELMS_7 sample_h) = SELMS_0 sample_h /\
  Z.shiftr (Z.land (CSCTL5 sample_cs) (DIVS_3 sample_h)) 4 = 0 /\
  rtc_init sample_h (RTC_CLOCK_SMCLK sample_h) sample_cs rtc_no_alarm (mkRegs 0 0)
  = Undefined.
Proof.
  assert (Hcs : HAS_CS sample_h = true) by reflexivity.
  assert (Hx : RTC_CLOCK_SMCLK sample_h <> RTC_CLOCK_XT1CLK sample_h)
    by (cbn; lia).
  assert (Hv : RTC_CLOCK_SMCLK sample_h <> RTC_CLOCK_VLOCLK sample_h)
    by (cbn; lia).
  assert (Hsel : Z.land (CSCTL4 sample_cs) (SELMS_7 sample_h) = SELMS_0 sample_h)
    by reflexivity.
  assert (Hdiv : Z.shiftr (Z.land (CSCTL5 sample_cs) (DIVS_3 sample_h)) 4 = 0)
    by reflexivity.
  split; [exact Hcs|]. split; [exact Hx|]. split; [exact Hv|].
  split; [exact Hsel|]. split; [exact Hdiv|].
  exact (rtc_init_smclk_divider_zero sample_h sample_cs rtc_no_alarm (mkRegs 0 0)
           Hcs Hx Hv Hsel Hdiv).
Defined.

(** * Further properties, across functions *)

(** X20.  The two directions agree on the day of the year:
    [rtc_calculate_yday], given the structure that [rtc_interpret] returns
    for a supported epoch and the leap flag that [rtc_epoch] derives for
    its year, computes the [tm_yday] that [rtc_interpret] stored. *)
Theorem rtc_calculate_yday_rtc_interpret e tb latest_epoch :
  EPOCH_AFTER_FIRST_LEAPYEAR <= e < 4294967296 ->
  exists t, rtc_interpret e tb = Done (TIMEBUF, t) /\
            rtc_calculate_yday t latest_epoch (year_is_leap (tm_year t))
            = Done (tm_yday t).
Proof.
  intros H. destruct (rtc_interpret_supported e tb H) as (t & Ht & Hcal & _).
  exists t. split; [exact Ht|].
  destruct (calendar_leap_year e t H Hcal) as (_ & Hy).
  pose proof (calendar_invariant e t H Hcal) as [Hmon Hmd _ Hyd Hymd _ _ _ _].
  pose proof (month_length_bounds (leap_year (tm_year t)) (tm_mon t)) as Hml.
  rewrite rtc_calculate_yday_spec by lia.
  rewrite year_is_leap_leap_year by lia.
  unfold yday_of_month_day. cbv zeta.
  destruct (Z.ltb_spec 0 (tm_mday t)); [|lia].
  rewrite (s16_small (tm_mday t - 1)) by (unfold is_s16; lia).
  rewrite <- Hymd.
  rewrite u16_small by (unfold is_u16; destruct (leap_year (tm_year t)); lia).
  reflexivity.
Qed.

Lemma rtc_calculate_yday_rtc_interpret_witness :
  EPOCH_AFTER_FIRST_LEAPYEAR <= 1000000000 < 4294967296 /\
  exists t, rtc_interpret 1000000000 tm_blank = Done (TIMEBUF, t) /\
            rtc_calculate_yday t 0 (year_is_leap (tm_year t)) = Done (tm_yday t).
Proof.
  assert (H : EPOCH_AFTER_FIRST_LEAPYEAR <= 1000000000 < 4294967296)
    by (unfold EPOCH_AFTER_FIRST_LEAPYEAR; lia).
  split; [exact H|].
  exact (rtc_calculate_yday_rtc_interpret 1000000000 tm_blank 0 H).
Defined.

(** X21.  Whole days.  Adding [k] days to a supported epoch leaves the
    hour, minute and second that [rtc_interpret] returns as they are and
    moves the weekday on by [k] modulo 7. *)
Theorem rtc_interpret_add_days e k tb1 tb2 :
  EPOCH_AFTER_FIRST_LEAPYEAR <= e -> 0 <= k ->
  e + 86400 * k < 4294967296 ->
  exists t1 t2,
    rtc_interpret e tb1 = Done (TIMEBUF, t1) /\
    rtc_interpret (e + 86400 * k) tb2 = Done (TIMEBUF, t2) /\
    tm_hour t2 = tm_hour t1 /\ tm_min t2 = tm_min t1 /\ tm_sec t2 = tm_sec t1 /\
    tm_wday t2 = (tm_wday t1 + k) mod 7.
Proof.
  intros Hlo Hk Hhi.
  assert (H1 : EPOCH_AFTER_FIRST_LEAPYEAR <= e < 4294967296) by lia.
  assert (H2 : EPOCH_AFTER_FIRST_LEAPYEAR <= e + 86400 * k < 4294967296) by lia.
  destruct (rtc_interpret_supported e tb1 H1) as (t1 & Ht1 & Hc1 & _).
  destruct (rtc_interpret_supported (e + 86400 * k) tb2 H2) as (t2 & Ht2 & Hc2 & _).
  exists t1, t2. split; [exact Ht1|]. split; [exact Ht2|].
  destruct (calendar_epoch e t1 H1 Hc1) as (He1 & Htod1 & _).
  destruct (calendar_epoch _ t2 H2 Hc2) as (He2 & Htod2 & _).
  pose proof (calendar_invariant e t1 H1 Hc1) as [_ _ _ _ _ Hh1 Hm1 Hs1 _].
  pose proof (calendar_invariant _ t2 H2 Hc2) as [_ _ _ _ _ Hh2 Hm2 Hs2 _].
  pose proof (cal_wday _ _ Hc1) as Hw1. pose proof (cal_wday _ _ Hc2) as Hw2.
  set (D1 := year_day_number (tm_year t1) + tm_yday t1) in *.
  set (D2 := year_day_number (tm_year t2) + tm_yday t2) in *.
  assert (Hq1 : e / 86400 = D1)
    by (clearbody D1; clear - He1 Htod1; Z.div_mod_to_equations; lia).
  assert (Hq2 : (e + 86400 * k) / 86400 = D2)
    by (clearbody D2; clear - He2 Htod2; Z.div_mod_to_equations; lia).
  assert (HD : D2 = D1 + k /\
               3600 * tm_hour t2 + 60 * tm_min t2 + tm_sec t2
               = 3600 * tm_hour t1 + 60 * tm_min t1 + tm_sec t1)
    by (clearbody D1 D2; clear - He1 He2 Htod1 Htod2; lia).
  destruct HD as (HD & Htod).
  rewrite Hw1, Hw2, Hq1, Hq2, HD.
  repeat split; try lia.
  clearbody D1. clear. Z.div_mod_to_equations. lia.
Qed.

Lemma rtc_interpret_add_days_witness :
  EPOCH_AFTER_FIRST_LEAPYEAR <= 1000000000 /\ 0 <= 7 /\
  1000000000 + 86400 * 7 < 4294967296 /\
  exists t1 t2,
    rtc_interpret 1000000000 tm_blank = Done (TIMEBUF, t1) /\
    rtc_interpret (1000000000 + 86400 * 7) tm_blank = Done (TIMEBUF, t2) /\
    tm_hour t2 = tm_hour t1 /\ tm_wday t2 = (tm_wday t1 + 7) mod 7.
Proof.
  assert (H1 : EPOCH_AFTER_FIRST_LEAPYEAR <= 1000000000)
    by (unfold EPOCH_AFTER_FIRST_LEAPYEAR; lia).
  assert (H2 : 0 <= 7) by lia.
  assert (H3 : 1000000000 + 86400 * 7 < 4294967296) by lia.
  split; [exact H1|]. split; [exact H2|]. split; [exact H3|].
  destruct (rtc_interpret_add_days 1000000000 7 tm_blank tm_blank H1 H2 H3)
    as (t1 & t2 & Ht1 & Ht2 & Hh & _ & _ & Hw).
  exists t1, t2. split; [exact Ht1|]. split; [exact Ht2|]. split; [exact Hh|exact Hw].
Defined.
